(** * WriteIQ: a shallow embedding of the orchestration layer

    The development follows the Python sources module by module:
    [src/models.py], [src/constants.py], [src/prompts.py], [src/config.py],
    [src/services/gemini_service.py], [src/ui_state.py], [src/dialogs.py]
    and [src/ui.py].  Widgets are modelled by the data they hold, signals
    by the list of events a handler emits, and exceptions by explicit
    result types. *)

From Stdlib Require Import NArith ZArith Ascii String.
From stdpp Require Import base option list gmap.

Open Scope N_scope.

(** ** Python strings

    A Python [str] is a sequence of Unicode code points; we keep the code
    points as binary naturals.  [lit] reads an ASCII literal. *)

Definition pystr := list N.

Definition lit (s : string) : pystr :=
  List.map N_of_ascii (list_ascii_of_string s).
Arguments lit : simpl never.

(** [bool(s)] for a string: true exactly when it is not empty. *)
Definition str_truthy (s : pystr) : bool :=
  match s with [] => false | _ :: _ => true end.

(** [a or b] on strings. *)
Definition str_or (a b : pystr) : pystr := if str_truthy a then a else b.

(** [str.isspace] on one code point: the characters CPython's
    [_PyUnicode_IsWhitespace] accepts. *)
Definition isspace (c : N) : bool :=
  ((9 <=? c) && (c <=? 13)) || ((28 <=? c) && (c <=? 32))
  || (c =? 133) || (c =? 160) || (c =? 5760)
  || ((8192 <=? c) && (c <=? 8202))
  || (c =? 8232) || (c =? 8233) || (c =? 8239) || (c =? 8287) || (c =? 12288).

(** [str.lstrip()], [str.rstrip()] and [str.strip()] without argument. *)
Fixpoint lstrip (s : pystr) : pystr :=
  match s with
  | [] => []
  | c :: r => if isspace c then lstrip r else s
  end.

Definition rstrip (s : pystr) : pystr := rev (lstrip (rev s)).

Definition strip (s : pystr) : pystr := rstrip (lstrip s).

(** [str.upper] and [str.lower] on ASCII letters. *)
Definition ascii_upper (c : N) : N :=
  if (97 <=? c) && (c <=? 122) then c - 32 else c.

Definition ascii_lower (c : N) : N :=
  if (65 <=? c) && (c <=? 90) then c + 32 else c.

Definition is_ascii (c : N) : bool := c <? 128.

(** The warning sign of the user-visible messages: U+26A0 followed by the
    variation selector U+FE0F; and the ellipsis U+2026. *)
Definition warning_sign : pystr := [9888; 65039].
Definition ellipsis : pystr := [8230].

(** [f"⚠️ {message}"] *)
Definition warn (message : pystr) : pystr :=
  warning_sign ++ lit " " ++ message.

(** ** Python values, as [json.loads] and [Dict[str, Any]] have them *)

#[local] Set Warnings "-register-all".

Inductive pyval : Type :=
  | PNone
  | PBool (b : bool)
  | PInt (z : Z)
  | PFloat (bits : N)          (* the IEEE-754 binary64 pattern *)
  | PStr (s : pystr)
  | PList (l : list pyval)
  | PDict (d : gmap pystr pyval).

(** [bool(v)] *)
Definition truthy (v : pyval) : bool :=
  match v with
  | PNone => false
  | PBool b => b
  | PInt z => negb (z =? 0)%Z
  | PFloat bits => negb (N.land bits (2 ^ 63 - 1) =? 0)
  | PStr s => str_truthy s
  | PList l => match l with [] => false | _ => true end
  | PDict d => negb (bool_decide (d = ∅))
  end.

(** Exceptions are kept by class, for the classes the sources name or
    catch, each with the text [str(exc)] gives. *)
Inductive exn : Type :=
  | AttributeError (message : pystr)
  | FileNotFoundError (message : pystr)
  | OSError (message : pystr)
  | ValueError (message : pystr)
  | GeminiAPIError (message : pystr)
  | OtherException (message : pystr)     (* any other subclass of Exception *)
  | BaseExceptionOnly (message : pystr). (* KeyboardInterrupt, SystemExit, ... *)

(** [str(exc)] *)
Definition exn_str (e : exn) : pystr :=
  match e with
  | AttributeError m | FileNotFoundError m | OSError m | ValueError m
  | GeminiAPIError m | OtherException m | BaseExceptionOnly m => m
  end.

(** [isinstance(exc, Exception)] *)
Definition is_Exception (e : exn) : bool :=
  match e with BaseExceptionOnly _ => false | _ => true end.

(** [type(v).__name__] *)
Definition type_name (v : pyval) : pystr :=
  match v with
  | PNone => lit "NoneType"
  | PBool _ => lit "bool"
  | PInt _ => lit "int"
  | PFloat _ => lit "float"
  | PStr _ => lit "str"
  | PList _ => lit "list"
  | PDict _ => lit "dict"
  end.

Inductive result (A : Type) : Type :=
  | Ok (a : A)
  | Raise (e : exn).
Arguments Ok {A} a.
Arguments Raise {A} e.

Definition bind {A B} (r : result A) (k : A -> result B) : result B :=
  match r with Ok a => k a | Raise e => Raise e end.

Notation "'let!' x ':=' r 'in' k" := (bind r (fun x => k))
  (at level 10, x name, r at level 100, k at level 200).

(** [data.get(key, default)]: defined on dictionaries only. *)
Definition py_get (data : pyval) (key : pystr) (default : pyval) : result pyval :=
  match data with
  | PDict d => Ok (match d !! key with Some v => v | None => default end)
  | _ => Raise (AttributeError
                  (lit "'" ++ type_name data ++ lit "' object has no attribute 'get'"))
  end.

(** ** [src/models.py] *)

Module models.

Definition DEFAULT_MODEL_NAME : pystr := lit "gemini-2.5-flash".

(** The [Language] enumeration, its members in definition order. *)
Inductive Language : Type :=
  | ENGLISH | CZECH | GERMAN | FRENCH | SPANISH | ITALIAN
  | POLISH | PORTUGUESE | RUSSIAN | JAPANESE | CHINESE.

Definition Language_members : list Language :=
  [ENGLISH; CZECH; GERMAN; FRENCH; SPANISH; ITALIAN;
   POLISH; PORTUGUESE; RUSSIAN; JAPANESE; CHINESE].

Definition code (l : Language) : pystr :=
  match l with
  | ENGLISH => lit "en" | CZECH => lit "cs" | GERMAN => lit "de"
  | FRENCH => lit "fr" | SPANISH => lit "es" | ITALIAN => lit "it"
  | POLISH => lit "pl" | PORTUGUESE => lit "pt" | RUSSIAN => lit "ru"
  | JAPANESE => lit "ja" | CHINESE => lit "zh"
  end.

Definition label (l : Language) : pystr :=
  match l with
  | ENGLISH => lit "English" | CZECH => lit "Czech" | GERMAN => lit "German"
  | FRENCH => lit "French" | SPANISH => lit "Spanish" | ITALIAN => lit "Italian"
  | POLISH => lit "Polish" | PORTUGUESE => lit "Portuguese"
  | RUSSIAN => lit "Russian" | JAPANESE => lit "Japanese"
  | CHINESE => lit "Chinese"
  end.

Definition to_combo_tuple (l : Language) : pystr * pystr := (label l, code l).

Section Lower.

(** [str.lower] is the ASCII map on ASCII strings; on other strings it is
    the Unicode lowering of the interpreter, taken as given. *)
Variable unicode_lower : pystr -> pystr.

Definition lower (s : pystr) : pystr :=
  if forallb is_ascii s then List.map ascii_lower s else unicode_lower s.

(** The loop of [Language.from_code] over the members. *)
Fixpoint from_code_loop (members : list Language) (normalized : pystr)
  : option Language :=
  match members with
  | [] => None
  | language :: rest =>
      if bool_decide (code language = normalized) then Some language
      else from_code_loop rest normalized
  end.

(** [Language.from_code(code)], [code : str | None]. *)
Definition from_code (c : option pystr) : Language :=
  let normalized := lower (str_or (default [] c) []) in
  match from_code_loop Language_members normalized with
  | Some language => language
  | None => ENGLISH
  end.

End Lower.

(** The dataclasses.  Python does not enforce the [str] annotations, so a
    field holds whatever value was stored in it: the records are read at
    [pyval] for what [from_dict] builds and at [pystr] where the window
    keeps strings in them. *)
Record UserSettings (A : Type) : Type := mkUserSettings {
  default_language : A;
  model_name : A
}.
Arguments mkUserSettings {A} _ _.
Arguments default_language {A} _.
Arguments model_name {A} _.

(** [UserSettings()] *)
Definition UserSettings_default : UserSettings pyval :=
  {| default_language := PStr (code ENGLISH);
     model_name := PStr DEFAULT_MODEL_NAME |}.

Definition UserSettings_from_dict (data : pyval) : result (UserSettings pyval) :=
  if negb (truthy data) then Ok UserSettings_default
  else
    let! dl := py_get data (lit "default_language")
                 (default_language UserSettings_default) in
    let! mn := py_get data (lit "model_name")
                 (model_name UserSettings_default) in
    Ok {| default_language := dl; model_name := mn |}.

Definition UserSettings_to_dict (self : UserSettings pyval) : pyval :=
  PDict (<[lit "default_language" := default_language self]>
         (<[lit "model_name" := model_name self]> ∅)).

Record AppConfig (A : Type) : Type := mkAppConfig {
  api_key : A;
  settings : UserSettings A
}.
Arguments mkAppConfig {A} _ _.
Arguments api_key {A} _.
Arguments settings {A} _.

(** [AppConfig()] *)
Definition AppConfig_default : AppConfig pyval :=
  {| api_key := PStr []; settings := UserSettings_default |}.

Definition AppConfig_from_dict (data : pyval) : result (AppConfig pyval) :=
  if negb (truthy data) then Ok AppConfig_default
  else
    let! sd := py_get data (lit "settings") PNone in
    let! settings := UserSettings_from_dict sd in
    let! key := py_get data (lit "api_key") (PStr []) in
    Ok {| api_key := key; settings := settings |}.

Definition AppConfig_to_dict (self : AppConfig pyval) : pyval :=
  PDict (<[lit "api_key" := api_key self]>
         (<[lit "settings" := UserSettings_to_dict (settings self)]> ∅)).

End models.

(** ** [src/constants.py] *)

Module constants.
Import models.

Definition DEFAULT_LANGUAGE_CODE : pystr := code ENGLISH.

Definition LANGUAGE_OPTIONS : list (pystr * pystr) :=
  List.map to_combo_tuple Language_members.

(** [LANGUAGE_LABEL_BY_CODE.get(c)] *)
Definition LANGUAGE_LABEL_BY_CODE (c : pystr) : option pystr :=
  label <$> List.find (fun l => bool_decide (code l = c)) Language_members.

Definition MODEL_OPTIONS : list (pystr * pystr) :=
  [ (DEFAULT_MODEL_NAME, lit "Gemini 2.5 Flash (speed)");
    (lit "gemini-1.5-pro", lit "Gemini 1.5 Pro (quality)") ].

(** [MODEL_LABEL_BY_NAME.get(name, default)] *)
Definition MODEL_LABEL_BY_NAME (name default : pystr) : pystr :=
  match List.find (fun o => bool_decide (o.1 = name)) MODEL_OPTIONS with
  | Some o => o.2
  | None => default
  end.

End constants.

(** ** [src/prompts.py] *)

Module prompts.
Import models.

Definition build_grammar_prompt (text : pystr) : pystr :=
  lit "You are an expert proofreader. "
  ++ lit "Correct grammar, punctuation, and spelling while preserving the original tone. "
  ++ lit "Return only the corrected text without explanations."
  ++ [10; 10]
  ++ text.

(** The language codes are ASCII, where [str.upper] is [ascii_upper]. *)
Definition build_translation_prompt (text : pystr) (target_language : Language)
  : pystr :=
  lit "Translate the following text into " ++ label target_language
  ++ lit " (" ++ List.map ascii_upper (code target_language) ++ lit "). "
  ++ lit "Detect the source language automatically, preserve tone, and keep formatting when possible. "
  ++ lit "Return only the translated text."
  ++ [10; 10]
  ++ text.

End prompts.

(** ** [src/config.py] *)

Module config.
Import models.

(** What [path.read_text(encoding="utf-8")] does: the file's text, or one
    of the exceptions the function handles ([UnicodeDecodeError] is a
    [ValueError]). *)
Inductive read_outcome : Type :=
  | ReadText (raw : pystr)
  | ReadFails (e : exn).

Section Config.

(** [json.loads]: the parsed value, or the exception it raises
    ([JSONDecodeError] is a [ValueError]). *)
Variable json_loads : pystr -> result pyval.

(** The value [None] of [Dict | None] is [PNone]. *)
Definition _read_config_file (file : read_outcome) : result pyval :=
  let body :=
    match file with
    | ReadText raw => json_loads raw
    | ReadFails e => Raise e
    end in
  match body with
  | Ok v => Ok v
  | Raise (FileNotFoundError _) => Ok PNone
  | Raise (OSError _) => Ok PNone
  | Raise (ValueError _) => Ok PNone
  | Raise e => Raise e
  end.

Definition load_config (file : read_outcome) : result (AppConfig pyval) :=
  let! data := _read_config_file file in
  AppConfig_from_dict data.

End Config.

(** [save_config], here under the name of what it does, the window's
    effect of calling it being [qt.save_config].  [json_dumps] is
    [json.dumps(., indent=2)]; the file
    is kept as what [read_text] will do with it.  [mkdir] and
    [write_text] may raise: [mkdir] leaves the file as it is, a failed
    [write_text] leaves what the system left of it. *)
Definition save_config_to_disk (json_dumps : pyval -> pystr)
    (mkdir_raises : option exn) (write_raises : option (exn * read_outcome))
    (config : AppConfig pyval) (file : read_outcome) : result unit * read_outcome :=
  match mkdir_raises with
  | Some e => (Raise e, file)
  | None =>
      let text := json_dumps (AppConfig_to_dict config) in
      match write_raises with
      | Some (e, remains) => (Raise e, remains)
      | None => (Ok tt, ReadText text)
      end
  end.

End config.

(** ** [src/services/gemini_service.py] *)

Module gemini_service.

(** A Python iterator that ends: it yields a value and continues, stops,
    or raises. *)
Inductive iterator (A : Type) : Type :=
  | Yield (a : A) (rest : iterator A)
  | StopIteration
  | Raises (e : exn).
Arguments Yield {A} a rest.
Arguments StopIteration {A}.
Arguments Raises {A} e.

(** [getattr(chunk, "text", None)] on a chunk of the response: a text,
    nothing, or an exception of the property. *)
Inductive chunk : Type :=
  | ChunkText (text : pystr)
  | ChunkNoText
  | ChunkTextRaises (e : exn).

(** The generator [GeminiService.stream_prompt]: [response] is what
    [generate_content(prompt, stream=True)] iterates to; the [finally]
    clause swallows what [resolve] raises and emits nothing. *)
Fixpoint stream_prompt_loop (response : iterator chunk) : iterator pystr :=
  match response with
  | Yield (ChunkText text) rest =>
      if str_truthy text then Yield text (stream_prompt_loop rest)
      else stream_prompt_loop rest
  | Yield ChunkNoText rest => stream_prompt_loop rest
  | Yield (ChunkTextRaises e) _ => Raises e
  | StopIteration => StopIteration
  | Raises e => Raises e
  end.

Definition stream_prompt (generate_content : pystr -> result (iterator chunk))
    (prompt : pystr) : iterator pystr :=
  match generate_content prompt with
  | Ok response => stream_prompt_loop response
  | Raise e => Raises e
  end.

(** The signals of [GeminiStreamWorker]. *)
Inductive signal : Type :=
  | partial (text : pystr)
  | error (message : pystr)
  | finished.

(** The [for] loop of [run]: the emissions, and the exception that ended
    the loop if one did. *)
Fixpoint run_loop (stream : iterator pystr) : list signal * option exn :=
  match stream with
  | Yield c rest =>
      let '(emitted, exc) := run_loop rest in (partial c :: emitted, exc)
  | StopIteration => ([], None)
  | Raises e => ([], Some e)
  end.

(** [GeminiStreamWorker.run]: the emissions in order, and the exception
    that leaves [run] ([except Exception] lets other [BaseException]s
    through, after the [finally] clause). *)
Definition run (stream : iterator pystr) : list signal * option exn :=
  let '(emitted, exc) := run_loop stream in
  match exc with
  | None => (emitted ++ [finished], None)
  | Some e =>
      if is_Exception e
      then (emitted ++ [error (exn_str e)] ++ [finished], None)
      else (emitted ++ [finished], Some e)
  end.

(** The chunks a stream produces, in order, and how it ends. *)
Fixpoint chunks (stream : iterator pystr) : list pystr :=
  match stream with
  | Yield c rest => c :: chunks rest
  | _ => []
  end.

Fixpoint stream_end (stream : iterator pystr) : option exn :=
  match stream with
  | Yield _ rest => stream_end rest
  | StopIteration => None
  | Raises e => Some e
  end.

(** Projections of a signal trace. *)
Definition partials (t : list signal) : list pystr :=
  omap (fun s => match s with partial c => Some c | _ => None end) t.

Definition errors (t : list signal) : list pystr :=
  omap (fun s => match s with error m => Some m | _ => None end) t.

Definition count_finished (t : list signal) : nat :=
  length (List.filter (fun s => match s with finished => true | _ => false end) t).

(** [GeminiKeyValidator]: the key is stripped by the constructor;
    [v_isRunning] is the state of the thread. *)
Record GeminiKeyValidator : Type := mkGeminiKeyValidator {
  v_api_key : pystr;
  v_model_name : pystr;
  v_isRunning : bool
}.

Definition GeminiKeyValidator_init (api_key model_name : pystr) : GeminiKeyValidator :=
  {| v_api_key := strip api_key; v_model_name := model_name; v_isRunning := false |}.

(** [_configure_client] and [GeminiService.__init__]; [genai_configure]
    and [genai_GenerativeModel] are the calls into the client library,
    which raise nothing of this module's own. *)
Record GeminiService : Type := mkGeminiService {
  service_api_key : pystr;
  service_model_name : pystr
}.

Section Service.

Variable genai_configure : pystr -> option pystr.
Variable genai_GenerativeModel : pystr -> option pystr.

Definition _configure_client (api_key : pystr) : result unit :=
  if negb (str_truthy api_key) then Raise (GeminiAPIError (lit "API key is empty."))
  else match genai_configure api_key with
       | None => Ok tt
       | Some m => Raise (OtherException m)
       end.

Definition GeminiService_init (api_key model_name : pystr)
  : result GeminiService :=
  let! _u := _configure_client api_key in
  match genai_GenerativeModel model_name with
  | None => Ok {| service_api_key := api_key; service_model_name := model_name |}
  | Some m => Raise (OtherException m)
  end.

(** [GeminiService.validate_api_key]: [generate_ping] is the call
    [model.generate_content("ping", stream=False)]. *)
Variable generate_ping : pystr -> option pystr.

Definition validate_api_key (key model_name : pystr) : result unit :=
  let attempt :=
    let! _u := _configure_client key in
    match genai_GenerativeModel model_name with
    | Some m => Raise (OtherException m)
    | None =>
        match generate_ping model_name with
        | Some m => Raise (OtherException m)
        | None => Ok tt
        end
    end in
  match attempt with
  | Ok u => Ok u
  | Raise exc =>
      if is_Exception exc then Raise (GeminiAPIError (exn_str exc)) else Raise exc
  end.

(** The signals of [GeminiKeyValidator] and its [run]. *)
Inductive validator_signal : Type :=
  | success (api_key : pystr)
  | failure (message : pystr).

Definition GeminiKeyValidator_run (self : GeminiKeyValidator)
  : list validator_signal * option exn :=
  match validate_api_key (v_api_key self) (v_model_name self) with
  | Raise (GeminiAPIError exc) => ([failure exc], None)
  | Raise exc =>
      if is_Exception exc
      then ([failure (lit "Unexpected error: " ++ exn_str exc)], None)
      else ([], Some exc)
  | Ok _ => ([success (v_api_key self)], None)
  end.

End Service.

(** [GeminiStreamWorker]: the service, the prompt, and whether the thread
    is running. *)
Record GeminiStreamWorker : Type := mkGeminiStreamWorker {
  service : GeminiService;
  prompt : pystr;
  isRunning : bool
}.

Definition get_stream_worker (self : GeminiService) (prompt : pystr)
  : GeminiStreamWorker :=
  {| service := self; prompt := prompt; isRunning := false |}.

(** [QThread.start()] *)
Definition start (w : GeminiStreamWorker) : GeminiStreamWorker :=
  {| service := service w; prompt := prompt w; isRunning := true |}.

End gemini_service.

(** ** The Qt widgets, by the data the sources read and write *)

Module qt.

Record QPushButton : Type := mkQPushButton {
  text : pystr;
  isEnabled : bool
}.

Definition setText (t : pystr) (b : QPushButton) : QPushButton :=
  {| text := t; isEnabled := isEnabled b |}.

Definition setEnabled (e : bool) (b : QPushButton) : QPushButton :=
  {| text := text b; isEnabled := e |}.

(** A combo box: the items [(label, userData)] and the current index,
    [-1] when there is none. *)
Record QComboBox : Type := mkQComboBox {
  items : list (pystr * option pystr);
  currentIndex : Z;
  combo_enabled : bool
}.

(** [findData(data)]: the index of the first item holding [data], or -1. *)
Fixpoint findData_from (i : Z) (its : list (pystr * option pystr))
    (data : option pystr) : Z :=
  match its with
  | [] => (-1)%Z
  | it :: rest =>
      if bool_decide (it.2 = data) then i
      else findData_from (i + 1)%Z rest data
  end.

Definition findData (c : QComboBox) (data : option pystr) : Z :=
  findData_from 0%Z (items c) data.

(** [setCurrentIndex(i)]: an index outside the items leaves none current. *)
Definition setCurrentIndex (i : Z) (c : QComboBox) : QComboBox :=
  {| items := items c;
     currentIndex :=
       if ((0 <=? i)%Z && (i <? Z.of_nat (length (items c)))%Z) then i
       else (-1)%Z;
     combo_enabled := combo_enabled c |}.

(** [currentData()]: [None] when no item is current or it has no data. *)
Definition currentData (c : QComboBox) : option pystr :=
  if (currentIndex c <? 0)%Z then None
  else match items c !! Z.to_nat (currentIndex c) with
       | Some it => it.2
       | None => None
       end.

(** [addItem(label, userData=data)]: the first item added becomes the
    current one. *)
Definition addItem (label : pystr) (data : pystr) (c : QComboBox) : QComboBox :=
  {| items := items c ++ [(label, Some data)];
     currentIndex := if bool_decide (items c = []) then 0%Z else currentIndex c;
     combo_enabled := combo_enabled c |}.

Definition QComboBox_new : QComboBox :=
  {| items := []; currentIndex := (-1)%Z; combo_enabled := true |}.

(** The callbacks the window hands to [QTimer.singleShot]. *)
Inductive timer_callback : Type :=
  | call_init_services
  | call_open_settings_require_key
  | call_reset_copy_btn.

(** What a handler does to the world outside the state it owns: message
    boxes, signals it emits, threads it starts, persistence. *)
Inductive effect : Type :=
  | QMessageBox_warning (title body : pystr)
  | QMessageBox_information (title body : pystr)
  | QMessageBox_critical (title body : pystr)
  | setFocus_api_key_input
  | validation_requested_emit (api_key default_language model_name : pystr)
  | save_config (api_key default_language model_name : pystr)
  | worker_start (prompt : pystr)
  | worker_deleteLater
  | worker_requestInterruption
  | worker_wait (ms : Z)
  | validator_start (api_key model_name : pystr)
  | validator_requestInterruption
  | validator_wait (ms : Z)
  | clipboard_setText (t : pystr)
  | QTimer_singleShot (ms : Z) (callback : timer_callback).

End qt.

(** ** [src/ui_state.py] *)

Module ui_state.
Import qt.

Record UIStateManager : Type := mkUIStateManager {
  _submit_btn : QPushButton;
  _clear_btn : QPushButton;
  _copy_btn : QPushButton;
  _status_label : pystr;
  _submit_default_text : pystr;
  _copy_default_text : pystr
}.

Definition UIStateManager_init (submit_btn clear_btn copy_btn : QPushButton)
    (status_label : pystr) : UIStateManager :=
  {| _submit_btn := submit_btn; _clear_btn := clear_btn; _copy_btn := copy_btn;
     _status_label := status_label;
     _submit_default_text := text submit_btn;
     _copy_default_text := text copy_btn |}.

Definition set_status (message : pystr) (self : UIStateManager) : UIStateManager :=
  {| _submit_btn := _submit_btn self; _clear_btn := _clear_btn self;
     _copy_btn := _copy_btn self;
     _status_label := message;
     _submit_default_text := _submit_default_text self;
     _copy_default_text := _copy_default_text self |}.

Definition start_processing (self : UIStateManager) : UIStateManager :=
  {| _submit_btn :=
       setEnabled false (setText ([9203] ++ lit " Generating" ++ ellipsis)
                                 (_submit_btn self));
     _clear_btn := setEnabled false (_clear_btn self);
     _copy_btn := setEnabled false (_copy_btn self);
     _status_label := _status_label self;
     _submit_default_text := _submit_default_text self;
     _copy_default_text := _copy_default_text self |}.

Definition set_ready (message : pystr) (copy_available : bool)
    (self : UIStateManager) : UIStateManager :=
  {| _submit_btn := setEnabled true (setText (_submit_default_text self) (_submit_btn self));
     _clear_btn := setEnabled true (_clear_btn self);
     _copy_btn := setEnabled copy_available
                    (setText (_copy_default_text self) (_copy_btn self));
     _status_label := message;
     _submit_default_text := _submit_default_text self;
     _copy_default_text := _copy_default_text self |}.

Definition mark_cleared (self : UIStateManager) : UIStateManager :=
  set_ready (lit "Cleared.") false self.

Definition mark_copy_success (self : UIStateManager) : UIStateManager :=
  {| _submit_btn := _submit_btn self; _clear_btn := _clear_btn self;
     _copy_btn := setEnabled false (setText ([9989] ++ lit " Copied") (_copy_btn self));
     _status_label := _status_label self;
     _submit_default_text := _submit_default_text self;
     _copy_default_text := _copy_default_text self |}.

Definition reset_copy_button (copy_available : bool) (self : UIStateManager)
  : UIStateManager :=
  {| _submit_btn := _submit_btn self; _clear_btn := _clear_btn self;
     _copy_btn := setEnabled copy_available
                    (setText (_copy_default_text self) (_copy_btn self));
     _status_label := _status_label self;
     _submit_default_text := _submit_default_text self;
     _copy_default_text := _copy_default_text self |}.

End ui_state.

(** ** [src/dialogs.py] *)

Module dialogs.
Import qt models constants.

(** The dict of [get_settings], whose three keys are fixed. *)
Record payload : Type := mkPayload {
  p_api_key : pystr;
  p_default_language : pystr;
  p_model_name : pystr
}.

Inductive DialogCode : Type := Rejected | Accepted.

Record SettingsDialog : Type := mkSettingsDialog {
  _initial_api_key : pystr;
  _final_settings : option payload;
  api_key_input : pystr;
  api_key_input_enabled : bool;
  lang_combo : QComboBox;
  model_combo : QComboBox;
  status_label : pystr;
  save_btn_enabled : bool;
  cancel_btn_enabled : bool;
  result_code : option DialogCode       (* set once the dialog is done *)
}.

(** The selection logic of [set_settings], shared by both combos. *)
Definition select_or (c : QComboBox) (data : option pystr) (fallback : QComboBox -> QComboBox)
  : QComboBox :=
  let index := findData c data in
  if bool_decide (index = (-1)%Z) then fallback c else setCurrentIndex index c.

Definition set_settings (dl mn : pystr) (api_key : pystr) (self : SettingsDialog)
  : SettingsDialog :=
  let language_code := str_or dl DEFAULT_LANGUAGE_CODE in
  {| _initial_api_key := _initial_api_key self;
     _final_settings := _final_settings self;
     api_key_input := api_key;
     api_key_input_enabled := api_key_input_enabled self;
     lang_combo :=
       select_or (lang_combo self) (Some language_code)
         (fun c =>
            let default_index := findData c (Some DEFAULT_LANGUAGE_CODE) in
            if bool_decide (default_index = (-1)%Z) then c
            else setCurrentIndex default_index c);
     model_combo :=
       select_or (model_combo self) (Some mn) (setCurrentIndex 0%Z);
     status_label := [];
     save_btn_enabled := save_btn_enabled self;
     cancel_btn_enabled := cancel_btn_enabled self;
     result_code := result_code self |}.

(** [SettingsDialog(settings, api_key)] *)
Definition SettingsDialog_init (dl mn : pystr) (api_key : pystr) : SettingsDialog :=
  set_settings dl mn api_key
    {| _initial_api_key := strip api_key;
       _final_settings := None;
       api_key_input := [];
       api_key_input_enabled := true;
       lang_combo :=
         fold_left (fun c o => addItem o.1 o.2 c) LANGUAGE_OPTIONS QComboBox_new;
       model_combo :=
         fold_left (fun c o => addItem o.2 o.1 c) MODEL_OPTIONS QComboBox_new;
       status_label := [];
       save_btn_enabled := true;
       cancel_btn_enabled := true;
       result_code := None |}.

(** [x or default] where [x] is a combo's [currentData()]. *)
Definition data_or (x : option pystr) (default : pystr) : pystr :=
  match x with
  | Some s => str_or s default
  | None => default
  end.

Definition get_settings (self : SettingsDialog) : payload :=
  {| p_api_key := strip (api_key_input self);
     p_default_language := data_or (currentData (lang_combo self)) DEFAULT_LANGUAGE_CODE;
     p_model_name :=
       data_or (currentData (model_combo self))
         (match MODEL_OPTIONS with o :: _ => o.1 | [] => [] end) |}.

Definition set_status_label (t : pystr) (self : SettingsDialog) : SettingsDialog :=
  {| _initial_api_key := _initial_api_key self;
     _final_settings := _final_settings self;
     api_key_input := api_key_input self;
     api_key_input_enabled := api_key_input_enabled self;
     lang_combo := lang_combo self;
     model_combo := model_combo self;
     status_label := t;
     save_btn_enabled := save_btn_enabled self;
     cancel_btn_enabled := cancel_btn_enabled self;
     result_code := result_code self |}.

(** [self._final_settings = settings; super().accept()] *)
Definition accept_with (settings : payload) (self : SettingsDialog) : SettingsDialog :=
  {| _initial_api_key := _initial_api_key self;
     _final_settings := Some settings;
     api_key_input := api_key_input self;
     api_key_input_enabled := api_key_input_enabled self;
     lang_combo := lang_combo self;
     model_combo := model_combo self;
     status_label := status_label self;
     save_btn_enabled := save_btn_enabled self;
     cancel_btn_enabled := cancel_btn_enabled self;
     result_code := Some Accepted |}.

Definition _set_busy (busy : bool) (self : SettingsDialog) : SettingsDialog :=
  {| _initial_api_key := _initial_api_key self;
     _final_settings := _final_settings self;
     api_key_input := api_key_input self;
     api_key_input_enabled := negb busy;
     lang_combo :=
       {| items := items (lang_combo self);
          currentIndex := currentIndex (lang_combo self);
          combo_enabled := negb busy |};
     model_combo :=
       {| items := items (model_combo self);
          currentIndex := currentIndex (model_combo self);
          combo_enabled := negb busy |};
     status_label := status_label self;
     save_btn_enabled := negb busy;
     cancel_btn_enabled := negb busy;
     result_code := result_code self |}.

Definition mark_validation_success (settings : payload) (self : SettingsDialog)
  : SettingsDialog :=
  accept_with settings
    (set_status_label ([9989] ++ lit " API key validated.") self).

Definition mark_validation_failure (message : pystr) (self : SettingsDialog)
  : SettingsDialog :=
  set_status_label (warn message) (_set_busy false self).

Definition show_validation_in_progress (self : SettingsDialog) : SettingsDialog :=
  let self := _set_busy true self in
  if negb (str_truthy (status_label self))
  then set_status_label (lit "Validating API key" ++ ellipsis) self
  else self.

(** The tail of [_on_save_clicked]: announce and request validation. *)
Definition request_validation (settings : payload) (self : SettingsDialog)
  : SettingsDialog * list effect :=
  let human_label := LANGUAGE_LABEL_BY_CODE (p_default_language settings) in
  let model_label :=
    MODEL_LABEL_BY_NAME (p_model_name settings) (p_model_name settings) in
  let self :=
    if str_truthy (default [] human_label) then
      set_status_label
        (lit "Validating API key for " ++ default [] human_label
         ++ lit " translations on " ++ model_label ++ ellipsis) self
    else
      set_status_label
        (lit "Validating API key on " ++ model_label ++ ellipsis) self in
  (show_validation_in_progress self,
   [validation_requested_emit (p_api_key settings)
      (p_default_language settings) (p_model_name settings)]).

Definition _on_save_clicked (self : SettingsDialog) : SettingsDialog * list effect :=
  let settings := get_settings self in
  let api_key := p_api_key settings in
  if negb (str_truthy api_key) then
    (self, [QMessageBox_warning (lit "Missing API Key")
              (lit "Please enter a Gemini API key.");
            setFocus_api_key_input])
  else if bool_decide (api_key = _initial_api_key self) then
    if str_truthy api_key then
      (accept_with settings (set_status_label [] self), [])
    else request_validation settings self
  else request_validation settings self.

End dialogs.

(** ** [src/ui.py] *)

Module ui.
Import qt models constants prompts gemini_service ui_state dialogs.

Inductive AppMode : Type := GRAMMAR | TRANSLATE.

(** The window.  [self.settings] is [self.config.settings]: the
    constructor binds both names to one object (a dataclass instance is
    never falsy), so the model keeps that object once, inside [config].
    The buttons and the status label live in [ui_state], which is handed
    the very widgets of the window. *)
Record TextHelperApp : Type := mkTextHelperApp {
  config : AppConfig pystr;
  api_key : pystr;
  gemini_service : option GeminiService;
  worker : option GeminiStreamWorker;
  _key_validator : option GeminiKeyValidator;
  mode : AppMode;
  _last_error_message : option pystr;
  lang_visible : bool;
  lang_combo : QComboBox;
  input_edit : pystr;
  output_edit : pystr;
  ui_state : UIStateManager;
  closed : bool
}.

(** [self.settings] *)
Definition settings (self : TextHelperApp) : UserSettings pystr :=
  models.settings (config self).

(** Field assignments. *)
Definition set_config v (s : TextHelperApp) :=
  let 'mkTextHelperApp _ b c d e f g h i j k l m := s in
  mkTextHelperApp v b c d e f g h i j k l m.
Definition set_api_key v (s : TextHelperApp) :=
  let 'mkTextHelperApp a _ c d e f g h i j k l m := s in
  mkTextHelperApp a v c d e f g h i j k l m.
Definition set_gemini_service v (s : TextHelperApp) :=
  let 'mkTextHelperApp a b _ d e f g h i j k l m := s in
  mkTextHelperApp a b v d e f g h i j k l m.
Definition set_worker v (s : TextHelperApp) :=
  let 'mkTextHelperApp a b c _ e f g h i j k l m := s in
  mkTextHelperApp a b c v e f g h i j k l m.
Definition set_key_validator v (s : TextHelperApp) :=
  let 'mkTextHelperApp a b c d _ f g h i j k l m := s in
  mkTextHelperApp a b c d v f g h i j k l m.
Definition set_mode v (s : TextHelperApp) :=
  let 'mkTextHelperApp a b c d e _ g h i j k l m := s in
  mkTextHelperApp a b c d e v g h i j k l m.
Definition set_last_error_message v (s : TextHelperApp) :=
  let 'mkTextHelperApp a b c d e f _ h i j k l m := s in
  mkTextHelperApp a b c d e f v h i j k l m.
Definition set_lang_visible v (s : TextHelperApp) :=
  let 'mkTextHelperApp a b c d e f g _ i j k l m := s in
  mkTextHelperApp a b c d e f g v i j k l m.
Definition set_lang_combo v (s : TextHelperApp) :=
  let 'mkTextHelperApp a b c d e f g h _ j k l m := s in
  mkTextHelperApp a b c d e f g h v j k l m.
Definition set_input_edit v (s : TextHelperApp) :=
  let 'mkTextHelperApp a b c d e f g h i _ k l m := s in
  mkTextHelperApp a b c d e f g h i v k l m.
Definition set_output_edit v (s : TextHelperApp) :=
  let 'mkTextHelperApp a b c d e f g h i j _ l m := s in
  mkTextHelperApp a b c d e f g h i j v l m.
Definition set_ui_state v (s : TextHelperApp) :=
  let 'mkTextHelperApp a b c d e f g h i j k _ m := s in
  mkTextHelperApp a b c d e f g h i j k v m.
Definition set_closed v (s : TextHelperApp) :=
  let 'mkTextHelperApp a b c d e f g h i j k l _ := s in
  mkTextHelperApp a b c d e f g h i j k l v.

(** Assignments into the shared settings object and into [config]. *)
Definition set_settings_default_language (v : pystr) (s : TextHelperApp) :=
  set_config
    {| models.api_key := models.api_key (config s);
       models.settings :=
         {| default_language := v; model_name := model_name (settings s) |} |} s.
Definition set_settings_model_name (v : pystr) (s : TextHelperApp) :=
  set_config
    {| models.api_key := models.api_key (config s);
       models.settings :=
         {| default_language := default_language (settings s); model_name := v |} |} s.
Definition set_config_api_key (v : pystr) (s : TextHelperApp) :=
  set_config
    {| models.api_key := v; models.settings := settings s |} s.

(** *** Handlers as state transformers

    A handler runs on the window, emits effects in order and returns a
    value or leaves by an exception; what it did before the exception
    stays done. *)
Definition handler (A : Type) : Type :=
  TextHelperApp -> TextHelperApp * list effect * result A.

Definition ret {A} (a : A) : handler A := fun s => (s, [], Ok a).

Definition raise {A} (e : exn) : handler A := fun s => (s, [], Raise e).

Definition seq {A B} (m : handler A) (k : A -> handler B) : handler B :=
  fun s =>
    let '(s1, e1, r) := m s in
    match r with
    | Ok a => let '(s2, e2, r2) := k a s1 in (s2, e1 ++ e2, r2)
    | Raise e => (s1, e1, Raise e)
    end.

Definition read {A} (f : TextHelperApp -> A) : handler A :=
  fun s => (s, [], Ok (f s)).

Definition assign (f : TextHelperApp -> TextHelperApp) : handler unit :=
  fun s => (f s, [], Ok tt).

Definition emit (e : effect) : handler unit := fun s => (s, [e], Ok tt).

Definition skip : handler unit := ret tt.

Notation "'do' x <- m ; k" := (seq m (fun x => k))
  (at level 10, x name, m at level 100, k at level 200,
   format "'[v' 'do'  x  <-  m ; '/' k ']'").
Notation "m ;; k" := (seq m (fun _ => k))
  (at level 100, k at level 200, right associativity,
   format "'[v' m ;; '/' k ']'").

Section Window.

Variable unicode_lower : pystr -> pystr.
Variable genai_configure : pystr -> option pystr.
Variable genai_GenerativeModel : pystr -> option pystr.

(** What [save_config] does with a configuration: it returns, or
    [mkdir] or [write_text] raise. *)
Variable save_config_raises : AppConfig pystr -> option exn.

Definition _set_status (message : pystr) : handler unit :=
  assign (fun s => set_ui_state (set_status message (ui_state s)) s).

(** The slot connected to [lang_combo.currentIndexChanged]. *)
Definition _on_language_changed : handler unit :=
  do m <- read mode;
  match m with
  | TRANSLATE =>
      do data <- read (fun s => currentData (lang_combo s));
      let target_language := from_code unicode_lower data in
      _set_status (lit "Translate mode to " ++ label target_language ++ lit ".")
  | GRAMMAR => skip
  end.

(** [self.lang_combo.setCurrentIndex(index)], with the slot it fires
    when the index changes. *)
Definition lang_combo_setCurrentIndex (index : Z) : handler unit :=
  do before <- read (fun s => currentIndex (lang_combo s));
  assign (fun s => set_lang_combo (setCurrentIndex index (lang_combo s)) s) ;;
  do after <- read (fun s => currentIndex (lang_combo s));
  if bool_decide (after = before) then skip else _on_language_changed.

Definition _set_language_selection (language_code : option pystr)
  : handler unit :=
  do index <- read (fun s => findData (lang_combo s) language_code);
  if negb (bool_decide (index = (-1)%Z)) then lang_combo_setCurrentIndex index
  else
    do fallback_index <-
      read (fun s => findData (lang_combo s) (Some DEFAULT_LANGUAGE_CODE));
    if negb (bool_decide (fallback_index = (-1)%Z))
    then lang_combo_setCurrentIndex fallback_index
    else skip.

Definition _apply_user_settings : handler unit :=
  do dl <- read (fun s => default_language (settings s));
  _set_language_selection (Some (str_or dl DEFAULT_LANGUAGE_CODE)) ;;
  assign (fun s => set_ui_state (set_ready (lit "Ready.") false (ui_state s)) s).

Definition _start_validator (validator : GeminiKeyValidator) : handler unit :=
  do current <- read _key_validator;
  (match current with
   | Some v => if v_isRunning v then emit validator_requestInterruption else skip
   | None => skip
   end) ;;
  assign (set_key_validator
            (Some {| v_api_key := v_api_key validator;
                     v_model_name := v_model_name validator;
                     v_isRunning := true |})) ;;
  emit (validator_start (v_api_key validator) (v_model_name validator)).

Definition _activate_service (api_key model_name : pystr) : handler bool :=
  match GeminiService_init genai_configure genai_GenerativeModel
          api_key model_name with
  | Raise (GeminiAPIError exc) =>
      assign (set_gemini_service None) ;;
      _set_status (warn exc) ;;
      ret false
  | Raise e => raise e
  | Ok service =>
      assign (set_gemini_service (Some service)) ;;
      assign (set_api_key api_key) ;;
      assign (set_settings_model_name model_name) ;;
      ret true
  end.

Definition _on_startup_key_validated (api_key : pystr) : handler unit :=
  do mn <- read (fun s => model_name (settings s));
  do activated <- _activate_service api_key mn;
  if activated then _set_status (lit "Ready.") else skip.

(** The condition under which [_apply_settings] activates a client. *)
Definition needs_activation (settings_ : payload) (s : TextHelperApp) : bool :=
  negb (bool_decide (p_api_key settings_ = api_key s))
  || negb (bool_decide (p_model_name settings_ = model_name (settings s)))
  || negb (bool_decide (is_Some (gemini_service s))).

(** The part of [_apply_settings] after the activation.  Nothing here
    or in the callers catches what [save_config] raises. *)
Definition store_settings (settings_ : payload) : handler unit :=
  let new_api_key := p_api_key settings_ in
  let new_language := p_default_language settings_ in
  let new_model := p_model_name settings_ in
  (* self.settings.default_language, then self.config.settings.default_language:
     one object, assigned twice *)
  assign (set_settings_default_language new_language) ;;
  assign (set_settings_default_language new_language) ;;
  assign (set_settings_model_name new_model) ;;
  _set_language_selection (Some new_language) ;;
  assign (set_config_api_key new_api_key) ;;
  do c <- read config;
  emit (save_config (models.api_key c)
          (default_language (models.settings c))
          (model_name (models.settings c))) ;;
  match save_config_raises c with
  | Some e => raise e
  | None => _set_status (lit "Settings saved.")
  end.

Definition _apply_settings (settings_ : payload) : handler unit :=
  do needed <- read (needs_activation settings_);
  if needed then
    do activated <-
      _activate_service (p_api_key settings_) (p_model_name settings_);
    if negb activated then
      emit (QMessageBox_critical (lit "Gemini Error")
              (lit "Unable to initialize Gemini with the provided key."))
    else store_settings settings_
  else store_settings settings_.

(** [closeEvent] *)
Definition closeEvent : handler unit :=
  do w <- read worker;
  (match w with
   | Some w =>
       if isRunning w
       then emit worker_requestInterruption ;; emit (worker_wait 1500)
       else skip
   | None => skip
   end) ;;
  assign (set_worker None) ;;
  do v <- read _key_validator;
  (match v with
   | Some v =>
       if v_isRunning v
       then emit validator_requestInterruption ;; emit (validator_wait 500)
       else skip
   | None => skip
   end) ;;
  assign (set_key_validator None).

(** [self.close()]: Qt delivers the close event before it returns. *)
Definition close : handler unit :=
  closeEvent ;; assign (set_closed true).

(** [open_settings(require_key)].  The modal dialog runs its own event
    loop; [accepted] is what is left of it when [exec()] returns:
    the final settings if the dialog was accepted with some, nothing
    otherwise. *)
Definition open_settings (require_key : bool) (accepted : option payload)
  : handler unit :=
  match accepted with
  | Some final_settings => _apply_settings final_settings
  | None =>
      do svc <- read gemini_service;
      do key <- read api_key;
      if require_key && (negb (bool_decide (is_Some svc)) || negb (str_truthy key))
      then
        emit (QMessageBox_critical (lit "API Key Required")
                (lit "WriteIQ cannot run without a valid Gemini API key.")) ;;
        close
      else skip
  end.

Definition _on_startup_key_failed (message : pystr) (accepted : option payload)
  : handler unit :=
  _set_status (warn message) ;;
  emit (QMessageBox_warning (lit "API Key Required")
          (lit "The stored Gemini API key is invalid or expired. Please provide a new key.")) ;;
  open_settings true accepted.

Definition _init_services : handler unit :=
  do key <- read api_key;
  if str_truthy key then
    _set_status (lit "Validating stored API key" ++ ellipsis) ;;
    do mn <- read (fun s => model_name (settings s));
    _start_validator (GeminiKeyValidator_init key mn)
  else
    _set_status (lit "API key required. Open settings to continue.") ;;
    emit (QTimer_singleShot 100 call_open_settings_require_key).

Definition _handle_settings_validation (settings_ : payload) : handler unit :=
  _start_validator
    (GeminiKeyValidator_init (p_api_key settings_) (p_model_name settings_)).

Definition _on_settings_validation_success (dialog : SettingsDialog)
    (settings_ : payload) : handler SettingsDialog :=
  _set_status (lit "API key validated.") ;;
  ret (mark_validation_success settings_ dialog).

Definition _on_settings_validation_failure (dialog : SettingsDialog)
    (message : pystr) : handler SettingsDialog :=
  _set_status (warn message) ;;
  ret (mark_validation_failure message dialog).

Definition reset_copy_btn : handler unit :=
  do out <- read output_edit;
  let has_text := str_truthy (strip out) in
  assign (fun s => set_ui_state (reset_copy_button has_text (ui_state s)) s).

Definition clear_all : handler unit :=
  assign (set_input_edit []) ;;
  assign (set_output_edit []) ;;
  assign (fun s => set_ui_state (mark_cleared (ui_state s)) s).

Definition on_mode_fix : handler unit :=
  assign (set_mode GRAMMAR) ;;
  assign (set_lang_visible false) ;;
  _set_status (lit "Grammar mode active.").

Definition on_mode_translate : handler unit :=
  assign (set_mode TRANSLATE) ;;
  assign (set_lang_visible true) ;;
  do data <- read (fun s => currentData (lang_combo s));
  let target_language := from_code unicode_lower data in
  _set_status (lit "Translate mode to " ++ label target_language ++ lit ".").

Definition _build_prompt (text : pystr) (self : TextHelperApp) : pystr :=
  match mode self with
  | GRAMMAR => build_grammar_prompt text
  | TRANSLATE =>
      let target_language := from_code unicode_lower (currentData (lang_combo self)) in
      build_translation_prompt text target_language
  end.

(** [worker and worker.isRunning()] *)
Definition worker_running (self : TextHelperApp) : bool :=
  match worker self with
  | Some w => isRunning w
  | None => false
  end.

(** [on_submit].  [accepted] is the outcome of the settings dialog,
    should the handler open it. *)
Definition on_submit (accepted : option payload) : handler unit :=
  assign (set_last_error_message None) ;;
  do svc <- read gemini_service;
  match svc with
  | None =>
      emit (QMessageBox_warning (lit "Gemini Unavailable")
              (lit "A valid Gemini API key is required before processing text.")) ;;
      open_settings true accepted
  | Some the_service =>
      do running <- read worker_running;
      if running then
        emit (QMessageBox_information (lit "Processing")
                (lit "The previous request is still running."))
      else
        do text <- read (fun s => strip (input_edit s));
        if negb (str_truthy text) then
          assign (set_output_edit (warn (lit "No input text."))) ;;
          reset_copy_btn
        else
          do prompt <- read (_build_prompt text);
          assign (fun s => set_ui_state (start_processing (ui_state s)) s) ;;
          assign (set_output_edit []) ;;
          _set_status (lit "Working with Gemini" ++ ellipsis) ;;
          let worker := get_stream_worker the_service prompt in
          assign (set_worker (Some (start worker))) ;;
          emit (worker_start prompt)
  end.

(** [update_output]: the cursor is moved to the end before the text is
    inserted. *)
Definition update_output (text : pystr) : handler unit :=
  do out <- read output_edit;
  let first_chunk := negb (str_truthy out) in
  (if first_chunk then _set_status (lit "Streaming response" ++ ellipsis) else skip) ;;
  assign (fun s => set_output_edit (output_edit s ++ text) s).

(** [QTextEdit.append(t)] starts a new paragraph for [t], except in an
    empty document. *)
Definition append (t : pystr) (document : pystr) : pystr :=
  if str_truthy document then document ++ [10] ++ t else t.

Definition on_worker_error (message : pystr) : handler unit :=
  assign (set_last_error_message (Some message)) ;;
  _set_status (warn message) ;;
  do out <- read output_edit;
  (if negb (str_truthy (strip out))
   then assign (set_output_edit (warn message))
   else assign (set_output_edit (append ([10] ++ warn message) out))) ;;
  emit (QMessageBox_critical (lit "Gemini Error") message).

Definition on_finished : handler unit :=
  do w <- read worker;
  (match w with
   | Some _ => emit worker_deleteLater ;; assign (set_worker None)
   | None => skip
   end) ;;
  do out <- read output_edit;
  let has_output := str_truthy (strip out) in
  do err <- read _last_error_message;
  let status_message :=
    if str_truthy (default [] err) then warn (default [] err)
    else if has_output then lit "Completed."
    else lit "No response received." in
  assign (fun s => set_ui_state
                     (set_ready status_message has_output (ui_state s)) s) ;;
  assign (set_last_error_message None).

Definition copy_output : handler unit :=
  do text <- read (fun s => strip (output_edit s));
  if str_truthy text then
    emit (clipboard_setText text) ;;
    assign (fun s => set_ui_state (mark_copy_success (ui_state s)) s) ;;
    emit (QTimer_singleShot 1200 call_reset_copy_btn)
  else
    assign (fun s => set_ui_state (reset_copy_button false (ui_state s)) s).

(** The slots the worker's signals are connected to in [on_submit]. *)
Definition slot (sig : signal) : handler unit :=
  match sig with
  | partial text => update_output text
  | error message => on_worker_error message
  | finished => on_finished
  end.

Fixpoint deliver (sigs : list signal) : handler unit :=
  match sigs with
  | [] => skip
  | sig :: rest => slot sig ;; deliver rest
  end.

(** [TextHelperApp(config)], up to the deferred [_init_services]. *)
Definition TextHelperApp_init (config : AppConfig pystr)
  : TextHelperApp * list effect * result unit :=
  let window :=
    {| config := config;
       api_key := strip (str_or (models.api_key config) []);
       gemini_service := None;
       worker := None;
       _key_validator := None;
       mode := GRAMMAR;
       _last_error_message := None;
       lang_visible := false;
       lang_combo :=
         fold_left (fun c o => addItem o.1 o.2 c) LANGUAGE_OPTIONS QComboBox_new;
       input_edit := [];
       output_edit := [];
       ui_state :=
         UIStateManager_init
           {| text := [9654] ++ lit " Process"; isEnabled := true |}
           {| text := lit "Clear"; isEnabled := true |}
           {| text := [128203] ++ lit " Copy"; isEnabled := true |}
           [];
       closed := false |} in
  (_apply_user_settings ;; emit (QTimer_singleShot 0 call_init_services)) window.

End Window.

End ui.

(** * Vocabulary of the statements *)

Module spec.
Import qt models constants prompts config gemini_service ui_state dialogs.

(** The error part of a trace, from how the stream ended. *)
Definition error_of (ending : option exn) : list pystr :=
  match ending with
  | Some e => if is_Exception e then [exn_str e] else []
  | None => []
  end.

(** The texts [stream_prompt] yields for a response: the non-empty texts
    of the chunks up to the first chunk whose text raises. *)
Fixpoint yielded_texts (response : iterator chunk) : list pystr :=
  match response with
  | Yield (ChunkText text) rest =>
      if str_truthy text then text :: yielded_texts rest else yielded_texts rest
  | Yield ChunkNoText rest => yielded_texts rest
  | _ => []
  end.

(** The codes of the members of [Language]. *)
Definition supported_codes : list pystr := code <$> Language_members.

(** The items of the language selector as [_init_ui] adds them. *)
Definition language_items : list (pystr * option pystr) :=
  (fun o => (o.1, Some o.2)) <$> LANGUAGE_OPTIONS.

(** The two sentences about a failed activation as they are worded: the
    stored key is reset to the empty string; the status is left as it
    was. *)
Definition failed_activation_resets_key : Prop :=
  forall genai_configure genai_GenerativeModel key model exc (self : ui.TextHelperApp),
    GeminiService_init genai_configure genai_GenerativeModel key model
    = Raise (GeminiAPIError exc) ->
    let '(self', _, r) :=
      ui._activate_service genai_configure genai_GenerativeModel key model self in
    r = Ok false
    /\ ui.gemini_service self' = None
    /\ ui.api_key self' = []
    /\ model_name (ui.settings self') = model_name (ui.settings self).

Definition failed_settings_change_nothing : Prop :=
  forall unicode_lower genai_configure genai_GenerativeModel save_config_raises
         (settings_ : payload) exc (self : ui.TextHelperApp),
    ui.needs_activation settings_ self = true ->
    GeminiService_init genai_configure genai_GenerativeModel
      (p_api_key settings_) (p_model_name settings_)
    = Raise (GeminiAPIError exc) ->
    let '(self', effects, _) :=
      ui._apply_settings unicode_lower genai_configure genai_GenerativeModel save_config_raises
        settings_ self in
    ui.config self' = ui.config self
    /\ (forall k l m, save_config k l m ∉ effects)
    /\ _status_label (ui.ui_state self') = _status_label (ui.ui_state self).

(** A window for the examples: the one the constructor builds from a
    stored key, after the startup validation activated the client. *)
Definition stored_config : AppConfig pystr :=
  {| api_key := lit "stored-key";
     settings := {| default_language := lit "cs";
                    model_name := DEFAULT_MODEL_NAME |} |}.

Definition no_failure (_ : pystr) : option pystr := None.

(** The configuration [_apply_settings] stores for the settings of the
    dialog. *)
Definition config_of (settings_ : payload) : AppConfig pystr :=
  {| api_key := p_api_key settings_;
     settings := {| default_language := p_default_language settings_;
                    model_name := p_model_name settings_ |} |}.

(** A disk that takes every configuration. *)
Definition save_succeeds (_ : AppConfig pystr) : option exn := None.

(** A disk that takes none. *)
Definition disk_full (_ : AppConfig pystr) : option exn :=
  Some (OSError (lit "[Errno 28] No space left on device")).

Definition ready_window : ui.TextHelperApp :=
  (ui._on_startup_key_validated no_failure no_failure (lit "stored-key")
     (ui.TextHelperApp_init (fun s => s) stored_config).1.1).1.1.

(** The status [on_finished] shows: the recorded error if it is a non-empty
    message, else by whether the output holds more than white space. *)
Definition terminal_status (recorded_error : option pystr) (output : pystr) : pystr :=
  match recorded_error with
  | Some (c :: message) => warn (c :: message)
  | _ => if str_truthy (strip output) then lit "Completed."
         else lit "No response received."
  end.

(** A request from submission to completion: the window after a
    submission that started a worker, then after the worker's signals
    were delivered to the slots. *)
Definition submitted (unicode_lower : pystr -> pystr) (self : ui.TextHelperApp)
  : ui.TextHelperApp :=
  (ui.on_submit unicode_lower no_failure no_failure save_succeeds None self).1.1.

Definition completed (unicode_lower : pystr -> pystr) (stream : iterator pystr)
    (self : ui.TextHelperApp) : ui.TextHelperApp :=
  (ui.deliver (run stream).1 (submitted unicode_lower self)).1.1.

(** The sentence about the completed request as it is worded, the status
    turning on whether the output is empty. *)
Definition completed_status_by_emptiness : Prop :=
  forall unicode_lower (self : ui.TextHelperApp) (stream : iterator pystr),
    is_Some (ui.gemini_service self) ->
    ui.worker_running self = false ->
    strip (ui.input_edit self) <> [] ->
    stream_end stream = None ->
    let self' := completed unicode_lower stream self in
    ui.output_edit self' = concat (chunks stream)
    /\ _status_label (ui.ui_state self')
       = if str_truthy (ui.output_edit self') then lit "Completed."
         else lit "No response received.".

(** *** The event loop

    What the event loop delivers to a window, one event at a time: the
    slots of its widgets, its timers, the signals of its threads, and the
    end of the worker's thread.  For the modal settings dialog the event
    carries what the dialog was closed with. *)
Inductive event : Type :=
  | timer_init_services
  | validator_success (key : pystr)
  | validator_failure (message : pystr) (accepted : option payload)
  | settings_validation_requested (settings_ : payload)
  | settings_validation_success (dialog : SettingsDialog) (settings_ : payload)
  | settings_validation_failure (dialog : SettingsDialog) (message : pystr)
  | validator_finished
  | settings_opened (require_key : bool) (accepted : option payload)
  | mode_fix_clicked
  | mode_translate_clicked
  | language_picked (index : Z)
  | input_edited (text : pystr)
  | clear_clicked
  | copy_clicked
  | timer_reset_copy_btn
  | submit_clicked (accepted : option payload)
  | worker_signal (sig : signal)
  | worker_thread_ended
  | close_requested.

(** The dialog is only accepted with a key that is not empty, and the
    validator only reports success for such a key (the two lemmas
    [final_settings_have_a_key] and [validated_key_not_empty] below). *)
Definition accepted_with_key (accepted : option payload) : Prop :=
  match accepted with
  | Some final_settings => p_api_key final_settings <> []
  | None => True
  end.

Definition well_formed (e : event) : Prop :=
  match e with
  | validator_success key => key <> []
  | validator_failure _ accepted => accepted_with_key accepted
  | settings_opened _ accepted => accepted_with_key accepted
  | submit_clicked accepted => accepted_with_key accepted
  | _ => True
  end.

(** [QThread.isRunning()] turns false when [run] has returned. *)
Definition thread_ended (self : ui.TextHelperApp) : ui.TextHelperApp :=
  ui.set_worker
    ((fun w => {| service := service w; prompt := prompt w; isRunning := false |})
       <$> ui.worker self) self.

Section EventLoop.

Variable unicode_lower : pystr -> pystr.
Variable genai_configure : pystr -> option pystr.
Variable genai_GenerativeModel : pystr -> option pystr.
Variable save_config_raises : AppConfig pystr -> option exn.

Definition handle (e : event) : ui.handler unit :=
  match e with
  | timer_init_services => ui._init_services
  | validator_success key =>
      ui._on_startup_key_validated genai_configure genai_GenerativeModel key
  | validator_failure message accepted =>
      ui._on_startup_key_failed unicode_lower genai_configure genai_GenerativeModel
        save_config_raises
        message accepted
  | settings_validation_requested settings_ => ui._handle_settings_validation settings_
  | settings_validation_success dialog settings_ =>
      ui.seq (ui._on_settings_validation_success dialog settings_) (fun _ => ui.skip)
  | settings_validation_failure dialog message =>
      ui.seq (ui._on_settings_validation_failure dialog message) (fun _ => ui.skip)
  | validator_finished => ui.assign (ui.set_key_validator None)
  | settings_opened require_key accepted =>
      ui.open_settings unicode_lower genai_configure genai_GenerativeModel save_config_raises
        require_key accepted
  | mode_fix_clicked => ui.on_mode_fix
  | mode_translate_clicked => ui.on_mode_translate unicode_lower
  | language_picked index => ui.lang_combo_setCurrentIndex unicode_lower index
  | input_edited text => ui.assign (ui.set_input_edit text)
  | clear_clicked => ui.clear_all
  | copy_clicked => ui.copy_output
  | timer_reset_copy_btn => ui.reset_copy_btn
  | submit_clicked accepted =>
      ui.on_submit unicode_lower genai_configure genai_GenerativeModel save_config_raises accepted
  | worker_signal sig => ui.slot sig
  | worker_thread_ended => ui.assign thread_ended
  | close_requested => ui.close
  end.

(** The windows the program can be in: the one the constructor builds,
    and those an event leads to. *)
Inductive reachable : ui.TextHelperApp -> Prop :=
  | reachable_init (config : AppConfig pystr) :
      reachable (ui.TextHelperApp_init unicode_lower config).1.1
  | reachable_step (self : ui.TextHelperApp) (e : event) :
      reachable self -> well_formed e -> reachable (handle e self).1.1.

End EventLoop.

(** A worker is only there while a client is. *)
Definition worker_has_client (self : ui.TextHelperApp) : Prop :=
  is_Some (ui.worker self) -> is_Some (ui.gemini_service self).

(** A handler keeps a property of the window, whether it returns or
    raises; and every effect it emits has a property. *)
Definition preserves {A} (P : ui.TextHelperApp -> Prop) (h : ui.handler A) : Prop :=
  forall s, P s -> P (h s).1.1.

Definition emits_only {A} (Q : effect -> Prop) (h : ui.handler A) : Prop :=
  forall s e, e ∈ (h s).1.2 -> Q e.

Definition starts_no_worker (e : effect) : Prop :=
  match e with worker_start _ => False | _ => True end.

(** The window of the examples while its worker runs. *)
Definition running_window : ui.TextHelperApp :=
  submitted (fun s => s) (ui.set_input_edit (lit "helo wrld") ready_window).

(** A property that only looks at the worker and the client. *)
Definition framed (P : ui.TextHelperApp -> Prop) : Prop :=
  forall s s', ui.worker s' = ui.worker s ->
               ui.gemini_service s' = ui.gemini_service s -> P s -> P s'.

(** *** Vocabulary of the further properties *)

(** The texts of all the chunks of a response, in order; and whether the
    text of some chunk raises. *)
Fixpoint response_texts (response : iterator chunk) : list pystr :=
  match response with
  | Yield (ChunkText text) rest => text :: response_texts rest
  | Yield _ rest => response_texts rest
  | _ => []
  end.

Fixpoint text_raises (response : iterator chunk) : bool :=
  match response with
  | Yield (ChunkTextRaises _) _ => true
  | Yield _ rest => text_raises rest
  | _ => false
  end.

Fixpoint response_end (response : iterator chunk) : option exn :=
  match response with
  | Yield _ rest => response_end rest
  | StopIteration => None
  | Raises e => Some e
  end.

(** The JSON text of a string of plain characters, between its quotes
    (code point 34). *)
Definition json_quoted (s : pystr) : pystr := [34] ++ s ++ [34].

(** [isinstance(v, dict)] *)
Definition is_dict (v : pyval) : bool :=
  match v with PDict _ => true | _ => false end.

(** The [AttributeError] of [v.get] on a value that is no dictionary. *)
Definition no_get (v : pyval) : exn :=
  AttributeError (lit "'" ++ type_name v ++ lit "' object has no attribute 'get'").

(** The language selector holds the items [_init_ui] gave it. *)
Definition selector_intact (self : ui.TextHelperApp) : Prop :=
  items (ui.lang_combo self) = language_items.

(** The active client is the one of the stored key and of the model in
    the settings, and that key is not empty. *)
Definition client_matches_settings (self : ui.TextHelperApp) : Prop :=
  forall the_service, ui.gemini_service self = Some the_service ->
    the_service = {| service_api_key := ui.api_key self;
                     service_model_name := model_name (ui.settings self) |}
    /\ ui.api_key self <> [].

(** The time a list of effects may block for, in milliseconds. *)
Definition total_wait (effects : list effect) : Z :=
  foldr (fun e acc =>
           match e with
           | worker_wait ms | validator_wait ms => (ms + acc)%Z
           | _ => acc
           end) 0%Z effects.

(** [validator and validator.isRunning()] *)
Definition validator_running (self : ui.TextHelperApp) : bool :=
  match ui._key_validator self with
  | Some v => v_isRunning v
  | None => false
  end.

End spec.

(** * Properties *)

Import spec.

Import qt models constants prompts config gemini_service ui_state dialogs.

(** ** The stream worker *)

Section StreamWorker.

Lemma run_loop_spec (stream : iterator pystr) :
  run_loop stream = (partial <$> chunks stream, stream_end stream).
Proof.
  induction stream as [c rest IH | | e]; simpl; [| done | done].
  by rewrite IH.
Qed.

Lemma run_trace (stream : iterator pystr) :
  (run stream).1
  = (partial <$> chunks stream) ++ (error <$> error_of (stream_end stream))
    ++ [finished].
Proof.
  unfold run. rewrite run_loop_spec.
  destruct (stream_end stream) as [e|]; simpl; [| done].
  by destruct (is_Exception e).
Qed.

Lemma partials_app (t u : list signal) : partials (t ++ u) = partials t ++ partials u.
Proof. apply omap_app. Qed.

Lemma errors_app (t u : list signal) : errors (t ++ u) = errors t ++ errors u.
Proof. apply omap_app. Qed.

Lemma partials_partial (l : list pystr) : partials (partial <$> l) = l.
Proof. induction l as [|c l IH]; [done | cbn; f_equal; exact IH]. Qed.

Lemma partials_error (l : list pystr) : partials (error <$> l) = [].
Proof. induction l as [|c l IH]; [done | exact IH]. Qed.

Lemma errors_partial (l : list pystr) : errors (partial <$> l) = [].
Proof. induction l as [|c l IH]; [done | exact IH]. Qed.

Lemma errors_error (l : list pystr) : errors (error <$> l) = l.
Proof. induction l as [|c l IH]; [done | cbn; f_equal; exact IH]. Qed.

Lemma count_finished_app (t u : list signal) :
  count_finished (t ++ u) = (count_finished t + count_finished u)%nat.
Proof. unfold count_finished. by rewrite List.filter_app, length_app. Qed.

Lemma count_finished_partial (l : list pystr) : count_finished (partial <$> l) = 0%nat.
Proof. induction l as [|c l IH]; [done | exact IH]. Qed.

Lemma count_finished_error (l : list pystr) : count_finished (error <$> l) = 0%nat.
Proof. induction l as [|c l IH]; [done | exact IH]. Qed.

(** With the service's generator as the stream, the [partial] events carry
    the non-empty texts of the response, in its order. *)
Lemma stream_prompt_chunks (response : iterator chunk) :
  chunks (stream_prompt_loop response) = yielded_texts response.
Proof.
  induction response as [[text| |e] rest IH | | e]; simpl; try done.
  destruct (str_truthy text); simpl; by rewrite ?IH.
Qed.

Lemma run_stream_prompt_partials
    (generate_content : pystr -> result (iterator chunk)) (prompt : pystr)
    (response : iterator chunk) :
  generate_content prompt = Ok response ->
  partials (run (stream_prompt generate_content prompt)).1 = yielded_texts response.
Proof.
  intros H. unfold stream_prompt. rewrite H, run_trace.
  rewrite !partials_app, partials_partial, partials_error. simpl.
  by rewrite app_nil_r, stream_prompt_chunks.
Qed.

End StreamWorker.

(** C1.  For every terminating behaviour of the stream, the trace of
    [GeminiStreamWorker.run] consists of the [partial] events, carrying the
    chunks in the order the stream produced them, then the [error] events,
    then [finished].  There is one [error] event, carrying [str(exc)], when
    the stream raised an [Exception], and none otherwise; so no [partial]
    follows an [error]; and [finished] occurs exactly once, as the last
    event, whether the stream ended, raised an [Exception] or raised some
    other [BaseException] (which then leaves [run]). *)
Theorem run_emits_partials_error_finished (stream : iterator pystr) :
  let t := (run stream).1 in
  partials t = chunks stream
  /\ errors t = error_of (stream_end stream)
  /\ (length (errors t) <= 1)%nat
  /\ t = (partial <$> partials t) ++ (error <$> errors t) ++ [finished]
  /\ count_finished t = 1%nat
  /\ last t = Some finished.
Proof.
  intros t. subst t. rewrite run_trace.
  set (cs := chunks stream). set (es := error_of (stream_end stream)).
  assert (Hp : partials ((partial <$> cs) ++ (error <$> es) ++ [finished]) = cs).
  { rewrite !partials_app, partials_partial, partials_error. simpl.
    by rewrite app_nil_r. }
  assert (He : errors ((partial <$> cs) ++ (error <$> es) ++ [finished]) = es).
  { rewrite !errors_app, errors_partial, errors_error. simpl.
    by rewrite app_nil_r. }
  rewrite Hp, He. repeat split.
  - subst es. destruct (stream_end stream) as [e|]; simpl; [| lia].
    destruct (is_Exception e); simpl; lia.
  - rewrite !count_finished_app, count_finished_partial, count_finished_error.
    done.
  - by rewrite !app_assoc, last_snoc.
Qed.

(** ** Prompts *)

(** C7.  Both prompt builders, and the window's [_build_prompt] in either
    mode and for any selected language, return a prompt ending with the
    given text, unmodified. *)
Theorem build_prompt_ends_with_text
    (unicode_lower : pystr -> pystr) (self : ui.TextHelperApp)
    (target_language : Language) (text : pystr) :
  text `suffix_of` build_grammar_prompt text
  /\ text `suffix_of` build_translation_prompt text target_language
  /\ text `suffix_of` ui._build_prompt unicode_lower text self.
Proof.
  assert (Hg : text `suffix_of` build_grammar_prompt text).
  { unfold build_grammar_prompt. rewrite !app_assoc. by apply suffix_app_r. }
  assert (Ht : forall l, text `suffix_of` build_translation_prompt text l).
  { intros l. unfold build_translation_prompt. rewrite !app_assoc.
    by apply suffix_app_r. }
  split; [exact Hg |]. split; [apply Ht |].
  unfold ui._build_prompt. destruct (ui.mode self); [exact Hg | apply Ht].
Qed.

(** ** Languages *)

Section Languages.

Variable unicode_lower : pystr -> pystr.

Lemma from_code_loop_None (members : list Language) (normalized : pystr) :
  normalized ∉ (code <$> members) ->
  from_code_loop members normalized = None.
Proof.
  induction members as [|l members IH]; intros Hnot; simpl; [done |].
  rewrite fmap_cons in Hnot. apply not_elem_of_cons in Hnot as [Hne Hrest].
  rewrite bool_decide_eq_false_2 by congruence. by apply IH.
Qed.

Lemma from_code_loop_Some (members : list Language) (normalized : pystr) (l : Language) :
  from_code_loop members normalized = Some l ->
  l ∈ members /\ code l = normalized.
Proof.
  induction members as [|m members IH]; simpl; [done |].
  case_bool_decide as Heq.
  - intros [= ->]. split; [apply list_elem_of_here | done].
  - intros H. destruct (IH H) as [Hin Hc]. split; [by apply list_elem_of_further | done].
Qed.

Lemma from_code_fallback (c : option pystr) :
  lower unicode_lower (str_or (default [] c) []) ∉ supported_codes ->
  from_code unicode_lower c = ENGLISH.
Proof.
  intros Hnot. unfold from_code. by rewrite from_code_loop_None.
Qed.

Lemma from_code_member (c : option pystr) :
  from_code unicode_lower c ∈ Language_members.
Proof.
  unfold from_code.
  destruct (from_code_loop _ _) as [l|] eqn:E.
  - by apply from_code_loop_Some in E as [Hin _].
  - apply list_elem_of_here.
Qed.

Lemma from_code_None : from_code unicode_lower None = ENGLISH.
Proof. reflexivity. Qed.

End Languages.

(** ** Equations of the handler combinators *)

Section Handlers.

Context {A B : Type}.

Lemma seq_read (f : ui.TextHelperApp -> A) (k : A -> ui.handler B) s :
  ui.seq (ui.read f) k s = k (f s) s.
Proof. unfold ui.seq, ui.read. by destruct (k (f s) s) as [[? ?] ?]. Qed.

Lemma seq_assign (f : ui.TextHelperApp -> ui.TextHelperApp)
    (k : unit -> ui.handler B) s :
  ui.seq (ui.assign f) k s = k tt (f s).
Proof. unfold ui.seq, ui.assign. by destruct (k tt (f s)) as [[? ?] ?]. Qed.

Lemma seq_ret (a : A) (k : A -> ui.handler B) s :
  ui.seq (ui.ret a) k s = k a s.
Proof. unfold ui.seq, ui.ret. by destruct (k a s) as [[? ?] ?]. Qed.

Lemma seq_emit (e : effect) (k : unit -> ui.handler B) s :
  ui.seq (ui.emit e) k s
  = let '(s2, e2, r2) := k tt s in (s2, e :: e2, r2).
Proof. reflexivity. Qed.

Lemma seq_raise (e : exn) (k : A -> ui.handler B) s :
  ui.seq (ui.raise e) k s = (s, [], Raise e).
Proof. reflexivity. Qed.

End Handlers.

Lemma seq_skip {B} (k : unit -> ui.handler B) s : ui.seq ui.skip k s = k tt s.
Proof. apply seq_ret. Qed.

(** Symbolic execution of a handler, one statement at a time. *)
Ltac exec :=
  repeat first
    [ rewrite seq_read | rewrite seq_assign | rewrite seq_skip
    | rewrite seq_ret | rewrite seq_raise | rewrite seq_emit ].

Section Selection.

Variable unicode_lower : pystr -> pystr.

Lemma findData_from_absent (i : Z) (its : list (pystr * option pystr))
    (data : option pystr) :
  data ∉ its.*2 -> findData_from i its data = (-1)%Z.
Proof.
  revert i. induction its as [|it its IH]; intros i Hnot; simpl; [done |].
  rewrite fmap_cons in Hnot. apply not_elem_of_cons in Hnot as [Hne Hrest].
  rewrite bool_decide_eq_false_2 by congruence. by apply IH.
Qed.

Lemma language_items_init :
  fold_left (fun c o => addItem o.1 o.2 c) LANGUAGE_OPTIONS QComboBox_new
  = {| items := language_items; currentIndex := 0; combo_enabled := true |}.
Proof. reflexivity. Qed.

Lemma language_items_data : language_items.*2 = Some <$> supported_codes.
Proof. reflexivity. Qed.

(** The slot of the selector changes nothing but the status. *)
Lemma _on_language_changed_lang_combo (self : ui.TextHelperApp) :
  ui.lang_combo (ui._on_language_changed unicode_lower self).1.1 = ui.lang_combo self.
Proof. destruct self as [? ? ? ? ? [] ? ? ? ? ? ? ?]; reflexivity. Qed.

Lemma lang_combo_setCurrentIndex_lang_combo (index : Z) (self : ui.TextHelperApp) :
  ui.lang_combo (ui.lang_combo_setCurrentIndex unicode_lower index self).1.1
  = setCurrentIndex index (ui.lang_combo self).
Proof.
  unfold ui.lang_combo_setCurrentIndex, ui.seq, ui.read, ui.assign. simpl.
  case_bool_decide.
  - by destruct self.
  - destruct (ui._on_language_changed _ _) as [[s1 e1] r1] eqn:E.
    assert (s1 = (ui._on_language_changed unicode_lower
                    (ui.set_lang_combo (setCurrentIndex index (ui.lang_combo self)) self)).1.1)
      as -> by (by rewrite E).
    destruct r1; simpl; rewrite _on_language_changed_lang_combo; by destruct self.
Qed.

End Selection.


Section SelectionFallback.

Variable unicode_lower : pystr -> pystr.

Lemma _set_language_selection_lang_combo (language_code : option pystr)
    (self : ui.TextHelperApp) :
  items (ui.lang_combo self) = language_items ->
  language_code ∉ (Some <$> supported_codes) ->
  ui.lang_combo (ui._set_language_selection unicode_lower language_code self).1.1
  = setCurrentIndex 0 (ui.lang_combo self).
Proof.
  intros Hitems Hnot.
  assert (H1 : findData (ui.lang_combo self) language_code = (-1)%Z).
  { unfold findData. rewrite Hitems.
    apply findData_from_absent. by rewrite language_items_data. }
  assert (H2 : findData (ui.lang_combo self) (Some DEFAULT_LANGUAGE_CODE) = 0%Z).
  { unfold findData. by rewrite Hitems. }
  unfold ui._set_language_selection. exec. rewrite H1. simpl. exec.
  rewrite H2. simpl. apply lang_combo_setCurrentIndex_lang_combo.
Qed.

End SelectionFallback.

(** C8.  On a window whose language selector holds the items [_init_ui]
    adds, selecting a code that is not one of the supported codes ([None]
    included) leaves the default language code selected.
    [Language.from_code] is defined on every [str | None]: its result is
    always a member of the enumeration, it is [ENGLISH] for [None], and it
    is [ENGLISH] whenever the lower-cased code is not a supported code. *)
Theorem unknown_language_falls_back_to_default
    (unicode_lower : pystr -> pystr) (self : ui.TextHelperApp)
    (language_code : option pystr) :
  items (ui.lang_combo self) = language_items ->
  language_code ∉ (Some <$> supported_codes) ->
  currentData
    (ui.lang_combo (ui._set_language_selection unicode_lower language_code self).1.1)
  = Some DEFAULT_LANGUAGE_CODE
  /\ from_code unicode_lower None = ENGLISH
  /\ (forall c : option pystr,
        from_code unicode_lower c ∈ Language_members
        /\ (lower unicode_lower (str_or (default [] c) []) ∉ supported_codes ->
            from_code unicode_lower c = ENGLISH)).
Proof.
  intros Hitems Hnot. split; [| split].
  - rewrite _set_language_selection_lang_combo by done.
    unfold currentData, setCurrentIndex. simpl. by rewrite Hitems.
  - apply from_code_None.
  - intros c. split; [apply from_code_member | apply from_code_fallback].
Qed.

(** The theorem at the freshly built window and the code "xx". *)
Lemma unknown_language_falls_back_to_default_witness :
  currentData
    (ui.lang_combo
       (ui._set_language_selection (fun s => s) (Some (lit "xx"))
          (ui.TextHelperApp_init (fun s => s)
             {| api_key := []; settings := {| default_language := lit "cs";
                                              model_name := DEFAULT_MODEL_NAME |} |}).1.1).1.1)
  = Some (lit "en").
Proof.
  refine (proj1 (unknown_language_falls_back_to_default (fun s => s) _ (Some (lit "xx")) _ _)).
  - reflexivity.
  - vm_compute. intros H. repeat (apply elem_of_cons in H as [H|H]; [discriminate H|]).
    by apply elem_of_nil in H.
Defined.

(** ** Configuration *)

Section Configuration.

Lemma key_settings_ne : lit "api_key" <> lit "settings".
Proof. discriminate. Qed.

Lemma key_language_ne : lit "default_language" <> lit "model_name".
Proof. discriminate. Qed.

Lemma truthy_insert (k : pystr) (v : pyval) (d : gmap pystr pyval) :
  truthy (PDict (<[k := v]> d)) = true.
Proof.
  simpl. rewrite bool_decide_eq_false_2; [done |]. apply insert_non_empty.
Qed.

Lemma UserSettings_round_trip (u : UserSettings pyval) :
  UserSettings_from_dict (UserSettings_to_dict u) = Ok u.
Proof.
  unfold UserSettings_from_dict, UserSettings_to_dict.
  rewrite truthy_insert. simpl.
  rewrite lookup_insert_eq.
  rewrite lookup_insert_ne by apply key_language_ne.
  rewrite lookup_insert_eq. by destruct u.
Qed.

Lemma AppConfig_round_trip (c : AppConfig pyval) :
  AppConfig_from_dict (AppConfig_to_dict c) = Ok c.
Proof.
  unfold AppConfig_from_dict, AppConfig_to_dict.
  rewrite truthy_insert. simpl.
  rewrite lookup_insert_ne by apply key_settings_ne.
  rewrite lookup_insert_eq. rewrite UserSettings_round_trip. simpl.
  rewrite lookup_insert_eq. by destruct c.
Qed.

(** A dictionary without the two keys yields the default settings, empty
    or not. *)
Lemma UserSettings_missing_keys (d : gmap pystr pyval) :
  d !! lit "default_language" = None -> d !! lit "model_name" = None ->
  UserSettings_from_dict (PDict d) = Ok UserSettings_default.
Proof.
  intros H1 H2. unfold UserSettings_from_dict.
  destruct (truthy (PDict d)); simpl; [| done]. by rewrite H1, H2.
Qed.

Lemma AppConfig_missing_keys (d : gmap pystr pyval) :
  d !! lit "api_key" = None -> d !! lit "settings" = None ->
  AppConfig_from_dict (PDict d) = Ok AppConfig_default.
Proof.
  intros H1 H2. unfold AppConfig_from_dict.
  destruct (truthy (PDict d)); simpl; [| done]. by rewrite H1, H2.
Qed.

(** One missing key at a time. *)
Lemma AppConfig_missing_api_key (d : gmap pystr pyval) (c : AppConfig pyval) :
  d !! lit "api_key" = None -> AppConfig_from_dict (PDict d) = Ok c ->
  api_key c = PStr [].
Proof.
  intros H1. unfold AppConfig_from_dict.
  destruct (truthy (PDict d)); simpl; [| by intros [= <-]].
  destruct (UserSettings_from_dict _); simpl; [| done].
  rewrite H1. by intros [= <-].
Qed.

Lemma AppConfig_missing_settings (d : gmap pystr pyval) (c : AppConfig pyval) :
  d !! lit "settings" = None -> AppConfig_from_dict (PDict d) = Ok c ->
  settings c = UserSettings_default.
Proof.
  intros H1. unfold AppConfig_from_dict.
  destruct (truthy (PDict d)); simpl; [| by intros [= <-]].
  rewrite H1. simpl. by intros [= <-].
Qed.

Variable json_loads : pystr -> result pyval.

Lemma load_config_missing_or_unreadable (e : exn) (message : pystr) :
  e = FileNotFoundError message \/ e = OSError message \/ e = ValueError message ->
  load_config json_loads (ReadFails e) = Ok AppConfig_default.
Proof. by intros [-> | [-> | ->]]. Qed.

Lemma load_config_corrupt (raw message : pystr) :
  json_loads raw = Raise (ValueError message) ->
  load_config json_loads (ReadText raw) = Ok AppConfig_default.
Proof. intros H. unfold load_config, _read_config_file. by rewrite H. Qed.

(** JSON of another shape is not covered by the handlers of
    [_read_config_file]: a non-empty list leaves [load_config] by the
    [AttributeError] of [from_dict]. *)
Lemma load_config_wrong_shape (raw : pystr) (v : pyval) :
  json_loads raw = Ok (PList [v]) ->
  load_config json_loads (ReadText raw)
  = Raise (AttributeError (lit "'list' object has no attribute 'get'")).
Proof. intros H. unfold load_config, _read_config_file. by rewrite H. Qed.

End Configuration.

(** Round trip and defaults.  [from_dict] undoes [to_dict], for
    [AppConfig] and for [UserSettings].  [from_dict] of [None], of the
    empty dictionary and of any dictionary that lacks the keys is the
    default configuration, whose fields are [""], ["en"] and
    ["gemini-2.5-flash"].  [load_config] returns that default when the
    file is missing or unreadable and when its text is not JSON: the
    cases [_read_config_file] handles. *)
Theorem config_round_trip_and_defaults :
  (forall c : AppConfig pyval, AppConfig_from_dict (AppConfig_to_dict c) = Ok c)
  /\ (forall u : UserSettings pyval,
        UserSettings_from_dict (UserSettings_to_dict u) = Ok u)
  /\ AppConfig_from_dict PNone = Ok AppConfig_default
  /\ UserSettings_from_dict PNone = Ok UserSettings_default
  /\ (forall d : gmap pystr pyval,
        d !! lit "api_key" = None -> d !! lit "settings" = None ->
        AppConfig_from_dict (PDict d) = Ok AppConfig_default)
  /\ (forall d : gmap pystr pyval,
        d !! lit "default_language" = None -> d !! lit "model_name" = None ->
        UserSettings_from_dict (PDict d) = Ok UserSettings_default)
  /\ AppConfig_default
     = {| api_key := PStr [];
          settings := {| default_language := PStr (lit "en");
                         model_name := PStr (lit "gemini-2.5-flash") |} |}
  /\ (forall (json_loads : pystr -> result pyval) (e : exn) (message : pystr),
        e = FileNotFoundError message \/ e = OSError message
        \/ e = ValueError message ->
        load_config json_loads (ReadFails e) = Ok AppConfig_default)
  /\ (forall (json_loads : pystr -> result pyval) (raw message : pystr),
        json_loads raw = Raise (ValueError message) ->
        load_config json_loads (ReadText raw) = Ok AppConfig_default).
Proof.
  repeat split.
  - apply AppConfig_round_trip.
  - apply UserSettings_round_trip.
  - apply AppConfig_missing_keys.
  - apply UserSettings_missing_keys.
  - apply load_config_missing_or_unreadable.
  - apply load_config_corrupt.
Qed.

(** The theorem at a stored configuration, at a dictionary with a foreign
    key only, and at a file that holds no JSON. *)
Lemma config_round_trip_and_defaults_witness :
  AppConfig_from_dict
    (AppConfig_to_dict
       {| api_key := PStr (lit "stored-key");
          settings := {| default_language := PStr (lit "de");
                         model_name := PStr (lit "gemini-1.5-pro") |} |})
  = Ok {| api_key := PStr (lit "stored-key");
          settings := {| default_language := PStr (lit "de");
                         model_name := PStr (lit "gemini-1.5-pro") |} |}
  /\ AppConfig_from_dict (PDict {[ lit "theme" := PStr (lit "dark") ]})
     = Ok AppConfig_default
  /\ load_config (fun _ => Raise (ValueError (lit "Expecting property name")))
       (ReadText (lit "{invalid json"))
     = Ok AppConfig_default
  /\ load_config (fun _ => Raise (ValueError (lit "Expecting property name")))
       (ReadFails (FileNotFoundError (lit "No such file or directory")))
     = Ok AppConfig_default.
Proof.
  destruct config_round_trip_and_defaults
    as (Hrt & _ & _ & _ & Hmiss & _ & _ & Hfile & Hjson).
  split; [apply Hrt |]. split; [| split].
  - apply Hmiss; apply lookup_singleton_ne; discriminate.
  - apply (Hjson _ _ (lit "Expecting property name")). reflexivity.
  - apply (Hfile _ _ (lit "No such file or directory")). left. reflexivity.
Defined.

(** C10.  [load_config] does not return the default configuration for
    every corrupt file.  When the text of the file is JSON, none of the
    handlers of [_read_config_file] applies and it returns the parsed
    value, a dictionary or not.  If that value is truthy and no
    dictionary (a number, a string, a non-empty list), or a dictionary
    whose "settings" entry is such a value, [load_config] is left by the
    [AttributeError] of the [get] that [from_dict] calls on it, where a
    missing or unreadable file and a text that is not JSON give the
    defaults. *)
Theorem load_config_raises_on_json_of_another_shape
    (json_loads : pystr -> result pyval) (raw : pystr) (v : pyval) :
  json_loads raw = Ok v ->
  _read_config_file json_loads (ReadText raw) = Ok v
  /\ (truthy v = true -> is_dict v = false ->
      load_config json_loads (ReadText raw) = Raise (no_get v))
  /\ (forall (d : gmap pystr pyval) (entry : pyval),
        v = PDict d -> d !! lit "settings" = Some entry ->
        truthy entry = true -> is_dict entry = false ->
        load_config json_loads (ReadText raw) = Raise (no_get entry)).
Proof.
  intros Hraw.
  assert (Hread : _read_config_file json_loads (ReadText raw) = Ok v).
  { unfold _read_config_file. by rewrite Hraw. }
  split; [exact Hread |]. unfold load_config. rewrite Hread. simpl. split.
  - intros Hv Hd. unfold AppConfig_from_dict. rewrite Hv. by destruct v.
  - intros d entry -> Hentry Hv Hd. unfold AppConfig_from_dict.
    assert (truthy (PDict d) = true) as ->.
    { simpl. rewrite bool_decide_eq_false_2; [done |]. intros ->.
      by rewrite lookup_empty in Hentry. }
    simpl. rewrite Hentry. unfold UserSettings_from_dict. rewrite Hv.
    by destruct entry.
Qed.

(** The theorem at a file that holds [[1]], and at one that holds a
    dictionary whose "settings" entry is the string "dark". *)
Lemma load_config_raises_on_json_of_another_shape_witness :
  load_config (fun _ => Ok (PList [PInt 1])) (ReadText (lit "[1]"))
  = Raise (AttributeError (lit "'list' object has no attribute 'get'"))
  /\ load_config (fun _ => Ok (PDict {[ lit "settings" := PStr (lit "dark") ]}))
       (ReadText (lit "{" ++ json_quoted (lit "settings") ++ lit ": "
                    ++ json_quoted (lit "dark") ++ lit "}"))
     = Raise (AttributeError (lit "'str' object has no attribute 'get'")).
Proof.
  split.
  - exact (proj1 (proj2 (load_config_raises_on_json_of_another_shape
                           (fun _ => Ok (PList [PInt 1])) (lit "[1]")
                           (PList [PInt 1]) eq_refl))
             eq_refl eq_refl).
  - exact (proj2 (proj2 (load_config_raises_on_json_of_another_shape
                           (fun _ => Ok (PDict {[ lit "settings" := PStr (lit "dark") ]}))
                           (lit "{" ++ json_quoted (lit "settings") ++ lit ": "
                              ++ json_quoted (lit "dark") ++ lit "}")
                           (PDict {[ lit "settings" := PStr (lit "dark") ]}) eq_refl))
             _ (PStr (lit "dark")) eq_refl (lookup_singleton_eq _ _) eq_refl eq_refl).
Defined.

(** ** The settings dialog *)

(** C9.  When the trimmed key of the dialog is not empty and equals the key
    the dialog was opened with, [_on_save_clicked] accepts the dialog with
    the payload of [get_settings] as its final settings, clears the status
    line and emits nothing: no validation is requested, whatever model and
    language are selected. *)
Theorem save_with_unchanged_key_skips_validation (self : SettingsDialog) :
  p_api_key (get_settings self) <> [] ->
  p_api_key (get_settings self) = _initial_api_key self ->
  _on_save_clicked self
  = (accept_with (get_settings self) (set_status_label [] self), [])
  /\ _final_settings (_on_save_clicked self).1 = Some (get_settings self)
  /\ result_code (_on_save_clicked self).1 = Some Accepted
  /\ (forall k l m, validation_requested_emit k l m ∉ (_on_save_clicked self).2).
Proof.
  intros Hne Heq.
  assert (H : _on_save_clicked self
              = (accept_with (get_settings self) (set_status_label [] self), [])).
  { unfold _on_save_clicked.
    destruct (p_api_key (get_settings self)) as [|c r] eqn:E; [done |].
    simpl. rewrite bool_decide_eq_true_2 by done. reflexivity. }
  rewrite H. simpl. repeat split. intros k l m. apply not_elem_of_nil.
Qed.

(** The theorem at the dialog opened with the key "abc" on settings
    (cs, gemini-2.5-flash), after the user picked another model and
    another language and left the key alone. *)
Lemma save_with_unchanged_key_skips_validation_witness :
  let dialog :=
    let d := SettingsDialog_init (lit "cs") DEFAULT_MODEL_NAME (lit "abc") in
    {| _initial_api_key := _initial_api_key d;
       _final_settings := _final_settings d;
       api_key_input := lit " abc ";
       api_key_input_enabled := api_key_input_enabled d;
       dialogs.lang_combo := setCurrentIndex 3 (dialogs.lang_combo d);
       model_combo := setCurrentIndex 1 (model_combo d);
       status_label := status_label d;
       save_btn_enabled := save_btn_enabled d;
       cancel_btn_enabled := cancel_btn_enabled d;
       result_code := result_code d |} in
  _final_settings (_on_save_clicked dialog).1
  = Some {| p_api_key := lit "abc"; p_default_language := lit "fr";
            p_model_name := lit "gemini-1.5-pro" |}
  /\ (_on_save_clicked dialog).2 = [].
Proof.
  intros dialog.
  destruct (save_with_unchanged_key_skips_validation dialog) as (H & _ & _ & _).
  - vm_compute. discriminate.
  - vm_compute. reflexivity.
  - rewrite H. split; vm_compute; reflexivity.
Defined.

(** ** Client activation *)

Section Activation.

Variable unicode_lower : pystr -> pystr.
Variable genai_configure : pystr -> option pystr.
Variable genai_GenerativeModel : pystr -> option pystr.
Variable save_config_raises : AppConfig pystr -> option exn.

Abbreviation GeminiService_init := (GeminiService_init genai_configure genai_GenerativeModel).
Abbreviation _activate_service := (ui._activate_service genai_configure genai_GenerativeModel).
Abbreviation _apply_settings :=
  (ui._apply_settings unicode_lower genai_configure genai_GenerativeModel save_config_raises).

(** The constructor raises [GeminiAPIError] for the empty key, and only
    then. *)
Lemma GeminiService_init_GeminiAPIError (key model exc : pystr) :
  GeminiService_init key model = Raise (GeminiAPIError exc)
  <-> key = [] /\ exc = lit "API key is empty.".
Proof.
  unfold gemini_service.GeminiService_init, _configure_client.
  destruct key as [|c r]; simpl.
  - split; [by intros [= <-] | by intros [_ ->]].
  - split; [| by intros [? _]].
    destruct (genai_configure (c :: r)); simpl; [done |].
    by destruct (genai_GenerativeModel model).
Qed.

Lemma _activate_service_failure (key model exc : pystr) (self : ui.TextHelperApp) :
  GeminiService_init key model = Raise (GeminiAPIError exc) ->
  _activate_service key model self
  = (ui.set_ui_state (set_status (warn exc) (ui.ui_state (ui.set_gemini_service None self)))
       (ui.set_gemini_service None self),
     [], Ok false).
Proof. intros H. unfold ui._activate_service. by rewrite H. Qed.

End Activation.

(** C4, as the code has it.  When the construction of the client fails
    with [GeminiAPIError], [_activate_service] returns [False], emits
    nothing, clears the client reference and shows the warning as status;
    the stored API key and the model name of the settings stay as they
    were, and so does the configuration. *)
Theorem failed_activation_keeps_key_and_model
    (genai_configure genai_GenerativeModel : pystr -> option pystr)
    (key model exc : pystr) (self : ui.TextHelperApp) :
  GeminiService_init genai_configure genai_GenerativeModel key model
  = Raise (GeminiAPIError exc) ->
  let '(self', effects, r) :=
    ui._activate_service genai_configure genai_GenerativeModel key model self in
  r = Ok false
  /\ effects = []
  /\ ui.gemini_service self' = None
  /\ ui.api_key self' = ui.api_key self
  /\ model_name (ui.settings self') = model_name (ui.settings self)
  /\ ui.config self' = ui.config self
  /\ _status_label (ui.ui_state self') = warn exc.
Proof.
  intros H. rewrite (_activate_service_failure _ _ _ _ _ _ H).
  by destruct self.
Qed.

Lemma failed_activation_keeps_key_and_model_witness :
  let '(self', effects, r) :=
    ui._activate_service no_failure no_failure [] (lit "gemini-1.5-pro") ready_window in
  r = Ok false
  /\ effects = []
  /\ ui.gemini_service self' = None
  /\ ui.api_key self' = lit "stored-key"
  /\ model_name (ui.settings self') = lit "gemini-2.5-flash"
  /\ ui.config self' = stored_config
  /\ _status_label (ui.ui_state self') = warn (lit "API key is empty.").
Proof.
  exact (failed_activation_keeps_key_and_model no_failure no_failure
           [] (lit "gemini-1.5-pro") (lit "API key is empty.") ready_window
           eq_refl).
Defined.

(** C4, as worded, fails: with the key "stored-key" in place, a failed
    activation leaves that key where it is. *)
Lemma failed_activation_does_not_reset_key : ~ failed_activation_resets_key.
Proof.
  intros H.
  specialize (H no_failure no_failure [] (lit "gemini-1.5-pro")
                (lit "API key is empty.") ready_window eq_refl).
  vm_compute in H. destruct H as (_ & _ & Hkey & _). discriminate Hkey.
Qed.

(** ** Applying settings *)

(** C3, as the code has it.  When [_apply_settings] has to activate a
    client and the activation fails, it shows the blocking error and
    returns: the configuration ([config.api_key], the default language and
    the model name of the settings), the stored key and the language
    selector are unchanged and [save_config] is not called.  What the
    failed activation did stays done: the client reference is cleared and
    the status shows the warning. *)
Theorem failed_settings_keep_configuration
    (unicode_lower : pystr -> pystr)
    (genai_configure genai_GenerativeModel : pystr -> option pystr)
    (save_config_raises : AppConfig pystr -> option exn)
    (settings_ : payload) (exc : pystr) (self : ui.TextHelperApp) :
  ui.needs_activation settings_ self = true ->
  GeminiService_init genai_configure genai_GenerativeModel
    (p_api_key settings_) (p_model_name settings_)
  = Raise (GeminiAPIError exc) ->
  let '(self', effects, r) :=
    ui._apply_settings unicode_lower genai_configure genai_GenerativeModel save_config_raises
      settings_ self in
  r = Ok tt
  /\ effects = [QMessageBox_critical (lit "Gemini Error")
                  (lit "Unable to initialize Gemini with the provided key.")]
  /\ (forall k l m, save_config k l m ∉ effects)
  /\ api_key (ui.config self') = api_key (ui.config self)
  /\ default_language (ui.settings self') = default_language (ui.settings self)
  /\ model_name (ui.settings self') = model_name (ui.settings self)
  /\ ui.api_key self' = ui.api_key self
  /\ ui.lang_combo self' = ui.lang_combo self
  /\ ui.gemini_service self' = None
  /\ _status_label (ui.ui_state self') = warn exc.
Proof.
  intros Hneed Hfail. unfold ui._apply_settings. exec. rewrite Hneed.
  unfold ui.seq at 1. rewrite (_activate_service_failure _ _ _ _ _ _ Hfail).
  simpl. repeat split; try (by destruct self).
  intros k l m H. apply list_elem_of_singleton in H. discriminate H.
Qed.

Lemma failed_settings_keep_configuration_witness :
  let '(self', effects, r) :=
    ui._apply_settings (fun s => s) no_failure no_failure save_succeeds
      {| p_api_key := []; p_default_language := lit "fr";
         p_model_name := lit "gemini-1.5-pro" |} ready_window in
  r = Ok tt
  /\ effects = [QMessageBox_critical (lit "Gemini Error")
                  (lit "Unable to initialize Gemini with the provided key.")]
  /\ (forall k l m, save_config k l m ∉ effects)
  /\ api_key (ui.config self') = lit "stored-key"
  /\ default_language (ui.settings self') = lit "cs"
  /\ model_name (ui.settings self') = lit "gemini-2.5-flash"
  /\ ui.api_key self' = lit "stored-key"
  /\ ui.lang_combo self' = ui.lang_combo ready_window
  /\ ui.gemini_service self' = None
  /\ _status_label (ui.ui_state self') = warn (lit "API key is empty.").
Proof.
  exact (failed_settings_keep_configuration (fun s => s) no_failure no_failure save_succeeds
           {| p_api_key := []; p_default_language := lit "fr";
              p_model_name := lit "gemini-1.5-pro" |}
           (lit "API key is empty.") ready_window eq_refl eq_refl).
Defined.

(** C3, as worded, fails: the status "Ready." of the window is replaced by
    the warning of the failed activation. *)
Lemma failed_settings_change_the_status : ~ failed_settings_change_nothing.
Proof.
  intros H.
  specialize (H (fun s => s) no_failure no_failure save_succeeds
                {| p_api_key := []; p_default_language := lit "fr";
                   p_model_name := lit "gemini-1.5-pro" |}
                (lit "API key is empty.") ready_window eq_refl eq_refl).
  vm_compute in H. destruct H as (_ & _ & Hstatus). discriminate Hstatus.
Qed.

(** ** Submission *)

Section Submission.

Variable unicode_lower : pystr -> pystr.
Variable genai_configure : pystr -> option pystr.
Variable genai_GenerativeModel : pystr -> option pystr.
Variable save_config_raises : AppConfig pystr -> option exn.

Abbreviation on_submit :=
  (ui.on_submit unicode_lower genai_configure genai_GenerativeModel save_config_raises).

Lemma lstrip_snoc_nonspace (l : pystr) (c : N) :
  isspace c = false -> lstrip (l ++ [c]) <> [].
Proof.
  intros Hc. induction l as [|d l IH]; simpl.
  - by rewrite Hc.
  - by destruct (isspace d).
Qed.

Lemma rev_nonempty (l : pystr) : l <> [] -> rev l <> [].
Proof.
  destruct l as [|c l]; [done |]. intros _ H.
  apply (f_equal length) in H. rewrite length_rev in H. discriminate H.
Qed.

Lemma strip_warn_truthy (message : pystr) : str_truthy (strip (warn message)) = true.
Proof.
  assert (H : strip (warn message) <> []).
  { unfold strip, rstrip.
    change (lstrip (warn message)) with (warn message).
    apply rev_nonempty.
    change (warn message) with (9888 :: 65039 :: 32 :: message).
    change (rev (9888 :: 65039 :: 32 :: message))
      with (((rev message ++ [32]) ++ [65039]) ++ [9888]).
    by apply lstrip_snoc_nonspace. }
  by destruct (strip (warn message)).
Qed.

Lemma on_submit_empty_input (accepted : option payload) (self : ui.TextHelperApp)
    (the_service : GeminiService) :
  ui.gemini_service self = Some the_service ->
  ui.worker_running self = false ->
  strip (ui.input_edit self) = [] ->
  on_submit accepted self
  = (ui.set_ui_state (reset_copy_button true (ui.ui_state self))
       (ui.set_output_edit (warn (lit "No input text."))
          (ui.set_last_error_message None self)),
     [], Ok tt).
Proof.
  intros Hsvc Hrun Htext. destruct self. simpl in *. subst.
  unfold ui.on_submit. exec. simpl. exec.
  unfold ui.worker_running in *. simpl in *. rewrite Hrun. exec. simpl.
  rewrite Htext. simpl. exec. unfold ui.reset_copy_btn. exec. simpl.
  reflexivity.
Qed.

Lemma on_submit_while_running (accepted : option payload) (self : ui.TextHelperApp) :
  is_Some (ui.gemini_service self) ->
  ui.worker_running self = true ->
  on_submit accepted self
  = (ui.set_last_error_message None self,
     [QMessageBox_information (lit "Processing")
        (lit "The previous request is still running.")],
     Ok tt).
Proof.
  intros [svc Hsvc] Hrun. destruct self. simpl in *. subst.
  unfold ui.on_submit. exec. simpl. exec.
  unfold ui.worker_running in *. simpl in *. by rewrite Hrun.
Qed.

Lemma on_submit_starts (accepted : option payload) (self : ui.TextHelperApp)
    (the_service : GeminiService) :
  ui.gemini_service self = Some the_service ->
  ui.worker_running self = false ->
  strip (ui.input_edit self) <> [] ->
  let prompt := ui._build_prompt unicode_lower (strip (ui.input_edit self)) self in
  on_submit accepted self
  = (ui.set_worker
       (Some {| service := the_service; prompt := prompt; isRunning := true |})
       (ui.set_ui_state
          (set_status (lit "Working with Gemini" ++ ellipsis)
             (start_processing (ui.ui_state self)))
          (ui.set_output_edit [] (ui.set_last_error_message None self))),
     [worker_start prompt], Ok tt).
Proof.
  intros Hsvc Hrun Htext. destruct self. simpl in *. subst.
  unfold ui.on_submit. exec. simpl. exec.
  unfold ui.worker_running in *. simpl in *. rewrite Hrun. exec. simpl.
  destruct (strip input_edit) eqn:E; [done |]. simpl. exec. simpl.
  unfold ui._set_status. exec. simpl. reflexivity.
Qed.

End Submission.

(** C2.  With an active client and no running worker, submitting an input
    that trims to the empty string emits no effect (no worker is created
    or started, the client is not called), leaves the worker reference as
    it was, makes the output exactly the warning "No input text." behind
    the warning sign, and leaves the copy button enabled. *)
Theorem empty_submission_sets_warning_output
    (unicode_lower : pystr -> pystr)
    (genai_configure genai_GenerativeModel : pystr -> option pystr)
    (save_config_raises : AppConfig pystr -> option exn)
    (accepted : option payload) (self : ui.TextHelperApp)
    (the_service : GeminiService) :
  ui.gemini_service self = Some the_service ->
  ui.worker_running self = false ->
  strip (ui.input_edit self) = [] ->
  let '(self', effects, r) :=
    ui.on_submit unicode_lower genai_configure genai_GenerativeModel
      save_config_raises accepted self in
  r = Ok tt
  /\ effects = []
  /\ ui.worker self' = ui.worker self
  /\ ui.gemini_service self' = ui.gemini_service self
  /\ ui.output_edit self' = warning_sign ++ lit " No input text."
  /\ isEnabled (_copy_btn (ui.ui_state self')) = true.
Proof.
  intros Hsvc Hrun Htext.
  rewrite (on_submit_empty_input _ _ _ _ _ _ _ Hsvc Hrun Htext).
  by destruct self.
Qed.

Lemma empty_submission_sets_warning_output_witness :
  let '(self', effects, r) :=
    ui.on_submit (fun s => s) no_failure no_failure save_succeeds None
      (ui.set_input_edit (lit "   ") ready_window) in
  r = Ok tt
  /\ effects = []
  /\ ui.worker self' = None
  /\ ui.gemini_service self' = ui.gemini_service ready_window
  /\ ui.output_edit self' = warning_sign ++ lit " No input text."
  /\ isEnabled (_copy_btn (ui.ui_state self')) = true.
Proof.
  exact (empty_submission_sets_warning_output (fun s => s) no_failure no_failure save_succeeds
           None (ui.set_input_edit (lit "   ") ready_window)
           {| service_api_key := lit "stored-key";
              service_model_name := DEFAULT_MODEL_NAME |}
           eq_refl eq_refl eq_refl).
Defined.

(** ** Streaming into the output *)

Section Streaming.

Variable unicode_lower : pystr -> pystr.

Lemma seq_pure {A B} (m : ui.handler A) (k : A -> ui.handler B) s s1 a :
  m s = (s1, [], Ok a) -> ui.seq m k s = k a s1.
Proof. intros H. unfold ui.seq. rewrite H. by destruct (k a s1) as [[? ?] ?]. Qed.

Lemma update_output_spec (text : pystr) (self : ui.TextHelperApp) :
  ui.update_output text self
  = (ui.set_output_edit (ui.output_edit self ++ text)
       (if str_truthy (ui.output_edit self) then self
        else ui.set_ui_state
               (set_status (lit "Streaming response" ++ ellipsis) (ui.ui_state self))
               self),
     [], Ok tt).
Proof.
  unfold ui.update_output. exec.
  destruct self as [? ? ? ? ? ? ? ? ? ? out ? ?]. simpl.
  destruct out; simpl; exec; reflexivity.
Qed.

(** The window after the chunks [cs] were appended one by one. *)
Lemma deliver_partials (cs : list pystr) (rest : list signal) (self : ui.TextHelperApp) :
  exists self1,
    ui.deliver ((partial <$> cs) ++ rest) self
    = ui.deliver rest self1
    /\ ui.output_edit self1 = ui.output_edit self ++ concat cs
    /\ ui._last_error_message self1 = ui._last_error_message self
    /\ ui.worker self1 = ui.worker self.
Proof.
  revert self. induction cs as [|c cs IH]; intros self.
  - exists self. by rewrite app_nil_r.
  - pose proof (update_output_spec c self) as Hu.
    destruct (ui.update_output c self) as [[s1 e1] r1] eqn:E.
    injection Hu as -> -> ->.
    match type of E with _ = (?s1, _, _) =>
      destruct (IH s1) as (self1 & Hd & Ho & He & Hw) end.
    exists self1. split; [| split; [| split]].
    + simpl. rewrite (seq_pure _ _ _ _ _ E). exact Hd.
    + rewrite Ho. destruct self as [? ? ? ? ? ? ? ? ? ? out ? ?]; simpl.
      destruct out; simpl; by rewrite <- ?app_assoc.
    + rewrite He. destruct self as [? ? ? ? ? ? ? ? ? ? out ? ?]; simpl.
      by destruct out.
    + rewrite Hw. destruct self as [? ? ? ? ? ? ? ? ? ? out ? ?]; simpl.
      by destruct out.
Qed.

Lemma on_finished_spec (self : ui.TextHelperApp) :
  ui.on_finished self
  = (ui.set_last_error_message None
       (ui.set_ui_state
          (set_ready
             (terminal_status (ui._last_error_message self) (ui.output_edit self))
             (str_truthy (strip (ui.output_edit self)))
             (ui.ui_state self))
          (ui.set_worker None self)),
     match ui.worker self with Some _ => [worker_deleteLater] | None => [] end,
     Ok tt).
Proof.
  unfold ui.on_finished. exec.
  destruct self as [? ? ? w ? ? err ? ? ? out ? ?]. simpl.
  destruct w; simpl; exec; simpl; exec; simpl;
    destruct err as [[|c m]|]; reflexivity.
Qed.

End Streaming.

(** C6, as the code has it.  After a submission that started a worker, the
    delivery of the signals of a stream that ends without error leaves in
    the output the concatenation of the chunks, in order, releases the
    worker, and shows "Completed." if the output holds more than white
    space and "No response received." otherwise.  In any state, the status
    [on_finished] shows is the warning with the recorded error when a
    non-empty message was recorded, else "Completed." when the trimmed
    output is not empty, else "No response received.". *)
Theorem completed_request_output_and_status
    (unicode_lower : pystr -> pystr) (self : ui.TextHelperApp)
    (stream : iterator pystr) :
  is_Some (ui.gemini_service self) ->
  ui.worker_running self = false ->
  strip (ui.input_edit self) <> [] ->
  stream_end stream = None ->
  let self' := completed unicode_lower stream self in
  ui.output_edit self' = concat (chunks stream)
  /\ ui.worker self' = None
  /\ _status_label (ui.ui_state self')
     = (if str_truthy (strip (concat (chunks stream))) then lit "Completed."
        else lit "No response received.")
  /\ isEnabled (_copy_btn (ui.ui_state self'))
     = str_truthy (strip (concat (chunks stream)))
  /\ (forall s : ui.TextHelperApp,
        _status_label (ui.ui_state (ui.on_finished s).1.1)
        = terminal_status (ui._last_error_message s) (ui.output_edit s)).
Proof.
  intros [svc Hsvc] Hrun Htext Hend self'.
  assert (Hfin : forall s : ui.TextHelperApp,
             _status_label (ui.ui_state (ui.on_finished s).1.1)
             = terminal_status (ui._last_error_message s) (ui.output_edit s)).
  { intros s. rewrite on_finished_spec. by destruct s. }
  subst self'. unfold completed, submitted.
  rewrite (on_submit_starts unicode_lower no_failure no_failure save_succeeds None self svc
             Hsvc Hrun Htext).
  rewrite run_trace, Hend. cbn [fst snd].
  change (error <$> error_of None) with (@nil signal).
  set (started := ui.set_worker _ _).
  destruct (deliver_partials (chunks stream) ([] ++ [finished]) started)
    as (self1 & Hd & Ho & He & Hw).
  rewrite Hd.
  change (ui.deliver ([] ++ [finished]) self1)
    with (ui.seq ui.on_finished (fun _ => ui.skip) self1).
  unfold ui.seq. rewrite on_finished_spec. cbn [fst snd ui.skip ui.ret].
  assert (Hout : ui.output_edit self1 = concat (chunks stream)).
  { rewrite Ho. subst started. by destruct self. }
  assert (Herr : ui._last_error_message self1 = None).
  { rewrite He. subst started. by destruct self. }
  clear Hd Ho He Hw. subst started.
  destruct self1 as [? ? ? ? ? ? err1 ? ? ? out1 ? ?].
  cbn in Hout, Herr. subst out1 err1.
  repeat split; try exact Hfin.
Qed.

Lemma completed_request_output_and_status_witness :
  let self' :=
    completed (fun s => s)
      (Yield (lit "Hello ") (Yield (lit "world!") StopIteration))
      (ui.set_input_edit (lit "helo wrld") ready_window) in
  ui.output_edit self' = lit "Hello world!"
  /\ ui.worker self' = None
  /\ _status_label (ui.ui_state self') = lit "Completed."
  /\ isEnabled (_copy_btn (ui.ui_state self')) = true.
Proof.
  destruct (completed_request_output_and_status (fun s => s)
              (ui.set_input_edit (lit "helo wrld") ready_window)
              (Yield (lit "Hello ") (Yield (lit "world!") StopIteration)))
    as (H1 & H2 & H3 & H4 & _).
  - vm_compute. eauto.
  - reflexivity.
  - vm_compute. discriminate.
  - reflexivity.
  - split; [exact H1 |]. split; [exact H2 |]. split; [exact H3 | exact H4].
Defined.

(** C6, as worded, fails: a stream whose only chunk is a line break leaves
    a non-empty output, and the status is "No response received.". *)
Lemma completed_status_turns_on_trimmed_output : ~ completed_status_by_emptiness.
Proof.
  intros H.
  specialize (H (fun s => s) (ui.set_input_edit (lit "helo wrld") ready_window)
                (Yield [10] StopIteration)).
  destruct H as [_ Hstatus].
  - vm_compute. eauto.
  - reflexivity.
  - vm_compute. discriminate.
  - reflexivity.
  - vm_compute in Hstatus. discriminate Hstatus.
Qed.

(** ** One worker at a time *)

Section Preservation.

Context {A B : Type} (P : ui.TextHelperApp -> Prop).

Lemma preserves_ret (a : A) : preserves P (ui.ret a).
Proof. by intros s. Qed.

Lemma preserves_raise (e : exn) : preserves P (@ui.raise A e).
Proof. by intros s. Qed.

Lemma preserves_read (f : ui.TextHelperApp -> A) : preserves P (ui.read f).
Proof. by intros s. Qed.

Lemma preserves_emit (e : effect) : preserves P (ui.emit e).
Proof. by intros s. Qed.

Lemma preserves_assign (f : ui.TextHelperApp -> ui.TextHelperApp) :
  (forall s, P s -> P (f s)) -> preserves P (ui.assign f).
Proof. intros H s. apply H. Qed.

Lemma preserves_seq (m : ui.handler A) (k : A -> ui.handler B) :
  preserves P m -> (forall a, preserves P (k a)) -> preserves P (ui.seq m k).
Proof.
  intros Hm Hk s Hs. unfold ui.seq.
  specialize (Hm s Hs). destruct (m s) as [[s1 e1] [a|e]]; simpl in *; [| done].
  specialize (Hk a s1 Hm). by destruct (k a s1) as [[s2 e2] r2].
Qed.

End Preservation.

Section Emission.

Context {A B : Type} (Q : effect -> Prop).

Lemma emits_only_ret (a : A) : emits_only Q (ui.ret a).
Proof. intros s e H. by apply elem_of_nil in H. Qed.

Lemma emits_only_raise (e : exn) : emits_only Q (@ui.raise A e).
Proof. intros s e' H. by apply elem_of_nil in H. Qed.

Lemma emits_only_read (f : ui.TextHelperApp -> A) : emits_only Q (ui.read f).
Proof. intros s e H. by apply elem_of_nil in H. Qed.

Lemma emits_only_assign (f : ui.TextHelperApp -> ui.TextHelperApp) :
  emits_only Q (ui.assign f).
Proof. intros s e H. by apply elem_of_nil in H. Qed.

Lemma emits_only_emit (e : effect) : Q e -> emits_only Q (ui.emit e).
Proof. intros He s e' H. apply list_elem_of_singleton in H. by subst. Qed.

Lemma emits_only_seq (m : ui.handler A) (k : A -> ui.handler B) :
  emits_only Q m -> (forall a, emits_only Q (k a)) -> emits_only Q (ui.seq m k).
Proof.
  intros Hm Hk s e. unfold ui.seq.
  specialize (Hm s). destruct (m s) as [[s1 e1] [a|x]]; simpl in *; [| apply Hm].
  specialize (Hk a s1). destruct (k a s1) as [[s2 e2] r2]. simpl in *.
  intros [H|H]%elem_of_app; [by apply Hm | by apply Hk].
Qed.

End Emission.

Lemma preserves_assign_framed (P : ui.TextHelperApp -> Prop)
    (f : ui.TextHelperApp -> ui.TextHelperApp) :
  framed P ->
  (forall s, ui.worker (f s) = ui.worker s
             /\ ui.gemini_service (f s) = ui.gemini_service s) ->
  preserves P (ui.assign f).
Proof. intros HP Hf s Hs. destruct (Hf s). by apply (HP s). Qed.

Create HintDb handlers.

(** Walks through a handler, leaving what the combinators do not decide. *)
Ltac walk :=
  repeat first
    [ solve [ eauto with handlers ]
    | apply preserves_ret | apply preserves_raise | apply preserves_read
    | apply preserves_emit
    | apply emits_only_ret | apply emits_only_raise | apply emits_only_read
    | apply emits_only_assign
    | apply emits_only_emit; exact I
    | apply preserves_seq; [| intros ?]
    | apply emits_only_seq; [| intros ?]
    | apply preserves_assign_framed;
      [ assumption | let s := fresh "s" in intros s; by destruct s ]
    | match goal with
      | |- preserves _ (if ?b then _ else _) => destruct b
      | |- emits_only _ (if ?b then _ else _) => destruct b
      | |- preserves _ (match ?x with _ => _ end) => destruct x
      | |- emits_only _ (match ?x with _ => _ end) => destruct x
      end ].

Section Frame.

Variable unicode_lower : pystr -> pystr.
Variable save_config_raises : AppConfig pystr -> option exn.
Variable P : ui.TextHelperApp -> Prop.
Hypothesis P_framed : framed P.
Variable Q : effect -> Prop.

(** The handlers that touch neither the worker nor the client, and emit
    nothing or one effect. *)
Lemma _set_status_frame message : preserves P (ui._set_status message).
Proof. unfold ui._set_status. walk. Qed.

Lemma _set_status_emits message : emits_only Q (ui._set_status message).
Proof. unfold ui._set_status. walk. Qed.

Hint Resolve _set_status_frame _set_status_emits : handlers.

Lemma _on_language_changed_frame : preserves P (ui._on_language_changed unicode_lower).
Proof. unfold ui._on_language_changed. walk. Qed.

Lemma _on_language_changed_emits : emits_only Q (ui._on_language_changed unicode_lower).
Proof. unfold ui._on_language_changed. walk. Qed.

Hint Resolve _on_language_changed_frame _on_language_changed_emits : handlers.

Lemma lang_combo_setCurrentIndex_frame index :
  preserves P (ui.lang_combo_setCurrentIndex unicode_lower index).
Proof. unfold ui.lang_combo_setCurrentIndex. walk. Qed.

Lemma lang_combo_setCurrentIndex_emits index :
  emits_only Q (ui.lang_combo_setCurrentIndex unicode_lower index).
Proof. unfold ui.lang_combo_setCurrentIndex. walk. Qed.

Hint Resolve lang_combo_setCurrentIndex_frame lang_combo_setCurrentIndex_emits : handlers.

Lemma _set_language_selection_frame language_code :
  preserves P (ui._set_language_selection unicode_lower language_code).
Proof. unfold ui._set_language_selection. walk. Qed.

Lemma _set_language_selection_emits language_code :
  emits_only Q (ui._set_language_selection unicode_lower language_code).
Proof. unfold ui._set_language_selection. walk. Qed.

Hint Resolve _set_language_selection_frame _set_language_selection_emits : handlers.

Lemma _apply_user_settings_frame : preserves P (ui._apply_user_settings unicode_lower).
Proof. unfold ui._apply_user_settings. walk. Qed.

Lemma store_settings_frame settings_ :
  preserves P (ui.store_settings unicode_lower save_config_raises settings_).
Proof. unfold ui.store_settings. walk. Qed.

Lemma reset_copy_btn_frame : preserves P ui.reset_copy_btn.
Proof. unfold ui.reset_copy_btn. walk. Qed.

Lemma clear_all_frame : preserves P ui.clear_all.
Proof. unfold ui.clear_all. walk. Qed.

Lemma on_mode_fix_frame : preserves P ui.on_mode_fix.
Proof. unfold ui.on_mode_fix. walk. Qed.

Lemma on_mode_translate_frame : preserves P (ui.on_mode_translate unicode_lower).
Proof. unfold ui.on_mode_translate. walk. Qed.

Lemma update_output_frame text : preserves P (ui.update_output text).
Proof. unfold ui.update_output. walk. Qed.

Lemma on_worker_error_frame message : preserves P (ui.on_worker_error message).
Proof. unfold ui.on_worker_error. walk. Qed.

Lemma copy_output_frame : preserves P ui.copy_output.
Proof. unfold ui.copy_output. walk. Qed.

Lemma _start_validator_frame validator : preserves P (ui._start_validator validator).
Proof. unfold ui._start_validator. walk. Qed.

Lemma _init_services_frame : preserves P ui._init_services.
Proof. unfold ui._init_services. walk. Qed.

Lemma _handle_settings_validation_frame settings_ :
  preserves P (ui._handle_settings_validation settings_).
Proof. apply _start_validator_frame. Qed.

Lemma _on_settings_validation_success_frame dialog settings_ :
  preserves P (ui._on_settings_validation_success dialog settings_).
Proof. unfold ui._on_settings_validation_success. walk. Qed.

Lemma _on_settings_validation_failure_frame dialog message :
  preserves P (ui._on_settings_validation_failure dialog message).
Proof. unfold ui._on_settings_validation_failure. walk. Qed.

End Frame.

Section OneWorker.

Variable unicode_lower : pystr -> pystr.
Variable genai_configure : pystr -> option pystr.
Variable genai_GenerativeModel : pystr -> option pystr.
Variable save_config_raises : AppConfig pystr -> option exn.

Abbreviation on_submit' :=
  (ui.on_submit unicode_lower genai_configure genai_GenerativeModel save_config_raises).
Abbreviation open_settings' :=
  (ui.open_settings unicode_lower genai_configure genai_GenerativeModel save_config_raises).

Lemma worker_has_client_framed : framed worker_has_client.
Proof. intros s s' Hw Hg. unfold worker_has_client. by rewrite Hw, Hg. Qed.

Hint Resolve worker_has_client_framed : handlers.
Hint Resolve _set_status_frame _set_status_emits _set_language_selection_frame
  _set_language_selection_emits store_settings_frame : handlers.

Lemma _activate_service_worker_has_client (key model : pystr) :
  key <> [] ->
  preserves worker_has_client
    (ui._activate_service genai_configure genai_GenerativeModel key model).
Proof.
  intros Hkey. pose proof worker_has_client_framed as Hframed.
  unfold ui._activate_service.
  destruct (GeminiService_init _ _ key model) as [svc|e] eqn:E.
  - walk. apply preserves_assign. intros s _ _. destruct s. by eexists.
  - destruct e; try apply preserves_raise.
    apply GeminiService_init_GeminiAPIError in E as [-> _]. done.
Qed.

Lemma _activate_service_emits (key model : pystr) :
  emits_only starts_no_worker
    (ui._activate_service genai_configure genai_GenerativeModel key model).
Proof.
  unfold ui._activate_service.
  destruct (GeminiService_init _ _ key model) as [svc|e]; [walk |].
  destruct e; walk.
Qed.

Lemma store_settings_emits (settings_ : payload) :
  emits_only starts_no_worker (ui.store_settings unicode_lower save_config_raises settings_).
Proof. unfold ui.store_settings. walk. Qed.

Hint Resolve _activate_service_worker_has_client _activate_service_emits
  store_settings_emits : handlers.

Lemma _apply_settings_worker_has_client (settings_ : payload) :
  p_api_key settings_ <> [] ->
  preserves worker_has_client
    (ui._apply_settings unicode_lower genai_configure genai_GenerativeModel
      save_config_raises settings_).
Proof.
  intros Hkey. pose proof worker_has_client_framed as Hframed.
  unfold ui._apply_settings. walk.
Qed.

Lemma _apply_settings_emits (settings_ : payload) :
  emits_only starts_no_worker
    (ui._apply_settings unicode_lower genai_configure genai_GenerativeModel
      save_config_raises settings_).
Proof.
  unfold ui._apply_settings. walk.
Qed.

Lemma closeEvent_worker_has_client : preserves worker_has_client ui.closeEvent.
Proof.
  pose proof worker_has_client_framed as Hframed.
  unfold ui.closeEvent. walk.
  apply preserves_assign. intros s _ [w Hw]. by destruct s.
Qed.

Lemma closeEvent_emits : emits_only starts_no_worker ui.closeEvent.
Proof. unfold ui.closeEvent. walk. Qed.

Hint Resolve closeEvent_worker_has_client closeEvent_emits : handlers.

Lemma close_worker_has_client : preserves worker_has_client ui.close.
Proof.
  pose proof worker_has_client_framed as Hframed.
  unfold ui.close. walk.
Qed.

Lemma close_emits : emits_only starts_no_worker ui.close.
Proof. unfold ui.close. walk. Qed.

Hint Resolve close_worker_has_client close_emits : handlers.

Lemma open_settings_worker_has_client (require_key : bool) (accepted : option payload) :
  accepted_with_key accepted ->
  preserves worker_has_client (open_settings' require_key accepted).
Proof.
  intros Hkey. unfold ui.open_settings. destruct accepted as [final_settings|].
  - by apply _apply_settings_worker_has_client.
  - walk.
Qed.

Lemma open_settings_emits (require_key : bool) (accepted : option payload) :
  emits_only starts_no_worker (open_settings' require_key accepted).
Proof.
  unfold ui.open_settings. destruct accepted as [final_settings|].
  - apply _apply_settings_emits.
  - walk.
Qed.

Lemma on_finished_worker_has_client : preserves worker_has_client ui.on_finished.
Proof.
  intros s _. rewrite on_finished_spec. simpl. intros [w Hw]. by destruct s.
Qed.

Lemma thread_ended_worker_has_client :
  preserves worker_has_client (ui.assign thread_ended).
Proof.
  apply preserves_assign. intros s Hs [w Hw]. unfold thread_ended in *.
  destruct s as [? ? ? [w0|] ? ? ? ? ? ? ? ? ?]; simpl in *; [| done].
  apply Hs. by eexists.
Qed.

Lemma on_submit_without_client (accepted : option payload) (self : ui.TextHelperApp) :
  ui.gemini_service self = None ->
  on_submit' accepted self
  = let '(s2, e2, r2) :=
      open_settings' true accepted (ui.set_last_error_message None self) in
    (s2,
     QMessageBox_warning (lit "Gemini Unavailable")
       (lit "A valid Gemini API key is required before processing text.") :: e2,
     r2).
Proof.
  intros Hsvc. unfold ui.on_submit. exec.
  assert (ui.gemini_service (ui.set_last_error_message None self) = None) as ->
    by (by destruct self).
  reflexivity.
Qed.

Lemma on_submit_worker_has_client (accepted : option payload) :
  accepted_with_key accepted ->
  preserves worker_has_client (on_submit' accepted).
Proof.
  intros Hkey s Hs.
  destruct (ui.gemini_service s) as [svc|] eqn:Hsvc.
  - destruct (ui.worker_running s) eqn:Hrun.
    + rewrite (on_submit_while_running _ _ _ _ accepted s) by (by rewrite ?Hsvc).
      by destruct s.
    + destruct (strip (ui.input_edit s)) as [|c text] eqn:Htext.
      * rewrite (on_submit_empty_input _ _ _ _ accepted s svc) by done.
        by destruct s.
      * rewrite (on_submit_starts _ _ _ _ accepted s svc) by (by rewrite ?Htext).
        intros _. destruct s; simpl in *. by eexists.
  - rewrite on_submit_without_client by done.
    pose proof (open_settings_worker_has_client true accepted Hkey
                  (ui.set_last_error_message None s)) as H.
    destruct (open_settings' true accepted _) as [[s2 e2] r2]. simpl in *.
    apply H. by destruct s.
Qed.

End OneWorker.

Section Reachable.

Variable unicode_lower : pystr -> pystr.
Variable genai_configure : pystr -> option pystr.
Variable genai_GenerativeModel : pystr -> option pystr.
Variable save_config_raises : AppConfig pystr -> option exn.

Hint Resolve worker_has_client_framed _set_status_frame
  _activate_service_worker_has_client open_settings_worker_has_client : handlers.

Lemma _on_startup_key_validated_worker_has_client (key : pystr) :
  key <> [] ->
  preserves worker_has_client
    (ui._on_startup_key_validated genai_configure genai_GenerativeModel key).
Proof.
  intros Hkey. pose proof worker_has_client_framed as Hframed.
  unfold ui._on_startup_key_validated. walk.
Qed.

Lemma _on_startup_key_failed_worker_has_client (message : pystr)
    (accepted : option payload) :
  accepted_with_key accepted ->
  preserves worker_has_client
    (ui._on_startup_key_failed unicode_lower genai_configure genai_GenerativeModel
      save_config_raises
       message accepted).
Proof.
  intros Hkey. pose proof worker_has_client_framed as Hframed.
  unfold ui._on_startup_key_failed. walk.
Qed.

Lemma slot_worker_has_client (sig : signal) : preserves worker_has_client (ui.slot sig).
Proof.
  destruct sig; simpl.
  - apply update_output_frame, worker_has_client_framed.
  - apply on_worker_error_frame, worker_has_client_framed.
  - apply on_finished_worker_has_client.
Qed.

Lemma handle_worker_has_client (e : event) :
  well_formed e ->
  preserves worker_has_client
    (handle unicode_lower genai_configure genai_GenerativeModel save_config_raises e).
Proof.
  pose proof worker_has_client_framed as Hframed.
  destruct e; simpl; intros Hwf.
  - by apply _init_services_frame.
  - by apply _on_startup_key_validated_worker_has_client.
  - by apply _on_startup_key_failed_worker_has_client.
  - by apply _handle_settings_validation_frame.
  - apply preserves_seq; [by apply _on_settings_validation_success_frame |].
    intros _. apply preserves_ret.
  - apply preserves_seq; [by apply _on_settings_validation_failure_frame |].
    intros _. apply preserves_ret.
  - walk.
  - by apply open_settings_worker_has_client.
  - by apply on_mode_fix_frame.
  - by apply on_mode_translate_frame.
  - by apply lang_combo_setCurrentIndex_frame.
  - walk.
  - by apply clear_all_frame.
  - by apply copy_output_frame.
  - by apply reset_copy_btn_frame.
  - by apply on_submit_worker_has_client.
  - apply slot_worker_has_client.
  - apply thread_ended_worker_has_client.
  - apply close_worker_has_client.
Qed.

Lemma reachable_worker_has_client (self : ui.TextHelperApp) :
  reachable unicode_lower genai_configure genai_GenerativeModel save_config_raises self ->
  worker_has_client self.
Proof.
  induction 1 as [config | self e _ IH Hwf].
  - unfold ui.TextHelperApp_init.
    match goal with |- worker_has_client (ui.seq ?m ?k ?w).1.1 =>
      apply (preserves_seq worker_has_client m k) end.
    + apply _apply_user_settings_frame, worker_has_client_framed.
    + intros _. apply preserves_emit.
    + by intros [w Hw].
  - by apply handle_worker_has_client.
Qed.

(** What the environment hands to the window: the dialog is only accepted
    with a key, and the validator only reports success for a key. *)
Lemma final_settings_have_a_key (dialog : SettingsDialog) (final_settings : payload) :
  _final_settings dialog = None ->
  _final_settings (_on_save_clicked dialog).1 = Some final_settings ->
  p_api_key final_settings <> [].
Proof.
  intros Hnone. unfold _on_save_clicked, request_validation.
  destruct (p_api_key (get_settings dialog)) as [|c key] eqn:Hkey; simpl.
  - by rewrite Hnone.
  - case_bool_decide as Heq.
    + simpl. intros [= <-]. by rewrite Hkey.
    + unfold show_validation_in_progress.
      repeat (case_match; simpl); by rewrite ?Hnone.
Qed.

Lemma validation_request_has_a_key (dialog : SettingsDialog) (k l m : pystr) :
  validation_requested_emit k l m ∈ (_on_save_clicked dialog).2 -> k <> [].
Proof.
  unfold _on_save_clicked, request_validation.
  destruct (p_api_key (get_settings dialog)) as [|c key] eqn:Hkey; simpl.
  - intros H. repeat (apply elem_of_cons in H as [H|H]; [discriminate H |]).
    by apply elem_of_nil in H.
  - case_bool_decide as Heq; simpl.
    + by intros H%elem_of_nil.
    + intros H%list_elem_of_singleton. by injection H as -> _ _.
Qed.

Lemma validated_key_not_empty (generate_ping : pystr -> option pystr)
    (validator : GeminiKeyValidator) (key : pystr) :
  success key
  ∈ (GeminiKeyValidator_run genai_configure genai_GenerativeModel generate_ping
       validator).1 ->
  key <> [].
Proof.
  unfold GeminiKeyValidator_run, validate_api_key, _configure_client.
  destruct (v_api_key validator) as [|c k] eqn:Hkey; simpl.
  - intros H%list_elem_of_singleton. discriminate H.
  - destruct (genai_configure (c :: k)); simpl;
      [| destruct (genai_GenerativeModel (v_model_name validator)); simpl;
         [| destruct (generate_ping (v_model_name validator)); simpl ]];
      intros Hin%list_elem_of_singleton; try discriminate Hin.
    by injection Hin as ->.
Qed.

End Reachable.

Section StartsWhenIdle.

Variable unicode_lower : pystr -> pystr.
Variable genai_configure : pystr -> option pystr.
Variable genai_GenerativeModel : pystr -> option pystr.
Variable save_config_raises : AppConfig pystr -> option exn.

(** In any window, [on_submit] starts a worker only when none is running. *)
Lemma on_submit_starts_only_when_idle (accepted : option payload)
    (self : ui.TextHelperApp) (prompt : pystr) :
  worker_start prompt
  ∈ (ui.on_submit unicode_lower genai_configure genai_GenerativeModel
       save_config_raises accepted self).1.2 ->
  ui.worker_running self = false.
Proof.
  destruct (ui.gemini_service self) as [svc|] eqn:Hsvc.
  - destruct (ui.worker_running self) eqn:Hrun; [| done].
    rewrite (on_submit_while_running _ _ _ _ accepted self) by (by rewrite ?Hsvc).
    simpl. intros H%list_elem_of_singleton. discriminate H.
  - rewrite on_submit_without_client by done.
    pose proof (open_settings_emits unicode_lower genai_configure
                  genai_GenerativeModel save_config_raises true accepted
                  (ui.set_last_error_message None self) (worker_start prompt)) as H.
    destruct (ui.open_settings _ _ _ _ true accepted _) as [[s2 e2] r2]. simpl in *.
    intros [Hin|Hin]%elem_of_cons; [discriminate Hin |].
    destruct (H Hin).
Qed.

End StartsWhenIdle.



(** * Further properties *)

(** ** The service *)

Section ServiceProperties.

Lemma stream_prompt_loop_nonempty (response : iterator chunk) :
  Forall (fun c => c <> []) (chunks (stream_prompt_loop response)).
Proof.
  induction response as [[text| |e] rest IH | | e]; simpl; try done.
  destruct text as [|c text]; simpl; [done |]. by constructor.
Qed.

Lemma stream_prompt_loop_sublist (response : iterator chunk) :
  chunks (stream_prompt_loop response) `sublist_of` response_texts response.
Proof.
  induction response as [[text| |e] rest IH | | e]; simpl; try done;
    try apply sublist_nil_l.
  destruct (str_truthy text); simpl;
    [by apply sublist_skip | by apply sublist_cons].
Qed.

Lemma stream_prompt_loop_clean (response : iterator chunk) :
  text_raises response = false ->
  chunks (stream_prompt_loop response) = List.filter str_truthy (response_texts response)
  /\ stream_end (stream_prompt_loop response) = response_end response.
Proof.
  induction response as [[text| |e] rest IH | | e]; simpl; try done; intros H.
  destruct (IH H) as [IH1 IH2]. destruct (str_truthy text); simpl; by rewrite ?IH1.
Qed.

End ServiceProperties.

(** X1.  [stream_prompt] never yields an empty text; the texts it yields
    are texts of the response, in the order of the response; when no
    chunk's text raises they are all its non-empty texts, and the stream
    ends as the response does; and when [generate_content] raises, it
    yields nothing and raises the same exception. *)
Theorem stream_prompt_yields_nonempty_texts
    (generate_content : pystr -> result (iterator chunk)) (prompt : pystr) :
  let stream := stream_prompt generate_content prompt in
  Forall (fun c => c <> []) (chunks stream)
  /\ (forall response, generate_content prompt = Ok response ->
        chunks stream `sublist_of` response_texts response
        /\ (text_raises response = false ->
            chunks stream = List.filter str_truthy (response_texts response)
            /\ stream_end stream = response_end response))
  /\ (forall e, generate_content prompt = Raise e ->
        chunks stream = [] /\ stream_end stream = Some e).
Proof.
  unfold stream_prompt. destruct (generate_content prompt) as [response|e].
  - split; [apply stream_prompt_loop_nonempty |]. split; [| done].
    intros r [= <-]. split; [apply stream_prompt_loop_sublist |].
    apply stream_prompt_loop_clean.
  - split; [by constructor |]. split; [done |]. by intros e' [= <-].
Qed.

Lemma stream_prompt_yields_nonempty_texts_witness :
  let response :=
    Yield (ChunkText (lit "Hello "))
      (Yield ChunkNoText (Yield (ChunkText []) (Yield (ChunkText (lit "world!"))
         StopIteration))) in
  chunks (stream_prompt (fun _ => Ok response) (lit "ping"))
  = [lit "Hello "; lit "world!"]
  /\ stream_end (stream_prompt (fun _ => Ok response) (lit "ping")) = None.
Proof.
  intros response.
  destruct (stream_prompt_yields_nonempty_texts (fun _ => Ok response) (lit "ping"))
    as (_ & H & _).
  destruct (H response eq_refl) as [_ Hclean].
  exact (Hclean eq_refl).
Defined.

(** X2.  [validate_api_key] raises nothing but [GeminiAPIError]; for the
    empty key it raises "API key is empty." whatever the client library
    does; and it returns exactly when the key is not empty and the
    configuration, the model and the ping all go through. *)
Theorem validate_api_key_raises_only_GeminiAPIError
    (genai_configure genai_GenerativeModel generate_ping : pystr -> option pystr)
    (key model : pystr) :
  let outcome :=
    validate_api_key genai_configure genai_GenerativeModel generate_ping key model in
  (forall e, outcome = Raise e -> exists message, e = GeminiAPIError message)
  /\ (key = [] -> outcome = Raise (GeminiAPIError (lit "API key is empty.")))
  /\ (outcome = Ok tt
      <-> key <> [] /\ genai_configure key = None
          /\ genai_GenerativeModel model = None /\ generate_ping model = None).
Proof.
  unfold validate_api_key, _configure_client.
  destruct key as [|c key]; simpl.
  - split; [intros e [= <-]; by eexists |]. split; [done |].
    split; [done | by intros [? _]].
  - destruct (genai_configure (c :: key)) as [m|]; simpl;
      [| destruct (genai_GenerativeModel model) as [m|]; simpl;
         [| destruct (generate_ping model) as [m|]; simpl ]];
      (split; [intros e [= <-]; by eexists |]); (split; [done |]);
      split; try done; by intros (_ & ? & ? & ?).
Qed.

Lemma validate_api_key_raises_only_GeminiAPIError_witness :
  validate_api_key no_failure (fun _ => Some (lit "model not found")) no_failure
    (lit "stored-key") (lit "gemini-0")
  = Raise (GeminiAPIError (lit "model not found"))
  /\ validate_api_key (fun _ => Some (lit "offline")) no_failure no_failure
       [] (lit "gemini-0")
     = Raise (GeminiAPIError (lit "API key is empty.")).
Proof.
  split.
  - destruct (validate_api_key_raises_only_GeminiAPIError no_failure
                (fun _ => Some (lit "model not found")) no_failure
                (lit "stored-key") (lit "gemini-0")) as (H & _ & _).
    destruct (H _ eq_refl) as [message Hm]. reflexivity.
  - destruct (validate_api_key_raises_only_GeminiAPIError
                (fun _ => Some (lit "offline")) no_failure no_failure
                [] (lit "gemini-0")) as (_ & H & _).
    exact (H eq_refl).
Defined.

(** X3.  The run of a validator built for a key emits exactly one signal
    and lets no exception out: [success] with the stripped key when the
    validation of the stripped key returns, and otherwise [failure] with
    the text of the validation's error, never behind "Unexpected
    error:". *)
Theorem validator_emits_one_signal
    (genai_configure genai_GenerativeModel generate_ping : pystr -> option pystr)
    (api_key model : pystr) :
  GeminiKeyValidator_run genai_configure genai_GenerativeModel generate_ping
    (GeminiKeyValidator_init api_key model)
  = match validate_api_key genai_configure genai_GenerativeModel generate_ping
            (strip api_key) model with
    | Ok _ => ([success (strip api_key)], None)
    | Raise e => ([failure (exn_str e)], None)
    end.
Proof.
  unfold GeminiKeyValidator_run, GeminiKeyValidator_init. simpl.
  pose proof (validate_api_key_raises_only_GeminiAPIError genai_configure
                genai_GenerativeModel generate_ping (strip api_key) model)
    as (Hraise & _ & _).
  destruct (validate_api_key _ _ _ (strip api_key) model) as [u|e]; [done |].
  destruct (Hraise e eq_refl) as [message ->]. done.
Qed.

(** X4.  The constructor of [GeminiService] returns exactly when the key
    is not empty and the client library accepts the key and the model;
    the service then holds that key and that model.  Any other exception
    than the one for the empty key is the library's. *)
Theorem GeminiService_init_outcomes
    (genai_configure genai_GenerativeModel : pystr -> option pystr)
    (key model : pystr) :
  let outcome := GeminiService_init genai_configure genai_GenerativeModel key model in
  (forall the_service, outcome = Ok the_service ->
     the_service = {| service_api_key := key; service_model_name := model |})
  /\ (is_Some (match outcome with Ok s => Some s | Raise _ => None end)
      <-> key <> [] /\ genai_configure key = None
          /\ genai_GenerativeModel model = None)
  /\ (forall message, outcome = Raise (OtherException message) ->
        key <> []
        /\ (genai_configure key = Some message
            \/ genai_GenerativeModel model = Some message)).
Proof.
  unfold gemini_service.GeminiService_init, _configure_client.
  destruct key as [|c key]; simpl.
  - split; [done |]. split; [| done].
    split; [by intros [? ?] | by intros [? _]].
  - destruct (genai_configure (c :: key)) as [m|]; simpl;
      [| destruct (genai_GenerativeModel model) as [m|]; simpl ].
    + split; [done |]. split; [split; [by intros [? ?] | by intros (_ & ? & _)] |].
      intros message [= <-]. split; [done | by left].
    + split; [done |]. split; [split; [by intros [? ?] | by intros (_ & _ & ?)] |].
      intros message [= <-]. split; [done | by right].
    + split; [by intros s [= <-] |]. split; [| done].
      split; [done | intros _; by eexists].
Qed.

Lemma GeminiService_init_outcomes_witness :
  GeminiService_init no_failure no_failure (lit "stored-key") (lit "gemini-1.5-pro")
  = Ok {| service_api_key := lit "stored-key";
          service_model_name := lit "gemini-1.5-pro" |}.
Proof.
  destruct (GeminiService_init_outcomes no_failure no_failure
              (lit "stored-key") (lit "gemini-1.5-pro")) as (H & _ & _).
  destruct (GeminiService_init no_failure no_failure (lit "stored-key")
              (lit "gemini-1.5-pro")) as [s|e] eqn:E; [| discriminate E].
  by rewrite (H s eq_refl).
Defined.

(** ** Languages and configuration *)

(** X5.  [Language.from_code] finds every member by its code, in lower
    case and in upper case alike; the codes of the members are pairwise
    different, so no member shadows another in the lookup. *)
Theorem from_code_finds_every_member
    (unicode_lower : pystr -> pystr) (language : Language) :
  from_code unicode_lower (Some (code language)) = language
  /\ from_code unicode_lower (Some (ascii_upper <$> code language)) = language
  /\ NoDup supported_codes.
Proof.
  split; [by destruct language |]. split; [by destruct language |].
  unfold supported_codes. apply NoDup_ListNoDup.
  apply (List.NoDup_map_inv (fun c => c)). rewrite List.map_id.
  repeat (constructor; [vm_compute; intros H;
    repeat (destruct H as [H|H]; [discriminate H |]); exact H |]).
  constructor.
Qed.

(** The tables of [constants] agree with the enumeration: the label
    table maps the code of each member to its label and knows no other
    code; the selector options list the members in order as label and
    code; and the model table returns the given default for a name that
    is not offered. *)
Theorem constant_tables_agree_with_the_enumeration :
  (forall language, LANGUAGE_LABEL_BY_CODE (code language) = Some (label language))
  /\ (forall c, c ∉ supported_codes -> LANGUAGE_LABEL_BY_CODE c = None)
  /\ LANGUAGE_OPTIONS.*1 = label <$> Language_members
  /\ LANGUAGE_OPTIONS.*2 = supported_codes
  /\ (forall name default, name ∉ MODEL_OPTIONS.*1 ->
        MODEL_LABEL_BY_NAME name default = default)
  /\ (forall default, MODEL_LABEL_BY_NAME DEFAULT_MODEL_NAME default
                      = lit "Gemini 2.5 Flash (speed)").
Proof.
  split; [by intros [] |]. split; [| split; [done | split; [done | split]]].
  - intros c Hc. unfold LANGUAGE_LABEL_BY_CODE.
    destruct (List.find _ Language_members) as [l|] eqn:E; [| done].
    apply List.find_some in E as [_ Heq]. apply bool_decide_eq_true in Heq.
    destruct Hc. rewrite <- Heq. unfold supported_codes.
    apply list_elem_of_fmap_2. destruct l; repeat constructor.
  - intros name default Hn. unfold MODEL_LABEL_BY_NAME.
    destruct (List.find _ MODEL_OPTIONS) as [o|] eqn:E; [| done].
    apply List.find_some in E as [Hin Heq]. apply bool_decide_eq_true in Heq.
    destruct Hn. rewrite <- Heq. apply list_elem_of_fmap_2.
    by apply list_elem_of_In.
  - done.
Qed.

Lemma constant_tables_agree_with_the_enumeration_witness :
  LANGUAGE_LABEL_BY_CODE (lit "xx") = None
  /\ MODEL_LABEL_BY_NAME (lit "custom-model") (lit "custom-model") = lit "custom-model".
Proof.
  destruct constant_tables_agree_with_the_enumeration as (_ & Hl & _ & _ & Hm & _).
  split.
  - apply Hl. vm_compute. intros H.
    repeat (apply elem_of_cons in H as [H|H]; [discriminate H |]).
    by apply elem_of_nil in H.
  - apply Hm. vm_compute. intros H.
    repeat (apply elem_of_cons in H as [H|H]; [discriminate H |]).
    by apply elem_of_nil in H.
Defined.

(** X6.  [from_dict] on what is not a filled dictionary: any falsy value
    ([None], [False], [0], [""], [[]], [{}]) gives the defaults; a truthy
    value that is no dictionary makes both [from_dict]s raise the
    [AttributeError] of its missing [get]; so does, for [AppConfig], a
    truthy "settings" entry that is no dictionary; and a dictionary with
    a key but no settings keeps the key beside the default settings. *)
Theorem from_dict_on_other_shapes :
  (forall v, truthy v = false ->
     AppConfig_from_dict v = Ok AppConfig_default
     /\ UserSettings_from_dict v = Ok UserSettings_default)
  /\ (forall v, truthy v = true -> is_dict v = false ->
        AppConfig_from_dict v = Raise (no_get v)
        /\ UserSettings_from_dict v = Raise (no_get v))
  /\ (forall (d : gmap pystr pyval) v,
        d !! lit "settings" = Some v -> truthy v = true -> is_dict v = false ->
        AppConfig_from_dict (PDict d) = Raise (no_get v))
  /\ (forall (d : gmap pystr pyval) k,
        d !! lit "api_key" = Some k -> d !! lit "settings" = None ->
        AppConfig_from_dict (PDict d)
        = Ok {| api_key := k; settings := UserSettings_default |}).
Proof.
  split; [| split; [| split]].
  - intros v Hv. unfold AppConfig_from_dict, UserSettings_from_dict. by rewrite Hv.
  - intros v Hv Hd. unfold AppConfig_from_dict, UserSettings_from_dict.
    rewrite Hv. by destruct v.
  - intros d v Hs Hv Hd. unfold AppConfig_from_dict.
    assert (truthy (PDict d) = true) as ->.
    { simpl. rewrite bool_decide_eq_false_2; [done |]. intros ->.
      by rewrite lookup_empty in Hs. }
    simpl. rewrite Hs. unfold UserSettings_from_dict. rewrite Hv. by destruct v.
  - intros d k Hk Hs. unfold AppConfig_from_dict.
    assert (truthy (PDict d) = true) as ->.
    { simpl. rewrite bool_decide_eq_false_2; [done |]. intros ->.
      by rewrite lookup_empty in Hk. }
    simpl. by rewrite Hs, Hk.
Qed.

Lemma from_dict_on_other_shapes_witness :
  AppConfig_from_dict (PInt 0) = Ok AppConfig_default
  /\ AppConfig_from_dict (PList [PInt 1])
     = Raise (AttributeError (lit "'list' object has no attribute 'get'"))
  /\ AppConfig_from_dict (PDict {[ lit "settings" := PStr (lit "dark") ]})
     = Raise (AttributeError (lit "'str' object has no attribute 'get'"))
  /\ AppConfig_from_dict (PDict {[ lit "api_key" := PStr (lit "abc123") ]})
     = Ok {| api_key := PStr (lit "abc123"); settings := UserSettings_default |}.
Proof.
  destruct from_dict_on_other_shapes as (H1 & H2 & H3 & H4).
  split; [exact (proj1 (H1 (PInt 0) eq_refl)) |].
  split; [exact (proj1 (H2 (PList [PInt 1]) eq_refl eq_refl)) |].
  split.
  - apply (H3 _ (PStr (lit "dark"))); [apply lookup_singleton_eq | done | done].
  - apply H4; [apply lookup_singleton_eq | apply lookup_singleton_ne; discriminate].
Defined.

(** X7.  Saving and loading: when both file operations go through,
    [save_config] replaces whatever the file held by the text of the
    configuration, and where [json.loads] undoes [json.dumps] on it,
    [load_config] gives the saved configuration back; a failing [mkdir]
    leaves the file as it was. *)
Theorem load_config_after_save_config
    (json_dumps : pyval -> pystr) (json_loads : pystr -> result pyval)
    (c : AppConfig pyval) (file : read_outcome) :
  json_loads (json_dumps (AppConfig_to_dict c)) = Ok (AppConfig_to_dict c) ->
  let '(r, file') := save_config_to_disk json_dumps None None c file in
  r = Ok tt
  /\ file' = ReadText (json_dumps (AppConfig_to_dict c))
  /\ load_config json_loads file' = Ok c
  /\ (forall e w, save_config_to_disk json_dumps (Some e) w c file = (Raise e, file)).
Proof.
  intros Hjson. simpl. repeat split.
  unfold load_config, _read_config_file. rewrite Hjson. simpl.
  apply AppConfig_round_trip.
Qed.

Lemma load_config_after_save_config_witness :
  let c := {| api_key := PStr (lit "new-key");
              settings := {| default_language := PStr (lit "fr");
                             model_name := PStr DEFAULT_MODEL_NAME |} |} in
  load_config (fun _ => Ok (AppConfig_to_dict c))
    (save_config_to_disk (fun _ => lit "{...}") None None c
       (ReadFails (FileNotFoundError (lit "No such file or directory")))).2
  = Ok c.
Proof.
  intros c.
  exact (proj1 (proj2 (proj2
    (load_config_after_save_config (fun _ => lit "{...}")
       (fun _ => Ok (AppConfig_to_dict c)) c
       (ReadFails (FileNotFoundError (lit "No such file or directory")))
       eq_refl)))).
Defined.

(** ** The state of the controls *)

(** X8.  [set_ready] undoes [start_processing] and [mark_copy_success],
    and [reset_copy_button] undoes [mark_copy_success]: the labels come
    back from the defaults the manager read at construction, which no
    operation changes; [start_processing] twice is [start_processing]
    once; and on the manager as constructed, a processing phase followed
    by [set_ready] shows the buttons' own labels again. *)
Theorem set_ready_undoes_processing
    (u : UIStateManager) (message : pystr) (copy_available : bool)
    (submit_btn clear_btn copy_btn : QPushButton) (status_label : pystr) :
  set_ready message copy_available (start_processing u)
  = set_ready message copy_available u
  /\ set_ready message copy_available (mark_copy_success u)
     = set_ready message copy_available u
  /\ reset_copy_button copy_available (mark_copy_success u)
     = reset_copy_button copy_available u
  /\ start_processing (start_processing u) = start_processing u
  /\ Forall (fun op => _submit_default_text (op u) = _submit_default_text u
                        /\ _copy_default_text (op u) = _copy_default_text u)
       [set_status message; start_processing; set_ready message copy_available;
        mark_cleared; mark_copy_success; reset_copy_button copy_available]
  /\ (let u0 := UIStateManager_init submit_btn clear_btn copy_btn status_label in
      let u1 := set_ready message copy_available
                  (mark_copy_success (start_processing u0)) in
      text (_submit_btn u1) = text submit_btn
      /\ text (_copy_btn u1) = text copy_btn
      /\ isEnabled (_submit_btn u1) = true
      /\ isEnabled (_clear_btn u1) = true
      /\ isEnabled (_copy_btn u1) = copy_available
      /\ _status_label u1 = message).
Proof.
  do 4 (split; [done |]). split; [| done].
  repeat (constructor; [done |]). constructor.
Qed.

(** ** The settings dialog, further *)

Section DialogProperties.

Lemma show_validation_in_progress_keeps_status (status : pystr) (self : SettingsDialog) :
  status <> [] ->
  show_validation_in_progress (set_status_label status self)
  = _set_busy true (set_status_label status self).
Proof.
  intros H. unfold show_validation_in_progress. simpl.
  by destruct status.
Qed.

End DialogProperties.

(** X9.  Saving with a key that trims to nothing only warns: the dialog
    is as it was (not accepted, no final settings, nothing disabled), the
    warning box is shown and the focus goes to the key field; no
    validation is requested. *)
Theorem save_without_key_only_warns (self : SettingsDialog) :
  strip (api_key_input self) = [] ->
  _on_save_clicked self
  = (self, [QMessageBox_warning (lit "Missing API Key")
              (lit "Please enter a Gemini API key.");
            setFocus_api_key_input]).
Proof.
  intros H. unfold _on_save_clicked, get_settings. simpl. by rewrite H.
Qed.

Lemma save_without_key_only_warns_witness :
  let dialog :=
    set_settings (lit "cs") DEFAULT_MODEL_NAME (lit "   ")
      (SettingsDialog_init (lit "cs") DEFAULT_MODEL_NAME (lit "abc")) in
  _on_save_clicked dialog
  = (dialog, [QMessageBox_warning (lit "Missing API Key")
                (lit "Please enter a Gemini API key.");
              setFocus_api_key_input]).
Proof.
  intros dialog. exact (save_without_key_only_warns dialog eq_refl).
Defined.

(** X10.  Saving with a key that is not empty and differs from the one
    the dialog was opened with requests validation, once, of exactly the
    payload of [get_settings]; the dialog is not accepted and its final
    settings are untouched; the key field, both selectors and both
    buttons are disabled; and the status names the model (and the
    language when it is a supported one), the generic "Validating API
    key" text never being used. *)
Theorem save_with_new_key_requests_validation (self : SettingsDialog) :
  let settings_ := get_settings self in
  p_api_key settings_ <> [] ->
  p_api_key settings_ <> _initial_api_key self ->
  let '(self', effects) := _on_save_clicked self in
  effects = [validation_requested_emit (p_api_key settings_)
               (p_default_language settings_) (p_model_name settings_)]
  /\ result_code self' = result_code self
  /\ _final_settings self' = _final_settings self
  /\ api_key_input self' = api_key_input self
  /\ api_key_input_enabled self' = false
  /\ combo_enabled (lang_combo self') = false
  /\ combo_enabled (model_combo self') = false
  /\ save_btn_enabled self' = false
  /\ cancel_btn_enabled self' = false
  /\ get_settings self' = settings_
  /\ status_label self'
     = (let model_label :=
          MODEL_LABEL_BY_NAME (p_model_name settings_) (p_model_name settings_) in
        match LANGUAGE_LABEL_BY_CODE (p_default_language settings_) with
        | Some (c :: human_label) =>
            lit "Validating API key for " ++ (c :: human_label)
            ++ lit " translations on " ++ model_label ++ ellipsis
        | _ => lit "Validating API key on " ++ model_label ++ ellipsis
        end).
Proof.
  intros settings_ Hne Hnew. subst settings_.
  unfold _on_save_clicked.
  destruct (p_api_key (get_settings self)) as [|c key] eqn:Hkey; [done |].
  simpl. rewrite bool_decide_eq_false_2 by done.
  unfold request_validation.
  destruct (LANGUAGE_LABEL_BY_CODE _) as [[|c' hl]|]; simpl;
    rewrite show_validation_in_progress_keeps_status by done;
    repeat split; try (by destruct self as [? ? ? ? [] [] ? ? ? ?]).
  all: simpl in Hkey; by rewrite Hkey.
Qed.

Lemma save_with_new_key_requests_validation_witness :
  let dialog :=
    set_settings (lit "de") (lit "gemini-1.5-pro") (lit " new-key ")
      (SettingsDialog_init (lit "cs") DEFAULT_MODEL_NAME (lit "abc")) in
  (_on_save_clicked dialog).2
  = [validation_requested_emit (lit "new-key") (lit "de") (lit "gemini-1.5-pro")]
  /\ status_label (_on_save_clicked dialog).1
     = lit "Validating API key for German translations on Gemini 1.5 Pro (quality)"
       ++ ellipsis
  /\ save_btn_enabled (_on_save_clicked dialog).1 = false.
Proof.
  intros dialog.
  pose proof (save_with_new_key_requests_validation dialog) as H.
  cbv zeta in H.
  destruct (_on_save_clicked dialog) as [self' effects].
  destruct H as (H1 & _ & _ & _ & _ & _ & _ & H2 & _ & _ & H3).
  - vm_compute. discriminate.
  - vm_compute. discriminate.
  - split; [exact H1 |]. split; [exact H3 | exact H2].
Defined.

(** X11.  The two answers to a validation request.  A failure re-enables
    the key field, both selectors and both buttons, shows the message
    behind the warning sign and leaves the dialog open with its final
    settings untouched, so that the user can save again; a success
    accepts the dialog with the very settings that were validated. *)
Theorem validation_answer_reopens_or_accepts
    (self : SettingsDialog) (settings_ : payload) (message : pystr) :
  let failed := mark_validation_failure message (show_validation_in_progress self) in
  let succeeded := mark_validation_success settings_ (show_validation_in_progress self) in
  api_key_input_enabled failed = true
  /\ combo_enabled (lang_combo failed) = true
  /\ combo_enabled (model_combo failed) = true
  /\ save_btn_enabled failed = true
  /\ cancel_btn_enabled failed = true
  /\ status_label failed = warn message
  /\ result_code failed = result_code self
  /\ _final_settings failed = _final_settings self
  /\ get_settings failed = get_settings self
  /\ _initial_api_key failed = _initial_api_key self
  /\ result_code succeeded = Some Accepted
  /\ _final_settings succeeded = Some settings_.
Proof.
  unfold mark_validation_failure, mark_validation_success,
    show_validation_in_progress.
  destruct self as [? ? ? ? [] [] st ? ? ?]. simpl.
  by destruct st.
Qed.

(** X12.  A dialog opened on settings shows them: for a supported
    language and an offered model, [get_settings] gives back the trimmed
    key, the language and the model it was opened with; an unsupported
    language opens on the default language and a model that is not
    offered on the first option.  Saving such an untouched dialog with a
    key in place accepts it with these settings and requests no
    validation. *)
Theorem dialog_opens_on_its_settings (language : Language) (mn key : pystr) :
  mn ∈ MODEL_OPTIONS.*1 ->
  let dialog := SettingsDialog_init (code language) mn key in
  get_settings dialog
  = {| p_api_key := strip key; p_default_language := code language;
       p_model_name := mn |}
  /\ _initial_api_key dialog = strip key
  /\ result_code dialog = None
  /\ _final_settings dialog = None
  /\ (strip key <> [] ->
      _final_settings (_on_save_clicked dialog).1 = Some (get_settings dialog)
      /\ (_on_save_clicked dialog).2 = [])
  /\ (forall dl, str_or dl DEFAULT_LANGUAGE_CODE ∉ supported_codes ->
        p_default_language (get_settings (SettingsDialog_init dl mn key))
        = DEFAULT_LANGUAGE_CODE)
  /\ (forall other, other ∉ MODEL_OPTIONS.*1 ->
        p_model_name (get_settings (SettingsDialog_init (code language) other key))
        = DEFAULT_MODEL_NAME).
Proof.
  intros Hmn dialog.
  assert (Hget : get_settings dialog
                 = {| p_api_key := strip key; p_default_language := code language;
                      p_model_name := mn |}).
  { subst dialog.
    repeat (apply elem_of_cons in Hmn as [->|Hmn]; [by destruct language |]).
    by apply elem_of_nil in Hmn. }
  split; [exact Hget |]. split; [done |]. split; [done |]. split; [done |].
  split; [| split].
  - intros Hkey. unfold _on_save_clicked. rewrite Hget.
    change (_initial_api_key dialog) with (strip key). simpl.
    destruct (strip key) as [|c k] eqn:E; [done |]. simpl.
    by rewrite bool_decide_eq_true_2.
  - intros dl Hdl. unfold get_settings, SettingsDialog_init, set_settings. simpl.
    unfold select_or.
    change (fold_left _ LANGUAGE_OPTIONS QComboBox_new)
      with {| items := language_items; currentIndex := 0; combo_enabled := true |}.
    unfold findData at 1 2. simpl items.
    rewrite findData_from_absent.
    + by rewrite bool_decide_eq_true_2.
    + change (Some (str_or dl DEFAULT_LANGUAGE_CODE) ∉ Some <$> supported_codes).
      intros [c [[= <-] Hc]]%list_elem_of_fmap. done.
  - intros other Hother. unfold get_settings, SettingsDialog_init, set_settings. simpl.
    unfold select_or, findData.
    rewrite findData_from_absent.
    + by rewrite bool_decide_eq_true_2.
    + intros [[l d] [Hd Hc]]%list_elem_of_fmap. simpl in Hd. subst d.
      apply Hother. simpl in Hc.
      repeat (apply elem_of_cons in Hc as [[= -> ->]|Hc]; [repeat constructor |]).
      by apply elem_of_nil in Hc.
Qed.

Lemma dialog_opens_on_its_settings_witness :
  let dialog := SettingsDialog_init (lit "ja") (lit "gemini-1.5-pro") (lit " abc ") in
  get_settings dialog
  = {| p_api_key := lit "abc"; p_default_language := lit "ja";
       p_model_name := lit "gemini-1.5-pro" |}
  /\ _final_settings (_on_save_clicked dialog).1 = Some (get_settings dialog)
  /\ (_on_save_clicked dialog).2 = [].
Proof.
  intros dialog.
  assert (Hmn : lit "gemini-1.5-pro" ∈ MODEL_OPTIONS.*1) by (repeat constructor).
  destruct (dialog_opens_on_its_settings JAPANESE (lit "gemini-1.5-pro") (lit " abc ")
              Hmn) as (H1 & _ & _ & _ & H2 & _).
  split; [exact H1 |]. apply H2. vm_compute. discriminate.
Defined.

(** ** The window, handler by handler *)

Section SmallHandlers.

Variable unicode_lower : pystr -> pystr.
Variable save_config_raises : AppConfig pystr -> option exn.

Lemma set_status_same (u : UIStateManager) : set_status (_status_label u) u = u.
Proof. by destruct u. Qed.

Lemma set_status_twice (a b : pystr) (u : UIStateManager) :
  set_status a (set_status b u) = set_status a u.
Proof. by destruct u. Qed.

(** What the handlers of the language selector come to: a new status at
    most, and a new state of the selector. *)
Lemma _on_language_changed_result (self : ui.TextHelperApp) :
  exists st, ui._on_language_changed unicode_lower self
             = (ui.set_ui_state (set_status st (ui.ui_state self)) self, [], Ok tt).
Proof.
  unfold ui._on_language_changed. exec.
  destruct self as [? ? ? ? ? [] ? ? ? ? ? u ?]; simpl.
  - exists (_status_label u). by rewrite set_status_same.
  - exec. by eexists.
Qed.

Lemma lang_combo_setCurrentIndex_result (index : Z) (self : ui.TextHelperApp) :
  exists st, ui.lang_combo_setCurrentIndex unicode_lower index self
             = (ui.set_ui_state (set_status st (ui.ui_state self))
                  (ui.set_lang_combo (setCurrentIndex index (ui.lang_combo self)) self),
                [], Ok tt).
Proof.
  unfold ui.lang_combo_setCurrentIndex. exec.
  case_bool_decide.
  - exists (_status_label (ui.ui_state self)). exec.
    rewrite set_status_same. by destruct self.
  - destruct (_on_language_changed_result
                (ui.set_lang_combo (setCurrentIndex index (ui.lang_combo self)) self))
      as [st Hst].
    exists st. rewrite Hst. by destruct self.
Qed.

Lemma _set_language_selection_result (language_code : option pystr)
    (self : ui.TextHelperApp) :
  exists c st, ui._set_language_selection unicode_lower language_code self
               = (ui.set_ui_state (set_status st (ui.ui_state self))
                    (ui.set_lang_combo c self), [], Ok tt)
               /\ items c = items (ui.lang_combo self).
Proof.
  unfold ui._set_language_selection. exec.
  destruct (negb _).
  - destruct (lang_combo_setCurrentIndex_result
                (findData (ui.lang_combo self) language_code) self) as [st Hst].
    rewrite Hst. by eexists _, _.
  - exec. destruct (negb _).
    + destruct (lang_combo_setCurrentIndex_result
                  (findData (ui.lang_combo self) (Some DEFAULT_LANGUAGE_CODE)) self)
        as [st Hst].
      rewrite Hst. by eexists _, _.
    + exists (ui.lang_combo self), (_status_label (ui.ui_state self)).
      rewrite set_status_same. by destruct self.
Qed.

Lemma store_settings_result (settings_ : payload) (self : ui.TextHelperApp) :
  exists c st,
    ui.store_settings unicode_lower save_config_raises settings_ self
    = (ui.set_ui_state
         (set_status
            match save_config_raises (config_of settings_) with
            | Some _ => st
            | None => lit "Settings saved."
            end
            (ui.ui_state self))
         (ui.set_lang_combo c (ui.set_config (config_of settings_) self)),
       [save_config (p_api_key settings_) (p_default_language settings_)
          (p_model_name settings_)],
       match save_config_raises (config_of settings_) with
       | Some e => Raise e
       | None => Ok tt
       end)
    /\ items c = items (ui.lang_combo self).
Proof.
  unfold ui.store_settings. exec.
  match goal with |- context [ui.seq (ui._set_language_selection _ ?lc) _ ?s] =>
    destruct (_set_language_selection_result lc s) as (c & st & Hc & Hi);
    rewrite (seq_pure _ _ _ _ _ Hc) end.
  exec. unfold ui._set_status. simpl.
  exists c, st. split; [| by destruct self].
  destruct self as [[] ? ? ? ? ? ? ? ? ? ? ? ?]. unfold config_of, ui.settings. simpl.
  destruct (save_config_raises _); simpl; [done |].
  by rewrite set_status_twice.
Qed.

End SmallHandlers.

(** X13.  Copying an output that holds nothing but white space never
    touches the clipboard and schedules nothing: the only change is the
    copy button, back on its default label and disabled. *)
Theorem copy_of_blank_output_leaves_clipboard (self : ui.TextHelperApp) :
  strip (ui.output_edit self) = [] ->
  ui.copy_output self
  = (ui.set_ui_state (reset_copy_button false (ui.ui_state self)) self, [], Ok tt)
  /\ (forall t, clipboard_setText t ∉ (ui.copy_output self).1.2)
  /\ isEnabled (_copy_btn (ui.ui_state (ui.copy_output self).1.1)) = false
  /\ text (_copy_btn (ui.ui_state (ui.copy_output self).1.1))
     = _copy_default_text (ui.ui_state self).
Proof.
  intros H.
  assert (Hc : ui.copy_output self
               = (ui.set_ui_state (reset_copy_button false (ui.ui_state self)) self,
                  [], Ok tt)).
  { unfold ui.copy_output. exec. by rewrite H. }
  rewrite Hc. split; [done |]. split; [intros t; apply not_elem_of_nil |].
  by destruct self.
Qed.

Lemma copy_of_blank_output_leaves_clipboard_witness :
  (ui.copy_output (ui.set_output_edit (lit " ") ready_window)).1.2 = []
  /\ isEnabled (_copy_btn (ui.ui_state
       (ui.copy_output (ui.set_output_edit (lit " ") ready_window)).1.1)) = false.
Proof.
  destruct (copy_of_blank_output_leaves_clipboard
              (ui.set_output_edit (lit " ") ready_window) eq_refl) as (H & _ & H2 & _).
  split; [by rewrite H | exact H2].
Defined.

(** X14.  Copying an output that holds text puts exactly the trimmed
    output on the clipboard, shows the "Copied" label on the disabled
    copy button and schedules one reset after 1200 ms; the output stays
    as it is.  When the reset runs, the copy button is enabled again
    under its default label; on a window whose copy button was enabled
    under that label, copy followed by the reset gives the window
    back. *)
Theorem copy_then_reset_restores_the_button (self : ui.TextHelperApp) :
  strip (ui.output_edit self) <> [] ->
  let '(copied, effects, r) := ui.copy_output self in
  let after := (ui.reset_copy_btn copied).1.1 in
  r = Ok tt
  /\ effects = [clipboard_setText (strip (ui.output_edit self));
                QTimer_singleShot 1200 call_reset_copy_btn]
  /\ copied = ui.set_ui_state (mark_copy_success (ui.ui_state self)) self
  /\ isEnabled (_copy_btn (ui.ui_state copied)) = false
  /\ text (_copy_btn (ui.ui_state copied)) = [9989] ++ lit " Copied"
  /\ isEnabled (_copy_btn (ui.ui_state after)) = true
  /\ text (_copy_btn (ui.ui_state after)) = _copy_default_text (ui.ui_state self)
  /\ (_copy_btn (ui.ui_state self)
      = {| text := _copy_default_text (ui.ui_state self); isEnabled := true |} ->
      after = self).
Proof.
  intros H. unfold ui.copy_output. exec.
  destruct (strip (ui.output_edit self)) as [|c t] eqn:E; [done |]. simpl.
  exec. simpl. unfold ui.emit.
  unfold ui.reset_copy_btn. exec.
  destruct self as [? ? ? ? ? ? ? ? ? ? out [sb cb cp st sd cd] ?]. simpl in *.
  rewrite E. simpl. repeat split. intros ->. reflexivity.
Qed.

Lemma copy_then_reset_restores_the_button_witness :
  let self := (ui.reset_copy_btn (ui.set_output_edit (lit " Hello world! ") ready_window)).1.1 in
  (ui.copy_output self).1.2
  = [clipboard_setText (lit "Hello world!");
     QTimer_singleShot 1200 call_reset_copy_btn]
  /\ (ui.reset_copy_btn (ui.copy_output self).1.1).1.1 = self.
Proof.
  intros self.
  pose proof (copy_then_reset_restores_the_button self) as H.
  destruct (ui.copy_output self) as [[copied effects] r].
  destruct H as (_ & H1 & _ & _ & _ & _ & _ & H2).
  - vm_compute. discriminate.
  - split; [exact H1 | apply H2; reflexivity].
Defined.

Section Strip.

Lemma lstrip_nil (s : pystr) :
  lstrip s = [] <-> Forall (fun c => isspace c = true) s.
Proof.
  induction s as [|c s IH]; simpl; [by split; [constructor |] |].
  destruct (isspace c) eqn:E.
  - rewrite IH. split; [by constructor | by inversion 1].
  - split; [done |]. inversion 1; congruence.
Qed.

Lemma lstrip_head (s : pystr) (c : N) (l : pystr) :
  lstrip s = c :: l -> isspace c = false.
Proof.
  induction s as [|d s IH]; simpl; [done |].
  destruct (isspace d) eqn:E; [exact IH | by intros [= <- _]].
Qed.

(** [strip] leaves nothing exactly of the strings of white space. *)
Lemma strip_nil (s : pystr) :
  strip s = [] <-> Forall (fun c => isspace c = true) s.
Proof.
  unfold strip, rstrip. split.
  - intros H. apply (f_equal (@rev N)) in H. rewrite rev_involutive in H.
    simpl in H. apply lstrip_nil in H. apply Forall_rev in H.
    rewrite rev_involutive in H.
    destruct (lstrip s) as [|c l] eqn:E; [by apply lstrip_nil |].
    apply lstrip_head in E. inversion H; congruence.
  - intros H. apply lstrip_nil in H. by rewrite H.
Qed.

Lemma strip_with_warning (before message : pystr) :
  str_truthy (strip (before ++ warn message)) = true.
Proof.
  destruct (strip (before ++ warn message)) as [|c l] eqn:E; [| done].
  apply strip_nil in E. apply Forall_app in E as [_ E].
  inversion E as [|? ? Hc _]. vm_compute in Hc. discriminate Hc.
Qed.

End Strip.

Section WorkerError.

Lemma on_worker_error_spec (message : pystr) (self : ui.TextHelperApp) :
  ui.on_worker_error message self
  = (ui.set_output_edit
       (if str_truthy (strip (ui.output_edit self))
        then ui.output_edit self ++ [10; 10] ++ warn message
        else warn message)
       (ui.set_ui_state (set_status (warn message) (ui.ui_state self))
          (ui.set_last_error_message (Some message) self)),
     [QMessageBox_critical (lit "Gemini Error") message], Ok tt).
Proof.
  unfold ui.on_worker_error. exec. unfold ui._set_status. exec.
  destruct self as [? ? ? ? ? ? ? ? ? ? out ? ?]. simpl.
  destruct (str_truthy (strip out)) eqn:E; simpl; exec; [| reflexivity].
  unfold ui.append. destruct out; [done |]. reflexivity.
Qed.

End WorkerError.

(** X15.  [on_worker_error] records the message, shows it behind the
    warning sign as status and in one blocking error box, and writes it
    at the end of the output: what the output already held stays in
    front of it, unless it was white space only, which the warning
    replaces; so the output is not blank afterwards.  The worker and the
    buttons are not touched. *)
Theorem worker_error_keeps_received_output
    (message : pystr) (self : ui.TextHelperApp) :
  let '(self', effects, r) := ui.on_worker_error message self in
  r = Ok tt
  /\ effects = [QMessageBox_critical (lit "Gemini Error") message]
  /\ ui._last_error_message self' = Some message
  /\ _status_label (ui.ui_state self') = warn message
  /\ warn message `suffix_of` ui.output_edit self'
  /\ ui.output_edit self'
     = (if str_truthy (strip (ui.output_edit self))
        then ui.output_edit self ++ [10; 10] ++ warn message
        else warn message)
  /\ str_truthy (strip (ui.output_edit self')) = true
  /\ ui.worker self' = ui.worker self
  /\ _submit_btn (ui.ui_state self') = _submit_btn (ui.ui_state self)
  /\ _clear_btn (ui.ui_state self') = _clear_btn (ui.ui_state self)
  /\ _copy_btn (ui.ui_state self') = _copy_btn (ui.ui_state self).
Proof.
  rewrite on_worker_error_spec.
  destruct self as [? ? ? ? ? ? ? ? ? ? out ? ?]. simpl.
  repeat split.
  - destruct (str_truthy (strip out)); [| done].
    exists (out ++ [10; 10]). by rewrite <- app_assoc.
  - destruct (str_truthy (strip out)).
    + pose proof (strip_with_warning (out ++ [10; 10]) message) as H.
      by rewrite <- app_assoc in H.
    + apply (strip_with_warning []).
Qed.

(** X16.  A request whose stream raises an [Exception] with a message:
    after the worker's signals were delivered, the status is the message
    behind the warning sign, the output holds the chunks received before
    the error followed by the warning (the warning alone when they were
    white space only), the worker is released, the recorded error is
    cleared for the next submission, and submit, clear and copy are
    enabled. *)
Theorem failed_request_shows_the_error
    (unicode_lower : pystr -> pystr) (self : ui.TextHelperApp)
    (stream : iterator pystr) (e : exn) :
  is_Some (ui.gemini_service self) ->
  ui.worker_running self = false ->
  strip (ui.input_edit self) <> [] ->
  stream_end stream = Some e ->
  is_Exception e = true ->
  exn_str e <> [] ->
  let self' := completed unicode_lower stream self in
  let received := concat (chunks stream) in
  _status_label (ui.ui_state self') = warn (exn_str e)
  /\ ui.output_edit self'
     = (if str_truthy (strip received)
        then received ++ [10; 10] ++ warn (exn_str e) else warn (exn_str e))
  /\ ui.worker self' = None
  /\ ui._last_error_message self' = None
  /\ isEnabled (_submit_btn (ui.ui_state self')) = true
  /\ isEnabled (_clear_btn (ui.ui_state self')) = true
  /\ isEnabled (_copy_btn (ui.ui_state self')) = true.
Proof.
  intros [svc Hsvc] Hrun Htext Hend Hexc Hmsg self' received.
  subst self' received. unfold completed, submitted.
  rewrite (on_submit_starts unicode_lower no_failure no_failure save_succeeds None self svc
             Hsvc Hrun Htext).
  rewrite run_trace, Hend. cbn [fst snd]. unfold error_of. rewrite Hexc.
  set (started := ui.set_worker _ _).
  destruct (deliver_partials (chunks stream)
              ((error <$> [exn_str e]) ++ [finished]) started)
    as (self1 & Hd & Ho & He & Hw).
  rewrite Hd.
  change (ui.deliver ((error <$> [exn_str e]) ++ [finished]) self1)
    with (ui.seq (ui.on_worker_error (exn_str e))
            (fun _ => ui.seq ui.on_finished (fun _ => ui.skip)) self1).
  unfold ui.seq. rewrite on_worker_error_spec. cbn [fst snd].
  rewrite on_finished_spec. cbn [fst snd ui.skip ui.ret].
  assert (Hout : ui.output_edit self1 = concat (chunks stream)).
  { rewrite Ho. subst started. by destruct self. }
  clear Hd Ho He Hw. subst started.
  destruct self1 as [? ? ? ? ? ? err1 ? ? ? out1 ? ?].
  cbn in Hout. subst out1. cbn.
  destruct (exn_str e) as [|c m] eqn:Em; [done |].
  assert (Hs : str_truthy
                 (strip (if str_truthy (strip (concat (chunks stream)))
                         then concat (chunks stream) ++ [10; 10] ++ warn (c :: m)
                         else warn (c :: m))) = true).
  { destruct (str_truthy (strip (concat (chunks stream)))).
    - pose proof (strip_with_warning (concat (chunks stream) ++ [10; 10]) (c :: m)) as H.
      by rewrite <- app_assoc in H.
    - apply (strip_with_warning []). }
  repeat split; exact Hs.
Qed.

Lemma failed_request_shows_the_error_witness :
  let self' :=
    completed (fun s => s)
      (Yield (lit "Hello ") (Raises (OtherException (lit "quota exceeded"))))
      (ui.set_input_edit (lit "helo wrld") ready_window) in
  _status_label (ui.ui_state self') = warn (lit "quota exceeded")
  /\ ui.output_edit self' = lit "Hello " ++ [10; 10] ++ warn (lit "quota exceeded")
  /\ ui.worker self' = None
  /\ isEnabled (_copy_btn (ui.ui_state self')) = true.
Proof.
  destruct (failed_request_shows_the_error (fun s => s)
              (ui.set_input_edit (lit "helo wrld") ready_window)
              (Yield (lit "Hello ") (Raises (OtherException (lit "quota exceeded"))))
              (OtherException (lit "quota exceeded")))
    as (H1 & H2 & H3 & _ & _ & _ & H4).
  - vm_compute. eauto.
  - reflexivity.
  - vm_compute. discriminate.
  - reflexivity.
  - reflexivity.
  - vm_compute. discriminate.
  - split; [exact H1 |]. split; [exact H2 |]. split; [exact H3 | exact H4].
Defined.

(** X17.  A submission with an active client, no running worker and an
    input that holds text starts exactly one worker, for a prompt that
    ends with the trimmed input, and keeps it as the running worker of
    the window; the output is emptied, the recorded error cleared, the
    status says the request is being worked on, and submit, clear and
    copy are disabled; the input is left as typed. *)
Theorem submission_starts_one_worker
    (unicode_lower : pystr -> pystr)
    (genai_configure genai_GenerativeModel : pystr -> option pystr)
    (save_config_raises : AppConfig pystr -> option exn)
    (accepted : option payload) (self : ui.TextHelperApp)
    (the_service : GeminiService) :
  ui.gemini_service self = Some the_service ->
  ui.worker_running self = false ->
  strip (ui.input_edit self) <> [] ->
  let '(self', effects, r) :=
    ui.on_submit unicode_lower genai_configure genai_GenerativeModel
      save_config_raises accepted self in
  exists prompt,
    r = Ok tt
    /\ effects = [worker_start prompt]
    /\ strip (ui.input_edit self) `suffix_of` prompt
    /\ ui.worker self'
       = Some {| service := the_service; prompt := prompt; isRunning := true |}
    /\ ui.worker_running self' = true
    /\ ui.output_edit self' = []
    /\ ui.input_edit self' = ui.input_edit self
    /\ ui._last_error_message self' = None
    /\ _status_label (ui.ui_state self') = lit "Working with Gemini" ++ ellipsis
    /\ isEnabled (_submit_btn (ui.ui_state self')) = false
    /\ isEnabled (_clear_btn (ui.ui_state self')) = false
    /\ isEnabled (_copy_btn (ui.ui_state self')) = false
    /\ ui.gemini_service self' = Some the_service.
Proof.
  intros Hsvc Hrun Htext.
  rewrite (on_submit_starts unicode_lower genai_configure genai_GenerativeModel
             save_config_raises
             accepted self the_service Hsvc Hrun Htext).
  exists (ui._build_prompt unicode_lower (strip (ui.input_edit self)) self).
  split; [done |]. split; [done |]. split.
  - unfold ui._build_prompt, build_grammar_prompt, build_translation_prompt.
    destruct (ui.mode self); rewrite !app_assoc; by apply suffix_app_r.
  - destruct self. simpl in *. by subst.
Qed.

Lemma submission_starts_one_worker_witness :
  (ui.on_submit (fun s => s) no_failure no_failure save_succeeds None
     (ui.set_input_edit (lit " helo wrld ") ready_window)).1.2
  = [worker_start (build_grammar_prompt (lit "helo wrld"))].
Proof.
  pose proof (submission_starts_one_worker (fun s => s) no_failure no_failure save_succeeds None
                (ui.set_input_edit (lit " helo wrld ") ready_window)
                {| service_api_key := lit "stored-key";
                   service_model_name := DEFAULT_MODEL_NAME |}) as H.
  destruct (ui.on_submit _ _ _ _ None _) as [[self' effects] r] eqn:E.
  destruct H as (prompt & _ & H & _).
  - reflexivity.
  - reflexivity.
  - vm_compute. discriminate.
  - vm_compute in E. by injection E as <- <- <-.
Defined.

Section StreamingStatus.

Lemma deliver_partials_into_output (cs : list pystr) (self : ui.TextHelperApp) :
  ui.output_edit self <> [] ->
  ui.deliver (partial <$> cs) self
  = (ui.set_output_edit (ui.output_edit self ++ concat cs) self, [], Ok tt).
Proof.
  revert self. induction cs as [|c cs IH]; intros self Hout.
  - simpl. rewrite app_nil_r. by destruct self.
  - change (ui.deliver (partial <$> c :: cs) self)
      with (ui.seq (ui.update_output c) (fun _ => ui.deliver (partial <$> cs)) self).
    rewrite (seq_pure _ _ _ _ _ (update_output_spec c self)).
    destruct self as [? ? ? ? ? ? ? ? ? ? out ? ?]. simpl in *.
    destruct out as [|d out]; [done |]. simpl.
    rewrite IH by done. simpl. by rewrite <- app_assoc.
Qed.

End StreamingStatus.

(** X18.  While chunks arrive the window stays in its processing state:
    after a first chunk that is not empty and any further chunks, the
    output is their concatenation behind what it held, the status is
    "Streaming response" (set by the first chunk that found the output
    empty, and not again), and the buttons, the worker and the recorded
    error are as the chunks found them; no effect is emitted. *)
Theorem chunks_stream_into_the_output
    (c : pystr) (cs : list pystr) (self : ui.TextHelperApp) :
  c <> [] ->
  let '(self', effects, r) := ui.deliver (partial <$> c :: cs) self in
  r = Ok tt
  /\ effects = []
  /\ ui.output_edit self' = ui.output_edit self ++ concat (c :: cs)
  /\ _status_label (ui.ui_state self')
     = (if str_truthy (ui.output_edit self) then _status_label (ui.ui_state self)
        else lit "Streaming response" ++ ellipsis)
  /\ _submit_btn (ui.ui_state self') = _submit_btn (ui.ui_state self)
  /\ _clear_btn (ui.ui_state self') = _clear_btn (ui.ui_state self)
  /\ _copy_btn (ui.ui_state self') = _copy_btn (ui.ui_state self)
  /\ ui.worker self' = ui.worker self
  /\ ui._last_error_message self' = ui._last_error_message self.
Proof.
  intros Hc.
  change (ui.deliver (partial <$> c :: cs) self)
    with (ui.seq (ui.update_output c) (fun _ => ui.deliver (partial <$> cs)) self).
  rewrite (seq_pure _ _ _ _ _ (update_output_spec c self)).
  rewrite deliver_partials_into_output.
  - destruct self as [? ? ? ? ? ? ? ? ? ? out ? ?]. simpl.
    destruct out; simpl; by rewrite <- ?app_assoc.
  - destruct self as [? ? ? ? ? ? ? ? ? ? out ? ?]. simpl.
    destruct out, c; done.
Qed.

Lemma chunks_stream_into_the_output_witness :
  let self := submitted (fun s => s) (ui.set_input_edit (lit "helo wrld") ready_window) in
  let '(self', effects, r) :=
    ui.deliver (partial <$> [lit "Hello "; lit "world!"]) self in
  ui.output_edit self' = lit "Hello world!"
  /\ _status_label (ui.ui_state self') = lit "Streaming response" ++ ellipsis
  /\ isEnabled (_submit_btn (ui.ui_state self')) = false.
Proof.
  intros self.
  pose proof (chunks_stream_into_the_output (lit "Hello ") [lit "world!"] self) as H.
  destruct (ui.deliver _ self) as [[self' effects] r].
  destruct H as (_ & _ & H1 & H2 & H3 & _); [vm_compute; discriminate |].
  split; [exact H1 |]. split; [exact H2 |]. by rewrite H3.
Defined.

(** X19.  [on_finished] always brings the window back to ready: submit
    and clear are enabled, submit and copy carry their default labels,
    copy is enabled exactly when the output holds more than white space,
    the worker reference and the recorded error are released, and
    neither the input nor the output changes; the worker is scheduled
    for deletion exactly when there was one. *)
Theorem finished_returns_to_ready (self : ui.TextHelperApp) :
  let '(self', effects, r) := ui.on_finished self in
  r = Ok tt
  /\ effects = match ui.worker self with
               | Some _ => [worker_deleteLater]
               | None => []
               end
  /\ ui.worker self' = None
  /\ ui._last_error_message self' = None
  /\ ui.output_edit self' = ui.output_edit self
  /\ ui.input_edit self' = ui.input_edit self
  /\ _submit_btn (ui.ui_state self')
     = {| text := _submit_default_text (ui.ui_state self); isEnabled := true |}
  /\ isEnabled (_clear_btn (ui.ui_state self')) = true
  /\ _copy_btn (ui.ui_state self')
     = {| text := _copy_default_text (ui.ui_state self);
          isEnabled := str_truthy (strip (ui.output_edit self)) |}
  /\ ui.gemini_service self' = ui.gemini_service self.
Proof.
  rewrite on_finished_spec.
  destruct self as [? ? ? [w|] ? ? ? ? ? ? ? ? ?]; by simpl.
Qed.

Section ActivationResult.

Lemma activation_ok_result
    (genai_configure genai_GenerativeModel : pystr -> option pystr)
    (key model : pystr) (self : ui.TextHelperApp) (the_service : GeminiService) :
  GeminiService_init genai_configure genai_GenerativeModel key model = Ok the_service ->
  ui._activate_service genai_configure genai_GenerativeModel key model self
  = (ui.set_settings_model_name model
       (ui.set_api_key key (ui.set_gemini_service (Some the_service) self)),
     [], Ok true).
Proof. intros H. unfold ui._activate_service. rewrite H. by exec. Qed.

End ActivationResult.

(** X20.  When the client can be constructed, [_activate_service] returns
    [True] without a message or an effect: the new client, bound to the
    given key and model, replaces the old one, the stored key and the
    model name of the settings become the given ones, and the rest of the
    window (default language, [config.api_key], status, buttons, worker)
    is left alone. *)
Theorem activation_replaces_the_client
    (genai_configure genai_GenerativeModel : pystr -> option pystr)
    (key model : pystr) (self : ui.TextHelperApp) (the_service : GeminiService) :
  GeminiService_init genai_configure genai_GenerativeModel key model = Ok the_service ->
  let '(self', effects, r) :=
    ui._activate_service genai_configure genai_GenerativeModel key model self in
  r = Ok true
  /\ effects = []
  /\ ui.gemini_service self'
     = Some {| service_api_key := key; service_model_name := model |}
  /\ ui.api_key self' = key
  /\ model_name (ui.settings self') = model
  /\ default_language (ui.settings self') = default_language (ui.settings self)
  /\ api_key (ui.config self') = api_key (ui.config self)
  /\ ui.ui_state self' = ui.ui_state self
  /\ ui.worker self' = ui.worker self.
Proof.
  intros H. unfold ui._activate_service. rewrite H. exec. simpl.
  unfold gemini_service.GeminiService_init, _configure_client in H.
  destruct key as [|c key]; [done |]. simpl in H.
  destruct (genai_configure (c :: key)); [done |]. simpl in H.
  destruct (genai_GenerativeModel model); [done |]. injection H as <-.
  by destruct self as [[? []] ? ? ? ? ? ? ? ? ? ? ? ?].
Qed.

Lemma activation_replaces_the_client_witness :
  let '(self', effects, r) :=
    ui._activate_service no_failure no_failure (lit "fresh-key") (lit "gemini-1.5-pro")
      ready_window in
  r = Ok true
  /\ ui.api_key self' = lit "fresh-key"
  /\ model_name (ui.settings self') = lit "gemini-1.5-pro"
  /\ api_key (ui.config self') = lit "stored-key".
Proof.
  pose proof (activation_replaces_the_client no_failure no_failure
                (lit "fresh-key") (lit "gemini-1.5-pro") ready_window _ eq_refl) as H.
  destruct (ui._activate_service _ _ _ _ ready_window) as [[self' effects] r].
  destruct H as (H1 & _ & _ & H2 & H3 & _ & H4 & _).
  split; [exact H1 |]. split; [exact H2 |]. split; [exact H3 | by rewrite H4].
Defined.

(** X21.  An exception of the client library, being no [GeminiAPIError],
    is not caught: it leaves [_activate_service], [_apply_settings] (when
    it has to activate) and [_on_startup_key_validated] with the window
    exactly as it was, no message shown and nothing saved. *)
Theorem library_exception_leaves_the_window
    (unicode_lower : pystr -> pystr)
    (genai_configure genai_GenerativeModel : pystr -> option pystr)
    (save_config_raises : AppConfig pystr -> option exn)
    (settings_ : payload) (message : pystr) (self : ui.TextHelperApp) :
  GeminiService_init genai_configure genai_GenerativeModel
    (p_api_key settings_) (p_model_name settings_)
  = Raise (OtherException message) ->
  ui._activate_service genai_configure genai_GenerativeModel
    (p_api_key settings_) (p_model_name settings_) self
  = (self, [], Raise (OtherException message))
  /\ (ui.needs_activation settings_ self = true ->
      ui._apply_settings unicode_lower genai_configure genai_GenerativeModel
        save_config_raises settings_ self
      = (self, [], Raise (OtherException message)))
  /\ (p_model_name settings_ = model_name (ui.settings self) ->
      ui._on_startup_key_validated genai_configure genai_GenerativeModel
        (p_api_key settings_) self
      = (self, [], Raise (OtherException message))).
Proof.
  intros H.
  assert (Ha : ui._activate_service genai_configure genai_GenerativeModel
                 (p_api_key settings_) (p_model_name settings_) self
               = (self, [], Raise (OtherException message))).
  { unfold ui._activate_service. by rewrite H. }
  split; [exact Ha |]. split.
  - intros Hneed. unfold ui._apply_settings. exec. rewrite Hneed.
    unfold ui.seq. by rewrite Ha.
  - intros Hm. unfold ui._on_startup_key_validated. exec. rewrite <- Hm.
    unfold ui.seq. by rewrite Ha.
Qed.

Lemma library_exception_leaves_the_window_witness :
  ui._apply_settings (fun s => s) no_failure (fun _ => Some (lit "unknown model"))
    save_succeeds
    {| p_api_key := lit "fresh-key"; p_default_language := lit "fr";
       p_model_name := lit "gemini-0" |} ready_window
  = (ready_window, [], Raise (OtherException (lit "unknown model"))).
Proof.
  destruct (library_exception_leaves_the_window (fun s => s) no_failure
              (fun _ => Some (lit "unknown model")) save_succeeds
              {| p_api_key := lit "fresh-key"; p_default_language := lit "fr";
                 p_model_name := lit "gemini-0" |}
              (lit "unknown model") ready_window eq_refl) as (_ & H & _).
  exact (H eq_refl).
Defined.



(** X23.  A settings dialog that is closed without accepted settings
    changes nothing and emits nothing, unless a key was required and the
    window has no client or no stored key: then the blocking notice is
    shown and the window closes, giving up its worker and its validator
    after asking the running ones to stop. *)
Theorem declined_settings_close_only_when_key_required
    (unicode_lower : pystr -> pystr)
    (genai_configure genai_GenerativeModel : pystr -> option pystr)
    (save_config_raises : AppConfig pystr -> option exn)
    (require_key : bool) (self : ui.TextHelperApp) :
  let must_close :=
    require_key
    && (negb (bool_decide (is_Some (ui.gemini_service self)))
        || negb (str_truthy (ui.api_key self))) in
  let '(self', effects, r) :=
    ui.open_settings unicode_lower genai_configure genai_GenerativeModel save_config_raises
      require_key None self in
  r = Ok tt
  /\ (must_close = false -> self' = self /\ effects = [])
  /\ (must_close = true ->
      head effects
      = Some (QMessageBox_critical (lit "API Key Required")
                (lit "WriteIQ cannot run without a valid Gemini API key."))
      /\ ui.closed self' = true
      /\ ui.worker self' = None
      /\ ui._key_validator self' = None
      /\ ui.config self' = ui.config self
      /\ (worker_requestInterruption ∈ effects <-> ui.worker_running self = true)
      /\ (validator_requestInterruption ∈ effects <-> validator_running self = true)).
Proof.
  intros must_close. subst must_close. unfold ui.open_settings. exec.
  destruct (require_key && _).
  - unfold ui.close, ui.closeEvent. exec.
    destruct self as [? ? ? [[? ? []]|] [[? ? []]|] ? ? ? ? ? ? ? ?];
      simpl; exec; simpl;
      (split; [done |]); (split; [done |]); intros _;
      repeat split; try done;
      try (intros H; repeat (apply elem_of_cons in H as [H|H]; [discriminate H |]);
           by apply elem_of_nil in H);
      try (intros _; repeat constructor).
  - split; [done |]. split; [| done]. by destruct self.
Qed.

Lemma declined_settings_close_only_when_key_required_witness :
  let fresh :=
    (ui.TextHelperApp_init (fun s => s)
       {| api_key := []; settings := {| default_language := lit "cs";
                                        model_name := DEFAULT_MODEL_NAME |} |}).1.1 in
  ui.open_settings (fun s => s) no_failure no_failure save_succeeds false None fresh
  = (fresh, [], Ok tt)
  /\ ui.closed
       (ui.open_settings (fun s => s) no_failure no_failure save_succeeds
          true None fresh).1.1 = true.
Proof.
  intros fresh.
  pose proof (declined_settings_close_only_when_key_required (fun s => s)
                no_failure no_failure save_succeeds false fresh) as H1.
  pose proof (declined_settings_close_only_when_key_required (fun s => s)
                no_failure no_failure save_succeeds true fresh) as H2.
  cbv zeta in H1, H2.
  destruct (ui.open_settings _ _ _ _ false None fresh) as [[s1 e1] r1].
  destruct (ui.open_settings _ _ _ _ true None fresh) as [[s2 e2] r2].
  destruct H1 as (-> & H1 & _). destruct H2 as (_ & _ & H2).
  destruct (H1 eq_refl) as [-> ->]. destruct (H2 eq_refl) as (_ & Hc & _).
  by split.
Defined.

(** X24.  [closeEvent] gives up the worker and the validator, asks
    exactly the running ones to stop, waits for the worker at most
    1500 ms and for the validator at most 500 ms, so for 2000 ms at most
    in all, and changes nothing else in the window. *)
Theorem close_event_releases_the_threads (self : ui.TextHelperApp) :
  let '(self', effects, r) := ui.closeEvent self in
  r = Ok tt
  /\ self' = ui.set_key_validator None (ui.set_worker None self)
  /\ effects
     = (if ui.worker_running self
        then [worker_requestInterruption; worker_wait 1500] else [])
       ++ (if validator_running self
           then [validator_requestInterruption; validator_wait 500] else [])
  /\ (0 <= total_wait effects <= 2000)%Z.
Proof.
  unfold ui.closeEvent. exec.
  destruct self as [? ? ? [[? ? []]|] [[? ? []]|] ? ? ? ? ? ? ? ?];
    simpl; exec; simpl; repeat split; done.
Qed.

(** X25.  [_start_validator] makes the given validator the current one
    and starts it, once; a previous validator is asked to stop first,
    exactly when it is still running, and is not waited for.  Nothing
    else in the window changes. *)
Theorem start_validator_replaces_the_previous
    (validator : GeminiKeyValidator) (self : ui.TextHelperApp) :
  let '(self', effects, r) := ui._start_validator validator self in
  r = Ok tt
  /\ self'
     = ui.set_key_validator
         (Some {| v_api_key := v_api_key validator;
                  v_model_name := v_model_name validator; v_isRunning := true |})
         self
  /\ effects
     = (if validator_running self then [validator_requestInterruption] else [])
       ++ [validator_start (v_api_key validator) (v_model_name validator)]
  /\ total_wait effects = 0%Z.
Proof.
  unfold ui._start_validator. exec.
  destruct self as [? ? ? ? [[? ? []]|] ? ? ? ? ? ? ? ?];
    simpl; exec; simpl; repeat split; done.
Qed.

(** X26.  [_init_services] validates the stored key when there is one,
    with the model of the settings, and says so in the status; without a
    stored key it starts no validator, says that a key is required and
    schedules the settings dialog, requiring a key, 100 ms later. *)
Theorem init_services_validates_a_stored_key (self : ui.TextHelperApp) :
  let '(self', effects, r) := ui._init_services self in
  r = Ok tt
  /\ (ui.api_key self <> [] ->
      last effects
      = Some (validator_start (strip (ui.api_key self))
                (model_name (ui.settings self)))
      /\ ui._key_validator self'
         = Some {| v_api_key := strip (ui.api_key self);
                   v_model_name := model_name (ui.settings self);
                   v_isRunning := true |}
      /\ _status_label (ui.ui_state self')
         = lit "Validating stored API key" ++ ellipsis)
  /\ (ui.api_key self = [] ->
      effects = [QTimer_singleShot 100 call_open_settings_require_key]
      /\ ui._key_validator self' = ui._key_validator self
      /\ _status_label (ui.ui_state self')
         = lit "API key required. Open settings to continue.")
  /\ ui.gemini_service self' = ui.gemini_service self
  /\ ui.worker self' = ui.worker self
  /\ ui.config self' = ui.config self.
Proof.
  unfold ui._init_services, ui._start_validator, ui._set_status. exec.
  destruct self as [? key ? ? [[? ? []]|] ? ? ? ? ? ? ? ?];
    destruct key as [|c key]; simpl; exec; simpl; repeat split; done.
Qed.

Lemma init_services_validates_a_stored_key_witness :
  let fresh := (ui.TextHelperApp_init (fun s => s) stored_config).1.1 in
  (ui._init_services fresh).1.2
  = [validator_start (lit "stored-key") (lit "gemini-2.5-flash")].
Proof.
  intros fresh.
  pose proof (init_services_validates_a_stored_key fresh) as H.
  destruct (ui._init_services fresh) as [[self' effects] r] eqn:E.
  destruct H as (_ & H & _).
  destruct H as (H & _); [vm_compute; discriminate |].
  vm_compute in E. by injection E as <- <- <-.
Defined.

(** X27.  Switching the mode changes the mode, the visibility of the
    language selector (shown exactly in translate mode) and the status,
    emits nothing and touches neither the worker nor the client, the
    input, the output, the buttons or the configuration; the next prompt
    is the grammar prompt after [on_mode_fix] and the translation prompt
    for the selected language after [on_mode_translate]. *)
Theorem mode_switch_leaves_the_request_alone
    (unicode_lower : pystr -> pystr) (text : pystr) (self : ui.TextHelperApp) :
  let target := from_code unicode_lower (currentData (ui.lang_combo self)) in
  ui.on_mode_fix self
  = (ui.set_ui_state (set_status (lit "Grammar mode active.") (ui.ui_state self))
       (ui.set_lang_visible false (ui.set_mode ui.GRAMMAR self)), [], Ok tt)
  /\ ui.on_mode_translate unicode_lower self
     = (ui.set_ui_state
          (set_status (lit "Translate mode to " ++ label target ++ lit ".")
             (ui.ui_state self))
          (ui.set_lang_visible true (ui.set_mode ui.TRANSLATE self)), [], Ok tt)
  /\ ui._build_prompt unicode_lower text (ui.on_mode_fix self).1.1
     = build_grammar_prompt text
  /\ ui._build_prompt unicode_lower text (ui.on_mode_translate unicode_lower self).1.1
     = build_translation_prompt text target
  /\ Forall (fun after =>
               ui.worker after = ui.worker self
               /\ ui.gemini_service after = ui.gemini_service self
               /\ ui.input_edit after = ui.input_edit self
               /\ ui.output_edit after = ui.output_edit self
               /\ ui.config after = ui.config self
               /\ ui.lang_combo after = ui.lang_combo self
               /\ _submit_btn (ui.ui_state after) = _submit_btn (ui.ui_state self)
               /\ _clear_btn (ui.ui_state after) = _clear_btn (ui.ui_state self)
               /\ _copy_btn (ui.ui_state after) = _copy_btn (ui.ui_state self))
       [(ui.on_mode_fix self).1.1; (ui.on_mode_translate unicode_lower self).1.1].
Proof.
  intros target. subst target.
  assert (Hf : ui.on_mode_fix self
               = (ui.set_ui_state (set_status (lit "Grammar mode active.")
                                     (ui.ui_state self))
                    (ui.set_lang_visible false (ui.set_mode ui.GRAMMAR self)),
                  [], Ok tt)).
  { unfold ui.on_mode_fix, ui._set_status. exec. by destruct self. }
  assert (Ht : ui.on_mode_translate unicode_lower self
               = (ui.set_ui_state
                    (set_status (lit "Translate mode to "
                                 ++ label (from_code unicode_lower
                                             (currentData (ui.lang_combo self)))
                                 ++ lit ".")
                       (ui.ui_state self))
                    (ui.set_lang_visible true (ui.set_mode ui.TRANSLATE self)),
                  [], Ok tt)).
  { unfold ui.on_mode_translate, ui._set_status. exec. by destruct self. }
  rewrite Hf, Ht. split; [done |]. split; [done |].
  destruct self. repeat split; repeat constructor.
Qed.

Lemma mode_switch_leaves_the_request_alone_example :
  _status_label
    (ui.ui_state (ui.on_mode_translate (fun s => s) running_window).1.1)
  = lit "Translate mode to Czech."
  /\ ui.worker (ui.on_mode_translate (fun s => s) running_window).1.1
     = ui.worker running_window.
Proof. by vm_compute. Qed.

(** X28.  The two answers to the startup validation.  When the stored key
    was validated and the client can be constructed, the window is ready:
    the client is bound to the key and to the model of the settings, and
    the status is "Ready.".  When the validation failed, the message is
    shown as status and the user is told in a box; if the settings dialog
    that follows is declined while no client is active, the second box is
    shown and the window closes. *)
Theorem startup_validation_readies_or_closes
    (unicode_lower : pystr -> pystr)
    (genai_configure genai_GenerativeModel : pystr -> option pystr)
    (save_config_raises : AppConfig pystr -> option exn)
    (key message : pystr) (self : ui.TextHelperApp) :
  (forall the_service,
     GeminiService_init genai_configure genai_GenerativeModel key
       (model_name (ui.settings self)) = Ok the_service ->
     let '(self', effects, r) :=
       ui._on_startup_key_validated genai_configure genai_GenerativeModel key self in
     r = Ok tt /\ effects = []
     /\ ui.gemini_service self'
        = Some {| service_api_key := key;
                  service_model_name := model_name (ui.settings self) |}
     /\ ui.api_key self' = key
     /\ ui.config self' = ui.config self
     /\ _status_label (ui.ui_state self') = lit "Ready.")
  /\ (ui.gemini_service self = None ->
      let '(self', effects, r) :=
        ui._on_startup_key_failed unicode_lower genai_configure genai_GenerativeModel
          save_config_raises
          message None self in
      r = Ok tt
      /\ _status_label (ui.ui_state self') = warn message
      /\ ui.closed self' = true
      /\ take 2 effects
         = [QMessageBox_warning (lit "API Key Required")
              (lit "The stored Gemini API key is invalid or expired. Please provide a new key.");
            QMessageBox_critical (lit "API Key Required")
              (lit "WriteIQ cannot run without a valid Gemini API key.")]
      /\ ui.worker self' = None
      /\ ui._key_validator self' = None).
Proof.
  split.
  - intros the_service H. unfold ui._on_startup_key_validated. exec.
    rewrite (seq_pure _ _ _ _ _ (activation_ok_result _ _ _ _ self _ H)).
    simpl. unfold ui._set_status, ui.assign.
    unfold gemini_service.GeminiService_init, _configure_client in H.
    destruct key as [|c key]; [done |]. simpl in H.
    destruct (genai_configure (c :: key)); [done |]. simpl in H.
    destruct (genai_GenerativeModel _); [done |]. injection H as <-.
    by destruct self as [[? []] ? ? ? ? ? ? ? ? ? ? ? ?].
  - intros Hsvc. unfold ui._on_startup_key_failed, ui.open_settings, ui._set_status,
      ui.close, ui.closeEvent.
    exec.
    destruct self as [? ? svc [[? ? []]|] [[? ? []]|] ? ? ? ? ? ? ? ?];
      simpl in Hsvc; subst svc; simpl; exec; simpl; repeat split; done.
Qed.

Lemma startup_validation_readies_or_closes_witness :
  let fresh := (ui.TextHelperApp_init (fun s => s) stored_config).1.1 in
  _status_label
    (ui.ui_state
       (ui._on_startup_key_validated no_failure no_failure (lit "stored-key") fresh).1.1)
  = lit "Ready."
  /\ ui.closed
       (ui._on_startup_key_failed (fun s => s) no_failure no_failure save_succeeds
          (lit "API key not valid.") None fresh).1.1 = true.
Proof.
  intros fresh.
  destruct (startup_validation_readies_or_closes (fun s => s) no_failure no_failure save_succeeds
              (lit "stored-key") (lit "API key not valid.") fresh) as [H1 H2].
  specialize (H1 _ eq_refl). specialize (H2 eq_refl).
  destruct (ui._on_startup_key_validated _ _ _ fresh) as [[s1 e1] r1].
  destruct (ui._on_startup_key_failed _ _ _ _ _ None fresh) as [[s2 e2] r2].
  destruct H1 as (_ & _ & _ & _ & _ & H1). destruct H2 as (_ & _ & H2 & _).
  by split.
Defined.

(** ** Invariants of the event loop *)

Create HintDb unfold_handlers.

#[local] Hint Unfold ui._init_services ui._on_startup_key_validated
  ui._on_startup_key_failed ui._handle_settings_validation
  ui._on_settings_validation_success ui._on_settings_validation_failure
  ui.open_settings ui.on_mode_fix ui.on_mode_translate ui.lang_combo_setCurrentIndex
  ui.clear_all ui.copy_output ui.reset_copy_btn ui.on_submit ui.slot ui.close
  ui.closeEvent ui._apply_settings ui._activate_service ui.store_settings
  ui._set_language_selection ui._on_language_changed ui._set_status
  ui._start_validator ui._apply_user_settings ui.update_output
  ui.on_worker_error ui.on_finished ui.skip : unfold_handlers.

(** Walks through an unfolded handler for a property that each
    assignment keeps by computation. *)
Ltac walk_through :=
  repeat autounfold with unfold_handlers;
  repeat first
    [ apply preserves_ret | apply preserves_raise | apply preserves_read
    | apply preserves_emit
    | apply preserves_seq; [| intros ?]
    | apply preserves_assign;
      let s := fresh "s" in let Hs := fresh "Hs" in
      intros s Hs; destruct s; exact Hs
    | match goal with
      | |- preserves _ (if ?b then _ else _) => destruct b
      | |- preserves _ (match ?x with _ => _ end) => destruct x
      end ].

Section SelectorInvariant.

Variable unicode_lower : pystr -> pystr.
Variable genai_configure : pystr -> option pystr.
Variable genai_GenerativeModel : pystr -> option pystr.
Variable save_config_raises : AppConfig pystr -> option exn.

Lemma handle_selector_intact (e : event) :
  preserves selector_intact
    (handle unicode_lower genai_configure genai_GenerativeModel save_config_raises e).
Proof.
  destruct e; simpl; walk_through.
Qed.

Lemma init_selector_intact (config : AppConfig pystr) :
  selector_intact (ui.TextHelperApp_init unicode_lower config).1.1.
Proof.
  unfold ui.TextHelperApp_init.
  match goal with |- selector_intact (ui.seq ?m ?k ?w).1.1 =>
    apply (preserves_seq selector_intact m k) end.
  - walk_through.
  - intros _. apply preserves_emit.
  - reflexivity.
Qed.

End SelectorInvariant.

(** X29.  In every window the program can reach, the language selector
    holds the eleven supported languages, in the order of the
    enumeration; so the language a translation prompt names is the
    selected one whenever an item is selected, and English only when none
    is. *)
Theorem selector_always_holds_the_languages
    (unicode_lower : pystr -> pystr)
    (genai_configure genai_GenerativeModel : pystr -> option pystr)
    (save_config_raises : AppConfig pystr -> option exn)
    (self : ui.TextHelperApp) :
  reachable unicode_lower genai_configure genai_GenerativeModel save_config_raises self ->
  items (ui.lang_combo self) = language_items
  /\ (forall language,
        language_items !! Z.to_nat (currentIndex (ui.lang_combo self))
        = Some (label language, Some (code language)) ->
        (0 <= currentIndex (ui.lang_combo self))%Z ->
        from_code unicode_lower (currentData (ui.lang_combo self)) = language)
  /\ (currentData (ui.lang_combo self) = None ->
      from_code unicode_lower (currentData (ui.lang_combo self)) = ENGLISH).
Proof.
  intros Hreach.
  assert (Hitems : selector_intact self).
  { induction Hreach as [config | s e _ IH Hwf].
    - apply init_selector_intact.
    - by apply handle_selector_intact. }
  split; [exact Hitems |]. split.
  - intros language Hl Hidx. unfold currentData.
    rewrite (proj2 (Z.ltb_ge _ _) Hidx), Hitems, Hl. simpl.
    by destruct language.
  - by intros ->.
Qed.

Lemma selector_always_holds_the_languages_witness :
  items (ui.lang_combo running_window) = language_items
  /\ from_code (fun s => s) (currentData (ui.lang_combo running_window)) = CZECH.
Proof.
  assert (Hreach : reachable (fun s => s) no_failure no_failure save_succeeds running_window).
  { apply (reachable_step _ _ _ _ _ (submit_clicked None)); [| exact I].
    apply (reachable_step _ _ _ _ _ (input_edited (lit "helo wrld"))); [| exact I].
    apply (reachable_step _ _ _ _ _ (validator_success (lit "stored-key")));
      [| discriminate].
    apply reachable_init. }
  destruct (selector_always_holds_the_languages _ _ _ _ _ Hreach) as (H1 & H2 & _).
  split; [exact H1 |]. apply H2; [reflexivity | discriminate].
Defined.

Create HintDb client.

(** As [walk_through], for the handlers named in the goal only; the
    handlers they call are looked up among the proved ones. *)
Ltac walk_steps :=
  repeat first
    [ solve [ eauto with client ]
    | apply preserves_ret | apply preserves_raise | apply preserves_read
    | apply preserves_emit
    | apply preserves_seq; [| intros ?]
    | apply preserves_assign;
      let s := fresh "s" in let Hs := fresh "Hs" in
      intros s Hs; destruct s; exact Hs
    | match goal with
      | |- preserves _ (if ?b then _ else _) => destruct b
      | |- preserves _ (match ?x with _ => _ end) => destruct x
      end ].

Section ClientInvariant.

Variable unicode_lower : pystr -> pystr.
Variable genai_configure : pystr -> option pystr.
Variable genai_GenerativeModel : pystr -> option pystr.
Variable save_config_raises : AppConfig pystr -> option exn.

Lemma GeminiService_init_Ok (key model : pystr) (the_service : GeminiService) :
  GeminiService_init genai_configure genai_GenerativeModel key model = Ok the_service ->
  the_service = {| service_api_key := key; service_model_name := model |}
  /\ key <> [].
Proof.
  unfold gemini_service.GeminiService_init, _configure_client.
  destruct key as [|c key]; [done |]. simpl.
  destruct (genai_configure (c :: key)); [done |]. simpl.
  destruct (genai_GenerativeModel model); [done |]. by intros [= <-].
Qed.

(** After [_activate_service] the client matches the settings, whatever
    the window was; and if it returned [True], the model of the settings
    is the one asked for. *)
Lemma _activate_service_client (key model : pystr) (self : ui.TextHelperApp) :
  client_matches_settings self ->
  client_matches_settings
    (ui._activate_service genai_configure genai_GenerativeModel key model self).1.1
  /\ ((ui._activate_service genai_configure genai_GenerativeModel key model self).2
      = Ok true ->
      model_name
        (ui.settings
           (ui._activate_service genai_configure genai_GenerativeModel key model
              self).1.1) = model).
Proof.
  intros HP.
  destruct (GeminiService_init genai_configure genai_GenerativeModel key model)
    as [svc|e] eqn:E.
  - rewrite (activation_ok_result _ _ _ _ self _ E). simpl.
    apply GeminiService_init_Ok in E as [-> Hkey].
    destruct self as [[? []] ? ? ? ? ? ? ? ? ? ? ? ?]. simpl. split; [| done].
    by intros ? [= <-].
  - unfold ui._activate_service. rewrite E.
    destruct e; simpl; try (split; [exact HP | done]).
    exec. simpl. split; [| done]. destruct self. by intros ? [=].
Qed.

Lemma _activate_service_preserves_client (key model : pystr) :
  preserves client_matches_settings
    (ui._activate_service genai_configure genai_GenerativeModel key model).
Proof. intros s Hs. by apply _activate_service_client. Qed.

Lemma store_settings_client (settings_ : payload) (self : ui.TextHelperApp) :
  client_matches_settings self ->
  p_model_name settings_ = model_name (ui.settings self) ->
  client_matches_settings (ui.store_settings unicode_lower save_config_raises settings_ self).1.1.
Proof.
  intros HP Hm.
  destruct (store_settings_result unicode_lower save_config_raises settings_ self)
    as (c & st & -> & _).
  destruct self as [[? []] ? ? ? ? ? ? ? ? ? ? ? ?]. simpl in *. by subst.
Qed.

Lemma _apply_settings_preserves_client (settings_ : payload) :
  preserves client_matches_settings
    (ui._apply_settings unicode_lower genai_configure genai_GenerativeModel
      save_config_raises settings_).
Proof.
  intros s Hs. unfold ui._apply_settings. exec.
  destruct (ui.needs_activation settings_ s) eqn:Hneed.
  - destruct (_activate_service_client (p_api_key settings_)
                (p_model_name settings_) s Hs) as [HP Hm].
    unfold ui.seq.
    destruct (ui._activate_service _ _ _ _ s) as [[s1 e1] [[]|e]]; simpl in *;
      [| done | done].
    pose proof (store_settings_client settings_ s1 HP
                  (eq_sym (Hm eq_refl))) as H.
    by destruct (ui.store_settings unicode_lower save_config_raises settings_ s1) as [[s2 e2] r2].
  - apply store_settings_client; [done |].
    unfold ui.needs_activation in Hneed.
    apply orb_false_elim in Hneed as [Hneed _].
    apply orb_false_elim in Hneed as [_ Hmodel].
    by apply negb_false_iff, bool_decide_eq_true in Hmodel.
Qed.

Hint Resolve _activate_service_preserves_client _apply_settings_preserves_client
  : client.

Lemma open_settings_preserves_client (require_key : bool) (accepted : option payload) :
  preserves client_matches_settings
    (ui.open_settings unicode_lower genai_configure genai_GenerativeModel save_config_raises
       require_key accepted).
Proof.
  unfold ui.open_settings. destruct accepted; [walk_steps |].
  unfold ui.close, ui.closeEvent. walk_steps.
Qed.

Hint Resolve open_settings_preserves_client : client.

Lemma handle_preserves_client (e : event) :
  preserves client_matches_settings
    (handle unicode_lower genai_configure genai_GenerativeModel save_config_raises e).
Proof.
  destruct e; simpl;
    try (unfold ui._on_startup_key_validated, ui._on_startup_key_failed,
           ui.on_submit, ui._set_status; walk_steps; fail);
    walk_through.
Qed.

Lemma reachable_client_matches_settings (self : ui.TextHelperApp) :
  reachable unicode_lower genai_configure genai_GenerativeModel save_config_raises self ->
  client_matches_settings self.
Proof.
  induction 1 as [config | s e _ IH Hwf].
  - unfold ui.TextHelperApp_init.
    match goal with |- client_matches_settings (ui.seq ?m ?k ?w).1.1 =>
      apply (preserves_seq client_matches_settings m k) end.
    + walk_through.
    + intros _. apply preserves_emit.
    + by intros ? [=].
  - by apply handle_preserves_client.
Qed.

End ClientInvariant.

(** X30.  In every window the program can reach, the active client, if
    any, is bound to the stored key and to the model named in the
    settings, and that key is not empty: the settings shown and saved
    never run ahead of the client in use. *)
Theorem client_always_matches_the_settings
    (unicode_lower : pystr -> pystr)
    (genai_configure genai_GenerativeModel : pystr -> option pystr)
    (save_config_raises : AppConfig pystr -> option exn)
    (self : ui.TextHelperApp) (the_service : GeminiService) :
  reachable unicode_lower genai_configure genai_GenerativeModel save_config_raises self ->
  ui.gemini_service self = Some the_service ->
  service_api_key the_service = ui.api_key self
  /\ service_model_name the_service = model_name (ui.settings self)
  /\ ui.api_key self <> [].
Proof.
  intros Hreach Hsvc.
  destruct (reachable_client_matches_settings _ _ _ _ _ Hreach _ Hsvc) as [-> Hkey].
  done.
Qed.

Lemma client_always_matches_the_settings_witness :
  let after :=
    (ui._apply_settings (fun s => s) no_failure no_failure save_succeeds
       {| p_api_key := lit "key-123"; p_default_language := lit "de";
          p_model_name := lit "gemini-1.5-pro" |} running_window).1.1 in
  ui.api_key after = lit "key-123"
  /\ model_name (ui.settings after) = lit "gemini-1.5-pro"
  /\ ui.gemini_service after
     = Some {| service_api_key := lit "key-123";
               service_model_name := lit "gemini-1.5-pro" |}.
Proof.
  intros after.
  assert (Hreach : reachable (fun s => s) no_failure no_failure save_succeeds after).
  { apply (reachable_step _ _ _ _ _
             (settings_opened false
                (Some {| p_api_key := lit "key-123"; p_default_language := lit "de";
                         p_model_name := lit "gemini-1.5-pro" |})));
      [| discriminate].
    apply (reachable_step _ _ _ _ _ (submit_clicked None)); [| exact I].
    apply (reachable_step _ _ _ _ _ (input_edited (lit "helo wrld"))); [| exact I].
    apply (reachable_step _ _ _ _ _ (validator_success (lit "stored-key")));
      [| discriminate].
    apply reachable_init. }
  destruct (client_always_matches_the_settings _ _ _ _ after
              {| service_api_key := lit "key-123";
                 service_model_name := lit "gemini-1.5-pro" |} Hreach eq_refl)
    as (H1 & H2 & _).
  split; [by rewrite <- H1 |]. split; [by rewrite <- H2 | reflexivity].
Defined.
